(** * Reminder scheduling engine: shallow embedding and verification

    The development follows [scheduler_service.py], [database.py] and the
    toggle handler of [handlers.py].  Python values are modelled as the code
    has them: [int] as [Z], [str] as [string] (ASCII range), the [reminders]
    table as a list of rows in table order, the [settings] table as a finite
    map, and the scheduler's job store as a list of jobs looked up by their
    textual identifier. *)

From Stdlib Require Import ZArith Lia Ascii String.
From stdpp Require Import base option list strings pretty gmap sorting.

Local Open Scope string_scope.
Local Open Scope Z_scope.

(** ** Exceptions and fallible results *)

(** The exceptions of class [Exception] that the code meets, which are
    the ones its [except Exception] clauses catch.  What lies outside
    that class, such as the cancellation of a task, is not part of the
    model. *)
Inductive exn : Type :=
  | ValueError
  | OverflowError
  | ConflictingIdError
  | JobLookupError
  | TelegramForbiddenError
  | TelegramBadRequest (msg : string)
  | OtherError.

Inductive result (A : Type) : Type :=
  | Ok (a : A)
  | Raise (e : exn).
Arguments Ok {A} a.
Arguments Raise {A} e.

Definition rbind {A B} (r : result A) (k : A -> result B) : result B :=
  match r with
  | Ok a => k a
  | Raise e => Raise e
  end.

Notation "'let?' x ':=' r 'in' k" := (rbind r (fun x => k))
  (at level 10, x pattern, r at level 100, k at level 200).

(** ** Python string built-ins used by the scheduler *)

Module Py.

Definition code (c : ascii) : Z := Z.of_N (Ascii.N_of_ascii c).

(** [str.isspace] on the ASCII range: TAB..CR, FS..US and the blank. *)
Definition is_space (c : ascii) : bool :=
  let n := code c in
  (n =? 32) || ((9 <=? n) && (n <=? 13)) || ((28 <=? n) && (n <=? 31)).

Fixpoint lstrip (s : string) : string :=
  match s with
  | String c s' => if is_space c then lstrip s' else s
  | EmptyString => EmptyString
  end.

Definition rstrip (s : string) : string := String.rev (lstrip (String.rev s)).

(** [s.strip()] *)
Definition strip (s : string) : string := rstrip (lstrip s).

(** [s.split(sep)] for a one-character separator: every occurrence of
    [sep] cuts, empty pieces are kept. *)
Fixpoint split (sep : ascii) (s : string) : list string :=
  match s with
  | EmptyString => [EmptyString]
  | String c s' =>
      if Ascii.eqb c sep then EmptyString :: split sep s'
      else match split sep s' with
           | h :: t => String c h :: t
           | [] => [String c EmptyString]
           end
  end.

(** [sep.join(l)] *)
Fixpoint join (sep : string) (l : list string) : string :=
  match l with
  | [] => ""
  | [x] => x
  | x :: l' => x +:+ sep +:+ join sep l'
  end.

Definition digit_val (c : ascii) : option Z :=
  let n := code c in
  if (48 <=? n) && (n <=? 57) then Some (n - 48) else None.

(** Decimal digits, a single underscore being allowed between two digits. *)
Fixpoint int_digits (acc : Z) (after_digit : bool) (s : string) : option Z :=
  match s with
  | EmptyString => if after_digit then Some acc else None
  | String c s' =>
      match digit_val c with
      | Some d => int_digits (10 * acc + d) true s'
      | None =>
          if Ascii.eqb c "_" && after_digit then int_digits acc false s'
          else None
      end
  end.

(** The blanks [int] drops around a number: TAB..CR and the blank.  FS..US,
    which [str.strip] drops, make [int] raise. *)
Definition is_int_space (c : ascii) : bool :=
  let n := code c in
  (n =? 32) || ((9 <=? n) && (n <=? 13)).

Fixpoint int_lstrip (s : string) : string :=
  match s with
  | String c s' => if is_int_space c then int_lstrip s' else s
  | EmptyString => EmptyString
  end.

Definition int_strip (s : string) : string :=
  String.rev (int_lstrip (String.rev (int_lstrip s))).

(** [int(s)] in base ten on a text of the ASCII range: surrounding blanks
    are dropped, one sign is accepted; [None] stands for [ValueError].
    Digits and blanks outside the ASCII range and the interpreter's limit on
    the number of digits are not modelled. *)
Definition int (s : string) : option Z :=
  match int_strip s with
  | String "+" r => int_digits 0 false r
  | String "-" r => Z.opp <$> int_digits 0 false r
  | r => int_digits 0 false r
  end.

(** [str(n)] *)
Definition str (n : Z) : string := pretty n.

(** [s.lower()] on the ASCII range. *)
Definition lower_char (c : ascii) : ascii :=
  let n := code c in
  if (65 <=? n) && (n <=? 90) then Ascii.ascii_of_N (Z.to_N (n + 32)) else c.

Fixpoint lower (s : string) : string :=
  match s with
  | EmptyString => EmptyString
  | String c s' => String (lower_char c) (lower s')
  end.

(** [needle in hay] *)
Fixpoint contains (needle hay : string) : bool :=
  String.prefix needle hay ||
  match hay with
  | EmptyString => false
  | String _ hay' => contains needle hay'
  end.

(** Truthiness of a string: [bool(s)] *)
Definition truthy (s : string) : bool := negb (String.eqb s "").

End Py.

(** ** Naive date-times

    A naive [datetime] of minute resolution is the number of minutes since
    0001-01-01 00:00, the first instant Python represents; the last day is
    9999-12-31, whose ordinal is 3652059. *)

Module Datetime.

Definition minutes_per_day : Z := 1440.
Definition max_ordinal : Z := 3652059.

Definition in_range (t : Z) : bool :=
  (0 <=? t) && (t <? max_ordinal * minutes_per_day).

(** Ordinal of 2000-01-03, a Monday: the reference date of the weekly
    conversion. *)
Definition ordinal_2000_01_03 : Z := 730122.

(** The constructor takes its fields as C integers. *)
Definition fits_c_int (n : Z) : bool := (- 2 ^ 31 <=? n) && (n <? 2 ^ 31).

(** [datetime(2000, 1, 3, hour, minute)] *)
Definition reference (hour minute : Z) : result Z :=
  if negb (fits_c_int hour && fits_c_int minute) then Raise OverflowError
  else if (0 <=? hour) && (hour <=? 23) && (0 <=? minute) && (minute <=? 59)
  then Ok ((ordinal_2000_01_03 - 1) * minutes_per_day + hour * 60 + minute)
  else Raise ValueError.

(** [timedelta(minutes=m)]: the day count is limited to nine digits. *)
Definition timedelta (m : Z) : result Z :=
  if Z.abs (m / minutes_per_day) <=? 999999999 then Ok m
  else Raise OverflowError.

(** [dt - td] *)
Definition sub (dt td : Z) : result Z :=
  if in_range (dt - td) then Ok (dt - td) else Raise OverflowError.

(** [dt.date()] as a day number, [dt.hour], [dt.minute] *)
Definition date (dt : Z) : Z := dt / minutes_per_day.
Definition hour (dt : Z) : Z := (dt mod minutes_per_day) / 60.
Definition minute (dt : Z) : Z := dt mod 60.

End Datetime.

(** ** Trigger compilation: [_job_id], [_shift_days],
    [_convert_bot_time_to_server] *)

Definition _job_id (reminder_id : Z) : string := "rem_" +:+ Py.str reminder_id.

Definition _shift_days (days_str : string) (shift_days : Z) : string :=
  if String.eqb days_str "all" || (shift_days =? 0) then days_str
  else
    let parts :=
      List.filter Py.truthy (Py.strip <$> Py.split "," days_str) in
    let days := omap Py.int parts in
    let shifted := (fun d => Py.str ((d + shift_days) mod 7)) <$> days in
    match shifted with
    | [] => days_str
    | _ => Py.join "," shifted
    end.

Definition _convert_bot_time_to_server (time_str : string) (offset_minutes : Z)
  : result (Z * Z * Z) :=
  match Py.int <$> Py.split ":" time_str with
  | [Some hour; Some minute] =>
      let? base := Datetime.reference hour minute in
      let? td := Datetime.timedelta offset_minutes in
      let? server_dt := Datetime.sub base td in
      let shift_days := Datetime.date server_dt - Datetime.date base in
      Ok (Datetime.hour server_dt, Datetime.minute server_dt, shift_days)
  | _ => Raise ValueError
  end.

(** ** The persisted store ([database.py])

    A row of the [reminders] table, with the columns the scheduler reads;
    the integer columns [active], [needs_confirm] and [is_recurring] are
    kept as SQLite stores them. *)

Record Reminder : Type := {
  r_id : Z;
  r_thread_id : Z;
  r_text : string;
  r_time : string;
  r_days : string;
  r_active : Z;
  r_specific_date : option string;
  r_needs_confirm : Z;
  r_is_recurring : Z
}.

Record Store : Type := {
  reminders : list Reminder;
  settings : gmap string string
}.

Definition set_active (v : Z) (r : Reminder) : Reminder :=
  {| r_id := r_id r; r_thread_id := r_thread_id r; r_text := r_text r;
     r_time := r_time r; r_days := r_days r; r_active := v;
     r_specific_date := r_specific_date r;
     r_needs_confirm := r_needs_confirm r;
     r_is_recurring := r_is_recurring r |}.

Module Db.

(** [SELECT value FROM settings WHERE key = ?], else the default *)
Definition get_setting (key : string) (dflt : option string) (st : Store)
  : option string :=
  match settings st !! key with
  | Some v => Some v
  | None => dflt
  end.

Definition get_reminders (st : Store) : list Reminder := reminders st.

(** [DELETE FROM reminders WHERE id = ?] *)
Definition delete_reminder (reminder_id : Z) (st : Store) : Store :=
  {| reminders :=
       List.filter (fun r => negb (r_id r =? reminder_id)) (reminders st);
     settings := settings st |}.

Definition fetchone (reminder_id : Z) (st : Store) : option Reminder :=
  List.find (fun r => r_id r =? reminder_id) (reminders st).

(** [toggle_reminder_status]: reads [active], writes [0] when it was [1]
    and [1] otherwise, and returns what it wrote; [None] without a row. *)
Definition toggle_reminder_status (reminder_id : Z) (st : Store)
  : Store * option Z :=
  match fetchone reminder_id st with
  | Some row =>
      let new_val := if r_active row =? 1 then 0 else 1 in
      ({| reminders :=
            (fun r => if r_id r =? reminder_id then set_active new_val r else r)
              <$> reminders st;
          settings := settings st |}, Some new_val)
  | None => (st, None)
  end.

End Db.

(** ** The job registry

    A job carries its identifier, the callable with the arguments bound when
    it was armed, and its trigger.  The delivery callback's arguments are the
    reminder snapshot of [send_reminder_job]. *)

Record SendArgs : Type := {
  a_chat_id : Z;
  a_thread_id : Z;
  a_text : string;
  a_rid : Z;
  a_needs_confirm : bool;
  a_is_recurring : bool
}.

Inductive JobFunc : Type :=
  | SendReminderJob (args : SendArgs)
  | RunMaintenanceJob.

Inductive Trigger : Type :=
  | DateTrigger (run_date : Z)
  | CronTrigger (day_of_week : option string) (hour minute : Z).

Record Job : Type := {
  job_id : string;
  job_func : JobFunc;
  job_trigger : Trigger
}.

Record Scheduler : Type := {
  jobs : list Job;
  running : bool
}.

Module Sched.

Definition has_id (id : string) (j : Job) : bool := String.eqb (job_id j) id.

Definition get_job (id : string) (s : Scheduler) : option Job :=
  List.find (has_id id) (jobs s).

Definition is_armed (id : string) (s : Scheduler) : bool :=
  existsb (has_id id) (jobs s).

Definition job_ids (s : Scheduler) : list string := job_id <$> jobs s.

Definition update_job (j : Job) (s : Scheduler) : Scheduler :=
  {| jobs := (fun old => if has_id (job_id j) old then j else old) <$> jobs s;
     running := running s |}.

(** Modelled from the spec: the job store of the scheduling library, which
    is not part of the repository.  [add_job] refuses an identifier that is
    already present unless [replace_existing] is set, in which case the
    stored job is replaced; the position of a job in the store plays no
    role here. *)
Definition add_job (j : Job) (replace_existing : bool) (s : Scheduler)
  : result Scheduler :=
  if is_armed (job_id j) s then
    if replace_existing then Ok (update_job j s)
    else Raise ConflictingIdError
  else Ok {| jobs := jobs s ++ [j]; running := running s |}.

(** Modelled from the spec: [remove_job] of the same library; an absent
    identifier is a lookup error. *)
Definition remove_job (id : string) (s : Scheduler) : result Scheduler :=
  if is_armed id s then
    Ok {| jobs := List.filter (fun j => negb (has_id id j)) (jobs s);
          running := running s |}
  else Raise JobLookupError.

Definition remove_all_jobs (s : Scheduler) : Scheduler :=
  {| jobs := []; running := running s |}.

Definition start (s : Scheduler) : Scheduler :=
  {| jobs := jobs s; running := true |}.

End Sched.

(** ** Log records of the ["scheduler"] logger *)

Inductive Level : Type := INFO | WARNING | ERROR.

Inductive LogMsg : Type :=
  | MsgSent (rid thread_id : Z)
  | MsgOneTimeDeleted (rid : Z)
  | MsgBotKicked (chat_id rid : Z)
  | MsgTargetInvalid (thread_id chat_id rid : Z)
  | MsgBadRequest (rid : Z) (e : string)
  | MsgUnexpected (rid : Z)
  | MsgChatIdNotSet
  | MsgLoaded (count : Z)
  | MsgLoadFailed
  | MsgSkippingPast (fire_time : Z)
  | MsgMaintenanceScheduled.

(** ** The process state and its monad

    The store, the module-level [scheduler] and the log are the state every
    coroutine of [scheduler_service.py] works on.  A computation returns the
    new state together with a value or a raised exception: what was written
    before an exception stays written. *)

Record World : Type := {
  store : Store;
  sched : Scheduler;
  log : list (Level * LogMsg)
}.

Definition M (A : Type) : Type := World -> World * result A.

Definition ret {A} (a : A) : M A := fun w => (w, Ok a).

Definition raise {A} (e : exn) : M A := fun w => (w, Raise e).

Definition bind {A B} (m : M A) (k : A -> M B) : M B :=
  fun w =>
    match m w with
    | (w', Ok a) => k a w'
    | (w', Raise e) => (w', Raise e)
    end.

Definition lift {A} (r : result A) : M A := fun w => (w, r).

Definition try_except {A} (m : M A) (handler : exn -> M A) : M A :=
  fun w =>
    match m w with
    | (w', Ok a) => (w', Ok a)
    | (w', Raise e) => handler e w'
    end.

Notation "x <- m ;; k" := (bind m (fun x => k))
  (at level 20, m at level 99, k at level 200, only parsing).
Notation "' p <- m ;; k" := (bind m (fun x => let 'p := x in k))
  (at level 20, p pattern, m at level 99, k at level 200, only parsing).
Notation "m ;; k" := (bind m (fun _ => k))
  (at level 100, k at level 200, only parsing, right associativity).

Definition exec {A} (m : M A) (w : World) : World := fst (m w).

Definition with_store {A} (f : Store -> Store * A) : M A :=
  fun w =>
    let '(st, a) := f (store w) in
    ({| store := st; sched := sched w; log := log w |}, Ok a).

Definition read_store {A} (f : Store -> A) : M A :=
  fun w => (w, Ok (f (store w))).

Definition with_sched (f : Scheduler -> result Scheduler) : M unit :=
  fun w =>
    match f (sched w) with
    | Ok s => ({| store := store w; sched := s; log := log w |}, Ok tt)
    | Raise e => (w, Raise e)
    end.

Definition read_sched {A} (f : Scheduler -> A) : M A :=
  fun w => (w, Ok (f (sched w))).

Definition logger (lvl : Level) (msg : LogMsg) : M unit :=
  fun w =>
    ({| store := store w; sched := sched w; log := log w ++ [(lvl, msg)] |},
     Ok tt).

(** ** The scheduler service ([scheduler_service.py]) *)

Definition opt_truthy (o : option string) : bool :=
  match o with
  | Some s => Py.truthy s
  | None => false
  end.

(** [f"{o}"] *)
Definition opt_str (o : option string) : string := default "None" o.

Definition int_truthy (n : Z) : bool := negb (n =? 0).

Definition int_or_raise (s : string) : result Z :=
  match Py.int s with
  | Some n => Ok n
  | None => Raise ValueError
  end.

Definition maintenance_job : Job :=
  {| job_id := "weekly_maintenance";
     job_func := RunMaintenanceJob;
     job_trigger := CronTrigger (Some "sun") 3 0 |}.

Section Engine.

(** What the libraries outside the repository compute is taken as given:
    [strptime s] is [datetime.strptime(s, "%Y-%m-%d %H:%M")] as a naive
    date-time, [localize] attaches the scheduler's time zone to a naive
    date-time and yields an instant, and [cron_dow_valid] tells which
    [day_of_week] expressions the cron trigger accepts. *)
Variable strptime : string -> result Z.
Variable localize : Z -> result Z.
Variable cron_dow_valid : string -> bool.

Definition cron_trigger (day_of_week : option string) (hour minute : Z)
  : result Trigger :=
  match day_of_week with
  | Some e =>
      if cron_dow_valid e then Ok (CronTrigger day_of_week hour minute)
      else Raise ValueError
  | None => Ok (CronTrigger None hour minute)
  end.

Definition _get_time_offset_minutes : M Z :=
  raw <- read_store (Db.get_setting "time_offset_minutes" (Some "0")) ;;
  ret (default 0 (Py.int (opt_str raw))).

(** [send_reminder_job]; [outcome] is what [bot.send_message] does: it
    returns ([None]) or raises. *)
Definition send_reminder_job (outcome : option exn)
    (chat_id thread_id : Z) (text : string) (rid : Z)
    (needs_confirm is_recurring : bool) : M unit :=
  try_except
    (match outcome with
     | Some e => raise e
     | None => ret tt
     end ;;
     logger INFO (MsgSent rid thread_id) ;;
     if negb is_recurring then
       with_store (fun st => (Db.delete_reminder rid st, tt)) ;;
       try_except (with_sched (Sched.remove_job (_job_id rid)))
                  (fun _ => ret tt) ;;
       logger INFO (MsgOneTimeDeleted rid)
     else ret tt)
    (fun e =>
       match e with
       | TelegramForbiddenError => logger ERROR (MsgBotKicked chat_id rid)
       | TelegramBadRequest msg =>
           let err_msg := Py.lower msg in
           if Py.contains "thread not found" err_msg
              || Py.contains "chat not found" err_msg
           then
             logger WARNING (MsgTargetInvalid thread_id chat_id rid) ;;
             with_store (Db.toggle_reminder_status rid) ;;
             try_except (with_sched (Sched.remove_job (_job_id rid)))
                        (fun _ => ret tt)
           else logger ERROR (MsgBadRequest rid msg)
       | _ => logger ERROR (MsgUnexpected rid)
       end).

Definition run_job (outcome : option exn) (a : SendArgs) : M unit :=
  send_reminder_job outcome (a_chat_id a) (a_thread_id a) (a_text a)
    (a_rid a) (a_needs_confirm a) (a_is_recurring a).

(** [add_reminder_to_scheduler]; [now] is the reading of
    [datetime.now(tz)]. *)
Definition add_reminder_to_scheduler (now : Z)
    (chat_id thread_id : Z) (text : string) (rid : Z)
    (time_str days_str : string) (needs_confirm : bool)
    (specific_date : option string) (is_recurring : bool) : M unit :=
  offset_minutes <- _get_time_offset_minutes ;;
  if opt_truthy specific_date then
    bot_fire_time <-
      lift (strptime (opt_str specific_date +:+ " " +:+ time_str)) ;;
    td <- lift (Datetime.timedelta offset_minutes) ;;
    naive <- lift (Datetime.sub bot_fire_time td) ;;
    fire_time <- lift (localize naive) ;;
    if fire_time <? now then
      logger WARNING (MsgSkippingPast fire_time) ;;
      ret tt
    else
      with_sched (Sched.add_job
        {| job_id := _job_id rid;
           job_func := SendReminderJob
             {| a_chat_id := chat_id; a_thread_id := thread_id;
                a_text := text; a_rid := rid;
                a_needs_confirm := needs_confirm;
                a_is_recurring := false |};
           job_trigger := DateTrigger fire_time |} true)
  else
    '(hour, minute, shift_days) <-
      lift (_convert_bot_time_to_server time_str offset_minutes) ;;
    let shifted_days_str := _shift_days days_str shift_days in
    let day_of_week :=
      if negb (String.eqb shifted_days_str "all") then Some shifted_days_str
      else None in
    trigger <- lift (cron_trigger day_of_week hour minute) ;;
    with_sched (Sched.add_job
      {| job_id := _job_id rid;
         job_func := SendReminderJob
           {| a_chat_id := chat_id; a_thread_id := thread_id;
              a_text := text; a_rid := rid;
              a_needs_confirm := needs_confirm;
              a_is_recurring := is_recurring |};
         job_trigger := trigger |} true).

(** The body of the [for] loop of [load_reminders]; [clock rid] is the
    reading of the clock while reminder [rid] is armed. *)
Fixpoint load_loop (clock : Z -> Z) (chat_id : string)
    (rs : list Reminder) (count : Z) : M Z :=
  match rs with
  | [] => ret count
  | r :: rs' =>
      if int_truthy (r_active r) then
        cid <- lift (int_or_raise chat_id) ;;
        add_reminder_to_scheduler (clock (r_id r)) cid (r_thread_id r)
          (r_text r) (r_id r) (r_time r) (r_days r)
          (int_truthy (r_needs_confirm r)) (r_specific_date r)
          (int_truthy (r_is_recurring r)) ;;
        load_loop clock chat_id rs' (count + 1)
      else load_loop clock chat_id rs' count
  end.

Definition load_reminders (clock : Z -> Z) : M unit :=
  chat_id <- read_store (Db.get_setting "group_chat_id" None) ;;
  if negb (opt_truthy chat_id) then
    logger WARNING MsgChatIdNotSet ;;
    ret tt
  else
    try_except
      (reminders <- read_store Db.get_reminders ;;
       count <- load_loop clock (opt_str chat_id) reminders 0 ;;
       logger INFO (MsgLoaded count))
      (fun _ => logger ERROR MsgLoadFailed).

Definition start_maintenance_jobs : M unit :=
  with_sched (Sched.add_job maintenance_job true) ;;
  logger INFO MsgMaintenanceScheduled.

Definition reload_scheduler (clock : Z -> Z) : M unit :=
  with_sched (fun s => Ok (Sched.remove_all_jobs s)) ;;
  start_maintenance_jobs ;;
  load_reminders clock ;;
  is_running <- read_sched running ;;
  if negb is_running then with_sched (fun s => Ok (Sched.start s))
  else ret tt.

(** [tog_rem_h] of [handlers.py]: the toggle is written to the store, the
    answer and the refreshed list go to the chat. *)
Definition tog_rem_h (rid : Z) : M unit :=
  new_status <- with_store (Db.toggle_reminder_status rid) ;;
  ret tt.

(** *** The trigger compiler, read off [add_reminder_to_scheduler]

    The two branches of [add_reminder_to_scheduler] up to the call of
    [add_job], as the functions the specification names [compileWeekly]
    and [compileOneShot]; [add_reminder_to_scheduler_plan] below relates
    them to the code. *)

Inductive Compiled : Type :=
  | Skipped (fire_time : Z)
  | PhysicalInstant (fire_time : Z)
  | PhysicalWeekly (hour minute : Z) (weekday_set : string).

Inductive Plan : Type :=
  | Skip (fire_time : Z)
  | Arm (j : Job).

Definition compileWeekly (time_of_day weekday_set : string)
    (offset_minutes : Z) : result Compiled :=
  let? (hour, minute, shift_days) :=
    _convert_bot_time_to_server time_of_day offset_minutes in
  Ok (PhysicalWeekly hour minute (_shift_days weekday_set shift_days)).

(** The physical instant of a one-shot reminder: logical date and time
    minus the offset, in the scheduler's time zone. *)
Definition physical_instant (date time_of_day : string)
    (offset_minutes : Z) : result Z :=
  let? bot_fire_time := strptime (date +:+ " " +:+ time_of_day) in
  let? td := Datetime.timedelta offset_minutes in
  let? naive := Datetime.sub bot_fire_time td in
  localize naive.

Definition compileOneShot (now : Z) (date time_of_day : string)
    (offset_minutes : Z) : result Compiled :=
  let? fire_time := physical_instant date time_of_day offset_minutes in
  if fire_time <? now then Ok (Skipped fire_time)
  else Ok (PhysicalInstant fire_time).

Definition compile (now : Z) (time_str days_str : string)
    (specific_date : option string) (offset_minutes : Z) : result Compiled :=
  if opt_truthy specific_date
  then compileOneShot now (opt_str specific_date) time_str offset_minutes
  else compileWeekly time_str days_str offset_minutes.

(** What a call of [add_reminder_to_scheduler] does to the registry: it
    installs a job, or skips an elapsed one-shot. *)
Definition plan (now offset_minutes : Z) (chat_id thread_id : Z)
    (text : string) (rid : Z) (time_str days_str : string)
    (needs_confirm : bool) (specific_date : option string)
    (is_recurring : bool) : result Plan :=
  let args rec :=
    SendReminderJob
      {| a_chat_id := chat_id; a_thread_id := thread_id; a_text := text;
         a_rid := rid; a_needs_confirm := needs_confirm;
         a_is_recurring := rec |} in
  let? c := compile now time_str days_str specific_date offset_minutes in
  match c with
  | Skipped fire_time => Ok (Skip fire_time)
  | PhysicalInstant fire_time =>
      Ok (Arm {| job_id := _job_id rid; job_func := args false;
                 job_trigger := DateTrigger fire_time |})
  | PhysicalWeekly hour minute days =>
      let day_of_week :=
        if negb (String.eqb days "all") then Some days else None in
      let? trigger := cron_trigger day_of_week hour minute in
      Ok (Arm {| job_id := _job_id rid; job_func := args is_recurring;
                 job_trigger := trigger |})
  end.

Definition plan_of (clock : Z -> Z) (offset_minutes chat_id : Z)
    (r : Reminder) : result Plan :=
  plan (clock (r_id r)) offset_minutes chat_id (r_thread_id r) (r_text r)
    (r_id r) (r_time r) (r_days r) (int_truthy (r_needs_confirm r))
    (r_specific_date r) (int_truthy (r_is_recurring r)).

(** An active reminder for which a job is installed. *)
Definition armed_by_load (clock : Z -> Z) (offset_minutes chat_id : Z)
    (r : Reminder) : bool :=
  int_truthy (r_active r) &&
  match plan_of clock offset_minutes chat_id r with
  | Ok (Arm _) => true
  | _ => false
  end.

(** Arming the reminder raises no exception. *)
Definition compiles (clock : Z -> Z) (offset_minutes chat_id : Z)
    (r : Reminder) : bool :=
  match plan_of clock offset_minutes chat_id r with
  | Ok _ => true
  | Raise _ => false
  end.

Definition compile_of (clock : Z -> Z) (offset_minutes : Z) (r : Reminder)
  : result Compiled :=
  compile (clock (r_id r)) (r_time r) (r_days r) (r_specific_date r)
    offset_minutes.

Definition is_skipped (c : result Compiled) : bool :=
  match c with
  | Ok (Skipped _) => true
  | _ => false
  end.

(** A reminder that is active in the store and whose compiled schedule is
    not [Skipped]. *)
Definition active_not_skipped (clock : Z -> Z) (offset_minutes : Z)
    (r : Reminder) : bool :=
  int_truthy (r_active r)
  && negb (is_skipped (compile_of clock offset_minutes r)).

End Engine.

(** The offset the settings table holds, as [_get_time_offset_minutes]
    reads it. *)
Definition time_offset (st : Store) : Z :=
  default 0 (Py.int (opt_str (Db.get_setting "time_offset_minutes" (Some "0") st))).

(** [arm]: what [add_job] with [replace_existing=True] does to the store. *)
Definition arm (j : Job) (s : Scheduler) : Scheduler :=
  if Sched.is_armed (job_id j) s then Sched.update_job j s
  else {| jobs := jobs s ++ [j]; running := running s |}.

Definition set_sched (s : Scheduler) (w : World) : World :=
  {| store := store w; sched := s; log := log w |}.

Definition set_store (st : Store) (w : World) : World :=
  {| store := st; sched := sched w; log := log w |}.

Definition add_log (lvl : Level) (msg : LogMsg) (w : World) : World :=
  {| store := store w; sched := sched w; log := log w ++ [(lvl, msg)] |}.

Definition apply_plan (p : Plan) (w : World) : World :=
  match p with
  | Skip fire_time => add_log WARNING (MsgSkippingPast fire_time) w
  | Arm j => set_sched (arm j (sched w)) w
  end.

(** The registry invariant: no identifier occurs twice in the job store. *)
Definition one_job_per_id (s : Scheduler) : Prop := NoDup (Sched.job_ids s).

(** A computation keeps the registry invariant. *)
Definition keeps_one_job_per_id {A} (m : M A) : Prop :=
  forall w, one_job_per_id (sched w) -> one_job_per_id (sched (fst (m w))).

(** The jobs that answer to an identifier. *)
Definition jobs_for (id : string) (s : Scheduler) : list Job :=
  List.filter (Sched.has_id id) (jobs s).

(** [remove_job] inside [try: ... except Exception: pass]: the job is gone
    afterwards whether or not it was there. *)
Definition discard (id : string) (s : Scheduler) : Scheduler :=
  {| jobs := List.filter (fun j => negb (Sched.has_id id j)) (jobs s);
     running := running s |}.

(** The delivery failures that disable a reminder: a bad request whose
    lower-cased text names a missing thread or chat. *)
Definition invalid_target (e : exn) : bool :=
  match e with
  | TelegramBadRequest msg =>
      Py.contains "thread not found" (Py.lower msg)
      || Py.contains "chat not found" (Py.lower msg)
  | _ => false
  end.

Definition failure_msg (chat_id rid : Z) (e : exn) : LogMsg :=
  match e with
  | TelegramForbiddenError => MsgBotKicked chat_id rid
  | TelegramBadRequest msg => MsgBadRequest rid msg
  | _ => MsgUnexpected rid
  end.

Definition reminder_ids (st : Store) : list Z := r_id <$> reminders st.

(** ** Reference instances of the library functions

    Concrete readings of the three library functions, used to run the
    engine on examples.  [Calendar.strptime_iso] agrees with [strptime] on
    zero-padded [YYYY-MM-DD HH:MM] input and reports everything else as a
    [ValueError]; [localize_almaty] is the fixed offset UTC+05:00, instants
    being microseconds; [cron_weekdays] accepts comma-separated weekday
    numbers. *)

Module Calendar.

Definition is_leap (y : Z) : bool :=
  (y mod 4 =? 0) && (negb (y mod 100 =? 0) || (y mod 400 =? 0)).

Definition days_before_year (y : Z) : Z :=
  let p := y - 1 in p * 365 + p / 4 - p / 100 + p / 400.

Definition days_in_month (y m : Z) : Z :=
  if m =? 2 then (if is_leap y then 29 else 28)
  else if (m =? 4) || (m =? 6) || (m =? 9) || (m =? 11) then 30
  else 31.

Definition days_before_month (y m : Z) : Z :=
  foldr Z.add 0 (days_in_month y <$> seqZ 1 (m - 1)).

Definition ymd2ord (y m d : Z) : Z :=
  days_before_year y + days_before_month y m + d.

Definition all_digits (s : string) : bool :=
  forallb (fun c => bool_decide (is_Some (Py.digit_val c)))
          (list_ascii_of_string s).

Definition fixed_int (width : nat) (s : string) : option Z :=
  if (String.length s =? width)%nat && all_digits s
  then Py.int_digits 0 false s else None.

Definition parse (s : string) : option Z :=
  match Py.split " " s with
  | [d; t] =>
      match Py.split "-" d, Py.split ":" t with
      | [ys; ms; ds], [hs; mins] =>
          y ← fixed_int 4 ys;
          m ← fixed_int 2 ms;
          dd ← fixed_int 2 ds;
          h ← fixed_int 2 hs;
          mi ← fixed_int 2 mins;
          if (1 <=? y) && (1 <=? m) && (m <=? 12) && (1 <=? dd)
             && (dd <=? days_in_month y m) && (h <=? 23) && (mi <=? 59)
          then Some ((ymd2ord y m dd - 1) * Datetime.minutes_per_day
                     + h * 60 + mi)
          else None
      | _, _ => None
      end
  | _ => None
  end.

Definition strptime_iso (s : string) : result Z :=
  match parse s with
  | Some t => Ok t
  | None => Raise ValueError
  end.

End Calendar.

Definition localize_almaty (naive : Z) : result Z :=
  Ok ((naive - 300) * 60000000).

Definition cron_weekdays (e : string) : bool :=
  forallb (fun p => match Py.int p with
                    | Some d => (0 <=? d) && (d <=? 6)
                    | None => false
                    end)
          (Py.split "," e).

(** A weekly reminder and a world built from rows, settings and jobs. *)
Definition weekly_reminder (id active : Z) (time days : string) : Reminder :=
  {| r_id := id; r_thread_id := 1; r_text := "t"; r_time := time;
     r_days := days; r_active := active; r_specific_date := None;
     r_needs_confirm := 0; r_is_recurring := 1 |}.

Definition one_shot_reminder (id active : Z) (date time : string)
    (recurring : Z) : Reminder :=
  {| r_id := id; r_thread_id := 1; r_text := "t"; r_time := time;
     r_days := ""; r_active := active; r_specific_date := Some date;
     r_needs_confirm := 0; r_is_recurring := recurring |}.

Definition mk_world (rows : list Reminder) (conf : list (string * string))
    (js : list Job) : World :=
  {| store := {| reminders := rows; settings := list_to_map conf |};
     sched := {| jobs := js; running := true |};
     log := [] |}.

Definition send_job (rid : Z) (recurring : bool) (t : Trigger) : Job :=
  {| job_id := _job_id rid;
     job_func := SendReminderJob
       {| a_chat_id := 1; a_thread_id := 1; a_text := "t"; a_rid := rid;
          a_needs_confirm := false; a_is_recurring := recurring |};
     job_trigger := t |}.

(** Weekday sets as the store writes them: comma-joined digits; and the
    numbers [_shift_days] reads out of such a string. *)
Definition encode_days (ds : list Z) : string := Py.join "," (Py.str <$> ds).

Definition parse_days (days_str : string) : list Z :=
  omap Py.int (List.filter Py.truthy (Py.strip <$> Py.split "," days_str)).

(** ** The settings table and the handlers that write it

    [set_setting] stores [str(value)]; the callers below pass a text or
    the decimal text of an integer. *)

Definition set_setting (key value : string) (st : Store) : Store :=
  {| reminders := reminders st; settings := <[key := value]> (settings st) |}.

(** [add_reminder]: the row gets the defaults of the schema ([active] is 1)
    and the identifier the engine hands out, [lastrowid]. *)
Definition add_reminder (lastrowid thread_id : Z) (text time days : string)
    (needs_confirm : bool) (specific_date : option string)
    (is_recurring : bool) (st : Store) : Store * Z :=
  ({| reminders :=
        reminders st ++
        [ {| r_id := lastrowid; r_thread_id := thread_id; r_text := text;
             r_time := time; r_days := days; r_active := 1;
             r_specific_date := specific_date;
             r_needs_confirm := if needs_confirm then 1 else 0;
             r_is_recurring := if is_recurring then 1 else 0 |} ];
      settings := settings st |}, lastrowid).

(** The fields the creation dialogue has collected in the FSM data; a
    field that was never set is [None]. *)
Record FormData : Type := {
  f_thread_id : option Z;
  f_text : option string;
  f_time : option string;
  f_days : option string;
  f_needs_confirm : option Z;
  f_specific_date : option string;
  f_is_recurring : option Z
}.

(** The weekday selection in the FSM data: the list the day buttons build,
    or a text. *)
Inductive DaysField : Type :=
  | DaysList (sel : list string)
  | DaysStr (s : string).

(** [l.remove(x)] for an [x] that occurs: the first occurrence goes. *)
Fixpoint remove_first (x : string) (l : list string) : list string :=
  match l with
  | [] => []
  | y :: l' => if String.eqb y x then l' else y :: remove_first x l'
  end.

(** [t_day]: the new selection after a day button. *)
Definition t_day (day : string) (sel : list string) : list string :=
  if bool_decide (day ∈ sel) then remove_first day sel else sel ++ [day].

(** [f_rem]: the weekday text that is saved; [None] when nothing is
    selected and the dialogue stays where it is. *)
Definition f_rem (days : DaysField) : option string :=
  match days with
  | DaysList [] => None
  | DaysList sel => Some (Py.join "," (merge_sort String.le sel))
  | DaysStr s => if Py.truthy s then Some s else None
  end.

(** [f"{n:02d}"] *)
Definition fmt_02d (n : Z) : string :=
  if (0 <=? n) && (n <? 10) then "0" +:+ Py.str n else Py.str n.

(** [adjust_time_h]: the time shown after a button of the time picker. *)
Definition adjust_time_h (t_str adj : string) : result string :=
  match Py.int <$> Py.split ":" t_str with
  | [Some h; Some m] =>
      let? (h', m') :=
        if String.eqb adj "+1h" then Ok ((h + 1) mod 24, m)
        else if String.eqb adj "-1h" then Ok ((h - 1) mod 24, m)
        else if String.eqb adj "+5m" then Ok (h, (m + 5) mod 60)
        else if String.eqb adj "-5m" then Ok (h, (m - 5) mod 60)
        else if String.prefix "m" adj then
          let? m1 := int_or_raise (String.substring 1 (String.length adj - 1) adj) in
          Ok (h, m1)
        else Ok (h, m) in
      Ok (fmt_02d h' +:+ ":" +:+ fmt_02d m')
  | _ => Raise ValueError
  end.

(** The calls of [time_input_finish] that leave the store and the registry
    alone and may raise: the replies to the chat, the reset of the dialogue
    state and the rendering of the settings menu. *)
Inductive UiCall : Type :=
  | AnswerInvalidFormat
  | StateClear
  | AnswerTimeSet (offset_minutes : Z)
  | SettingsMenuKb
  | AnswerSettingsMenu.

(** Such a call returns or raises, as [ui] says. *)
Definition call (ui : UiCall -> option exn) (c : UiCall) : M unit :=
  lift (match ui c with
        | Some e => Raise e
        | None => Ok tt
        end).

Section Handlers.

Variable strptime : string -> result Z.
Variable localize : Z -> result Z.
Variable cron_dow_valid : string -> bool.

(** [cmd_bind]: binds the chat of the message; [admin_ids] is [ADMIN_IDS]
    of the configuration. *)
Definition cmd_bind (admin_ids : list Z) (from_user_id : Z)
    (chat_type : string) (chat_id : Z) : M unit :=
  if negb (bool_decide (from_user_id ∈ admin_ids)) then ret tt
  else if negb (bool_decide (chat_type ∈ ["group"; "supergroup"])) then ret tt
  else
    with_store (fun st => (set_setting "group_chat_id" (Py.str chat_id) st, tt)).

(** [tog_welcome] *)
Definition tog_welcome : M unit :=
  cur <- read_store (Db.get_setting "welcome_enabled" (Some "0")) ;;
  let new_val :=
    if bool_decide (cur = Some "0") then "1" else "0" in
  with_store (fun st => (set_setting "welcome_enabled" new_val st, tt)).

(** [time_adjust]: [val] is the text of the pressed button.  The answer
    and the redrawn menu, which come after the reload and leave the store
    and the registry alone, are left out. *)
Definition time_adjust (clock : Z -> Z) (val : string) : M unit :=
  delta <- lift (int_or_raise val) ;;
  cur <- _get_time_offset_minutes ;;
  let new_val := cur + delta in
  with_store (fun st =>
    (set_setting "time_offset_minutes" (Py.str new_val) st, tt)) ;;
  reload_scheduler strptime localize cron_dow_valid clock.

(** [time_input_finish]: [text] is the text of the message, [server_hour]
    and [server_minute] are the fields of [datetime.now(tz)], and [ui]
    tells what each call to the chat and to the dialogue state does.
    [_safe_delete] contains its own failure and leaves no trace here. *)
Definition time_input_finish (ui : UiCall -> option exn) (clock : Z -> Z)
    (server_hour server_minute : Z) (text : option string) : M unit :=
  let raw := Py.strip (default "" text) in
  let invalid := call ui AnswerInvalidFormat in
  match Py.split ":" raw with
  | [h_str; m_str] =>
      match Py.int h_str, Py.int m_str with
      | Some h, Some m =>
          if (0 <=? h) && (h <=? 23) && (0 <=? m) && (m <=? 59) then
            let offset_minutes :=
              (h * 60 + m) - (server_hour * 60 + server_minute) in
            with_store (fun st =>
              (set_setting "time_offset_minutes" (Py.str offset_minutes) st, tt)) ;;
            reload_scheduler strptime localize cron_dow_valid clock ;;
            call ui StateClear ;;
            call ui (AnswerTimeSet offset_minutes) ;;
            call ui SettingsMenuKb ;;
            call ui AnswerSettingsMenu
          else invalid
      | _, _ => invalid
      end
  | _ => invalid
  end.

(** [c_del]: [val] is the identifier the button carries. *)
Definition c_del (val : string) : M unit :=
  rid <- lift (int_or_raise val) ;;
  with_store (fun st => (Db.delete_reminder rid st, tt)) ;;
  try_except (with_sched (Sched.remove_job ("rem_" +:+ Py.str rid)))
             (fun _ => ret tt).

(** [confirm_reminder_h]: with a field missing the session has expired and
    nothing is saved. *)
Definition confirm_reminder_h (now lastrowid : Z) (data : FormData) : M unit :=
  match f_thread_id data, f_text data, f_time data, f_days data,
        f_needs_confirm data with
  | Some thread_id, Some text, Some time, Some days, Some needs_confirm =>
      rid <- with_store
               (add_reminder lastrowid thread_id text time days
                  (int_truthy needs_confirm) (f_specific_date data)
                  (int_truthy (default 1 (f_is_recurring data)))) ;;
      chat_id <- read_store (Db.get_setting "group_chat_id" None) ;;
      if opt_truthy chat_id then
        cid <- lift (int_or_raise (opt_str chat_id)) ;;
        add_reminder_to_scheduler strptime localize cron_dow_valid now cid
          thread_id text rid time days (int_truthy needs_confirm)
          (f_specific_date data)
          (int_truthy (default 1 (f_is_recurring data)))
      else ret tt
  | _, _, _, _, _ => ret tt
  end.

End Handlers.

(** ** Topics and their cache ([database.py])

    The [topics] table is keyed by the thread identifier; [topics_cache]
    is the module-level set of known thread identifiers.  Names are byte
    strings, and a placeholder name starts with the bytes of the prefix. *)

Record Topics : Type := {
  topics : gmap Z string;
  topics_cache : gset Z
}.

Module TopicsDb.

Definition generic_prefix : string := "Топик ".

Definition is_generic (name : string) : bool := String.prefix generic_prefix name.

Definition set_topic_name (thread_id : Z) (name : string) (t : Topics) : Topics :=
  {| topics := <[thread_id := name]> (topics t);
     topics_cache := topics_cache t ∪ {[ thread_id ]} |}.

Definition get_topic_name (thread_id : Z) (t : Topics) : string :=
  match topics t !! thread_id with
  | Some name => name
  | None => generic_prefix +:+ Py.str thread_id
  end.

Definition add_topic_if_not_exists (thread_id : Z) (name : string)
    (t : Topics) : Topics :=
  if bool_decide (thread_id ∈ topics_cache t) then
    if negb (is_generic name) then
      match topics t !! thread_id with
      | Some old =>
          if is_generic old
          then {| topics := <[thread_id := name]> (topics t);
                  topics_cache := topics_cache t |}
          else t
      | None => t
      end
    else t
  else
    {| topics := match topics t !! thread_id with
                 | Some _ => topics t
                 | None => <[thread_id := name]> (topics t)
                 end;
       topics_cache := topics_cache t ∪ {[ thread_id ]} |}.

Definition delete_topic (thread_id : Z) (t : Topics) : Topics :=
  {| topics := delete thread_id (topics t);
     topics_cache := topics_cache t ∖ {[ thread_id ]} |}.

Definition get_all_topics (t : Topics) : list (Z * string) :=
  map_to_list (topics t).

(** The cache knows exactly the threads of the table. *)
Definition cache_in_sync (t : Topics) : Prop := topics_cache t = dom (topics t).

End TopicsDb.

(** A computation leaves the store as it is. *)
Definition keeps_store {A} (m : M A) : Prop :=
  forall w, store (fst (m w)) = store w.

(** A computation returns: it raises in no state. *)
Definition never_raises {A} (m : M A) : Prop :=
  forall w, exists a, snd (m w) = Ok a.

(** Every character of a text satisfies a test. *)
Fixpoint all_chars (P : ascii -> bool) (s : string) : bool :=
  match s with
  | EmptyString => true
  | String c s' => P c && all_chars P s'
  end.

Definition is_digit (c : ascii) : bool := bool_decide (is_Some (Py.digit_val c)).

(** [f"{n:02d}"] is two digits that read back as [n]. *)
Definition two_digit_text (n : Z) : bool :=
  match fmt_02d n with
  | String c1 (String c2 EmptyString) =>
      is_digit c1 && is_digit c2 && bool_decide (Py.int (fmt_02d n) = Some n)
  | _ => false
  end.

(** The row [confirm_reminder_h] hands to [add_reminder]; [None] while a
    required field is missing. *)
Definition form_row (lastrowid : Z) (data : FormData) : option Reminder :=
  match f_thread_id data, f_text data, f_time data, f_days data,
        f_needs_confirm data with
  | Some thread_id, Some text, Some time, Some days, Some needs_confirm =>
      Some {| r_id := lastrowid; r_thread_id := thread_id; r_text := text;
              r_time := time; r_days := days; r_active := 1;
              r_specific_date := f_specific_date data;
              r_needs_confirm := if int_truthy needs_confirm then 1 else 0;
              r_is_recurring :=
                if int_truthy (default 1 (f_is_recurring data)) then 1 else 0 |}
  | _, _, _, _, _ => None
  end.

(** The buttons of the time picker ([get_time_picker_kb]). *)
Definition picker_buttons : list string :=
  ["+1h"; "-1h"; "+5m"; "-5m"; "m00"; "m15"; "m30"; "m45"].

(** Canonical times of day, as the time picker writes them. *)
Definition time_text (h m : Z) : string := fmt_02d h +:+ ":" +:+ fmt_02d m.

(** The position of a weekly trigger in the week, in minutes from Monday
    00:00. *)
Definition minute_of_week (day hour minute : Z) : Z :=
  (day * 1440 + hour * 60 + minute) mod 10080.

(** A store that [load_reminders] goes through without a failure: the chat
    is bound to the integer [cid], identifiers are a key of the table, and
    arming raises for no active reminder. *)
Definition loads_without_failure (strptime : string -> result Z)
    (localize : Z -> result Z) (cron_dow_valid : string -> bool)
    (clock : Z -> Z) (st : Store) (cid : Z) : Prop :=
  (exists cid_str,
     Db.get_setting "group_chat_id" None st = Some cid_str
     /\ Py.int cid_str = Some cid)
  /\ NoDup (reminder_ids st)
  /\ forall r, r ∈ reminders st -> int_truthy (r_active r) = true ->
       compiles strptime localize cron_dow_valid clock (time_offset st) cid r
       = true.

(** The job a reminder of the store stands for: the job compiled from its
    row when it is active and not skipped. *)
Definition job_of (strptime : string -> result Z) (localize : Z -> result Z)
    (cron_dow_valid : string -> bool) (clock : Z -> Z) (st : Store) (cid : Z)
    (r : Reminder) : list Job :=
  if int_truthy (r_active r) then
    match plan_of strptime localize cron_dow_valid clock (time_offset st) cid r with
    | Ok (Arm j) => [j]
    | _ => []
    end
  else [].

(** The registry holds what a reload leaves for a store: the maintenance
    job, for every reminder of the store the job it stands for, and no job
    for an identifier that is not in the store. *)
Definition registry_as_loaded (strptime : string -> result Z)
    (localize : Z -> result Z) (cron_dow_valid : string -> bool)
    (clock : Z -> Z) (st : Store) (cid : Z) (s : Scheduler) : Prop :=
  jobs_for "weekly_maintenance" s = [maintenance_job]
  /\ (forall r, r ∈ reminders st ->
        jobs_for (_job_id (r_id r)) s
        = job_of strptime localize cron_dow_valid clock st cid r)
  /\ (forall rid, (rid ∉ reminder_ids st) -> jobs_for (_job_id rid) s = []).

(** The welcome switch as [settings_menu_kb] and the new-member handler
    read it: [get_setting("welcome_enabled", "0") == "1"]. *)
Definition welcome_enabled (st : Store) : bool :=
  bool_decide (Db.get_setting "welcome_enabled" (Some "0") st = Some "1").

(** * Verification *)

(** The two helper checks of the repository's system test. *)
Example convert_test_system :
  _convert_bot_time_to_server "00:30" 120 = Ok (22, 30, -1).
Proof. vm_compute. reflexivity. Qed.

Example shift_test_system : _shift_days "0,2,6" (-1) = "6,1,5".
Proof. vm_compute. reflexivity. Qed.

(** ** Weekday strings *)

Section WeekdayStrings.

Lemma split_cut (sep c : ascii) (rest : string) :
  Ascii.eqb c sep = false ->
  Py.split sep (String c (String sep rest)) = String c "" :: Py.split sep rest.
Proof.
  intros Hc. cbn [Py.split]. rewrite Hc, Ascii.eqb_refl. reflexivity.
Qed.

(** A weekday number prints as one digit, which is neither a separator
    nor blank, is truthy and reads back as the number. *)
Lemma weekday_digit (d : Z) :
  0 <= d < 7 ->
  exists c, Py.str d = String c ""
            /\ Ascii.eqb c "," = false
            /\ Py.strip (String c "") = String c ""
            /\ Py.truthy (String c "") = true
            /\ Py.int (String c "") = Some d
            /\ Ascii.eqb c "a" = false.
Proof.
  intros Hd.
  assert (d = 0 \/ d = 1 \/ d = 2 \/ d = 3 \/ d = 4 \/ d = 5 \/ d = 6)
    as Hcases by lia.
  repeat (destruct Hcases as [-> | Hcases]); [ .. | subst d ];
    eexists; repeat split; vm_compute; reflexivity.
Qed.

Lemma parse_days_encode (d : Z) (ds : list Z) :
  Forall (fun x => 0 <= x < 7) (d :: ds) ->
  parse_days (encode_days (d :: ds)) = d :: ds.
Proof.
  revert d. induction ds as [| d' ds IH]; intros d Hall.
  - apply Forall_inv in Hall.
    destruct (weekday_digit d Hall) as (c & Hs & Hsep & Hstrip & Ht & Hint & _).
    unfold parse_days, encode_days. cbn [fmap list_fmap Py.join].
    rewrite Hs. cbn [Py.split]. rewrite Hsep.
    cbn [fmap list_fmap List.filter]. rewrite Hstrip, Ht.
    cbn [omap list_omap]. rewrite Hint. reflexivity.
  - pose proof (Forall_inv Hall) as Hd. apply Forall_inv_tail in Hall.
    destruct (weekday_digit d Hd) as (c & Hs & Hsep & Hstrip & Ht & Hint & _).
    specialize (IH d' Hall). unfold parse_days, encode_days in *.
    cbn [fmap list_fmap Py.join] in *.
    rewrite Hs. change (String c "" +:+ "," +:+ ?r) with (String c (String "," r)).
    rewrite split_cut by exact Hsep.
    cbn [fmap list_fmap List.filter]. rewrite Hstrip, Ht.
    cbn [omap list_omap]. rewrite Hint.
    f_equal. exact IH.
Qed.

Lemma encode_days_not_all (ds : list Z) :
  Forall (fun x => 0 <= x < 7) ds -> String.eqb (encode_days ds) "all" = false.
Proof.
  intros Hall. destruct ds as [| d ds]; [reflexivity |].
  pose proof (Forall_inv Hall) as Hd.
  destruct (weekday_digit d Hd) as (c & Hs & _ & _ & _ & _ & Ha).
  unfold encode_days. cbn [fmap list_fmap Py.join]. rewrite Hs.
  destruct ds; cbn [fmap list_fmap];
    [| change (String c "" +:+ "," +:+ ?r) with (String c (String "," r)) ];
    cbn [String.eqb]; rewrite Ha; reflexivity.
Qed.

(** Shifting a set of weekdays shifts each of them, modulo seven. *)
Lemma shift_days_encode (ds : list Z) (shift : Z) :
  Forall (fun x => 0 <= x < 7) ds ->
  _shift_days (encode_days ds) shift
  = encode_days ((fun d => (d + shift) mod 7) <$> ds).
Proof.
  intros Hall. unfold _shift_days.
  rewrite (encode_days_not_all ds Hall). cbn [orb].
  destruct (Z.eqb_spec shift 0) as [-> | Hne].
  - f_equal. induction Hall as [| d ds Hd _ IH]; [reflexivity |].
    cbn [fmap list_fmap]. rewrite Z.add_0_r, Z.mod_small by lia.
    f_equal. exact IH.
  - destruct ds as [| d ds]; [reflexivity |].
    fold (parse_days (encode_days (d :: ds))).
    rewrite (parse_days_encode d ds Hall).
    unfold encode_days. rewrite <- list_fmap_compose.
    cbn [fmap list_fmap]. reflexivity.
Qed.

End WeekdayStrings.

(** ** C2 and C3: the weekly compiler *)

(** C2: [compileWeekly] shifts every weekday of the set by the day shift the
    offset induces, modulo seven.  Logical Monday 00:30 with offset +120 is
    physical 22:30 on Sunday (day shift -1), logical Monday 23:30 with
    offset -120 is physical 01:30 on Tuesday (day shift +1); for every set
    of weekdays and every offset the compiled set is the image of the set
    under the shift modulo seven. *)
Theorem C2_compile_weekly_shifts_days :
  (_convert_bot_time_to_server "00:30" 120 = Ok (22, 30, -1)
   /\ compileWeekly "00:30" "0" 120 = Ok (PhysicalWeekly 22 30 "6"))
  /\ (_convert_bot_time_to_server "23:30" (-120) = Ok (1, 30, 1)
      /\ compileWeekly "23:30" "0" (-120) = Ok (PhysicalWeekly 1 30 "1"))
  /\ (forall (time_of_day : string) (ds : list Z) (offset_minutes : Z),
        compileWeekly time_of_day (encode_days ((fun d => d mod 7) <$> ds))
          offset_minutes
        = let? (hour, minute, shift) :=
            _convert_bot_time_to_server time_of_day offset_minutes in
          Ok (PhysicalWeekly hour minute
                (encode_days ((fun d => (d mod 7 + shift) mod 7) <$> ds)))).
Proof.
  split; [| split].
  - split; vm_compute; reflexivity.
  - split; vm_compute; reflexivity.
  - intros time_of_day ds offset_minutes. unfold compileWeekly.
    destruct (_convert_bot_time_to_server time_of_day offset_minutes)
      as [[[h m] s] | e]; [| reflexivity].
    cbn [rbind]. do 2 f_equal.
    rewrite shift_days_encode.
    + rewrite <- list_fmap_compose. reflexivity.
    + apply Forall_fmap, Forall_forall. intros x _. cbn.
      apply Z.mod_pos_bound. lia.
Qed.

(** ** The registry: arming and removing *)

Section RegistryFacts.

Implicit Types (s : Scheduler) (j : Job) (id : string).

Lemma has_id_true id j : Sched.has_id id j = true <-> job_id j = id.
Proof. unfold Sched.has_id. apply String.eqb_eq. Qed.

Lemma has_id_false id j : Sched.has_id id j = false <-> job_id j <> id.
Proof. unfold Sched.has_id. apply String.eqb_neq. Qed.

Lemma is_armed_elem id s : Sched.is_armed id s = true <-> id ∈ Sched.job_ids s.
Proof.
  unfold Sched.is_armed, Sched.job_ids. rewrite existsb_exists, list_elem_of_fmap.
  split.
  - intros (j & Hin & Hid). exists j. apply has_id_true in Hid.
    split; [congruence | by apply list_elem_of_In].
  - intros (j & Hid & Hin). exists j.
    split; [by apply list_elem_of_In | by apply has_id_true].
Qed.

Lemma is_armed_not_elem id s : Sched.is_armed id s = false <-> id ∉ Sched.job_ids s.
Proof.
  rewrite <- is_armed_elem. destruct (Sched.is_armed id s); split; congruence.
Qed.

Lemma job_ids_update j s : Sched.job_ids (Sched.update_job j s) = Sched.job_ids s.
Proof.
  unfold Sched.job_ids, Sched.update_job. cbn [jobs].
  rewrite <- list_fmap_compose. apply list_fmap_ext. intros _ old _. cbn.
  destruct (Sched.has_id (job_id j) old) eqn:E; [| reflexivity].
  apply has_id_true in E. congruence.
Qed.

Lemma length_update j s : length (jobs (Sched.update_job j s)) = length (jobs s).
Proof. unfold Sched.update_job. cbn [jobs]. apply length_fmap. Qed.

Lemma add_job_replace j s : Sched.add_job j true s = Ok (arm j s).
Proof. unfold Sched.add_job, arm. destruct (Sched.is_armed (job_id j) s); reflexivity. Qed.

Lemma job_ids_arm id j s :
  id ∈ Sched.job_ids (arm j s) <-> id = job_id j \/ id ∈ Sched.job_ids s.
Proof.
  unfold arm. destruct (Sched.is_armed (job_id j) s) eqn:E.
  - rewrite job_ids_update. apply is_armed_elem in E.
    split; [tauto | intros [-> | H]; assumption].
  - unfold Sched.job_ids. cbn [jobs]. rewrite fmap_app, elem_of_app.
    cbn [fmap list_fmap]. rewrite list_elem_of_singleton. tauto.
Qed.

Lemma arm_one_job_per_id j s : one_job_per_id s -> one_job_per_id (arm j s).
Proof.
  unfold one_job_per_id, arm. intros Hnd.
  destruct (Sched.is_armed (job_id j) s) eqn:E.
  - rewrite job_ids_update. exact Hnd.
  - apply is_armed_not_elem in E. unfold Sched.job_ids in *. cbn [jobs].
    rewrite fmap_app. apply NoDup_app. split; [exact Hnd |].
    split; [| apply NoDup_singleton].
    intros x Hx Hx'. cbn in Hx'. apply list_elem_of_singleton in Hx'. congruence.
Qed.

Lemma running_arm j s : running (arm j s) = running s.
Proof. unfold arm. destruct (Sched.is_armed (job_id j) s); reflexivity. Qed.

Lemma length_arm_armed j s :
  Sched.is_armed (job_id j) s = true -> length (jobs (arm j s)) = length (jobs s).
Proof. intros E. unfold arm. rewrite E. apply length_update. Qed.

Lemma find_update_hit j (l : list Job) :
  existsb (Sched.has_id (job_id j)) l = true ->
  List.find (Sched.has_id (job_id j))
    ((fun old => if Sched.has_id (job_id j) old then j else old) <$> l) = Some j.
Proof.
  induction l as [| a l IH]; cbn [existsb fmap list_fmap List.find]; [discriminate |].
  destruct (Sched.has_id (job_id j) a) eqn:E; cbn [orb].
  - intros _. assert (Sched.has_id (job_id j) j = true) as -> by by apply has_id_true.
    reflexivity.
  - intros H. rewrite E. apply IH, H.
Qed.

Lemma find_app_miss (id : string) (l : list Job) j :
  existsb (Sched.has_id id) l = false ->
  List.find (Sched.has_id id) (l ++ [j]) = List.find (Sched.has_id id) [j].
Proof.
  induction l as [| a l IH]; cbn [existsb app List.find]; [reflexivity |].
  destruct (Sched.has_id id a); cbn [orb]; [discriminate | exact IH].
Qed.

(** After arming, the registry answers with the job just armed. *)
Lemma get_job_arm j s : Sched.get_job (job_id j) (arm j s) = Some j.
Proof.
  unfold arm, Sched.get_job. destruct (Sched.is_armed (job_id j) s) eqn:E.
  - apply find_update_hit, E.
  - cbn [jobs]. rewrite find_app_miss by exact E. cbn [List.find].
    assert (Sched.has_id (job_id j) j = true) as -> by by apply has_id_true.
    reflexivity.
Qed.

Lemma filter_has_id_nil id (l : list Job) :
  id ∉ job_id <$> l -> List.filter (Sched.has_id id) l = [].
Proof.
  induction l as [| a l IH]; cbn [fmap list_fmap List.filter]; [reflexivity |].
  intros Hnot. apply not_elem_of_cons in Hnot as [Hne Hnot].
  destruct (Sched.has_id id a) eqn:E; [| by apply IH].
  apply has_id_true in E. congruence.
Qed.

Lemma filter_has_id_NoDup id (l : list Job) :
  NoDup (job_id <$> l) -> (length (List.filter (Sched.has_id id) l) <= 1)%nat.
Proof.
  induction l as [| a l IH]; cbn [fmap list_fmap List.filter length]; [lia |].
  intros Hnd. apply NoDup_cons in Hnd as [Hnot Hnd].
  destruct (Sched.has_id id a) eqn:E; [| by apply IH].
  apply has_id_true in E. cbn [length].
  rewrite filter_has_id_nil; [cbn; lia | congruence].
Qed.

Lemma filter_not_armed id s :
  Sched.is_armed id s = false ->
  List.filter (fun j => negb (Sched.has_id id j)) (jobs s) = jobs s.
Proof.
  unfold Sched.is_armed. induction (jobs s) as [| a l IH];
    cbn [existsb List.filter]; [reflexivity |].
  destruct (Sched.has_id id a); cbn [orb negb]; [discriminate |].
  intros H. f_equal. apply IH, H.
Qed.

Lemma existsb_filter_out id (l : list Job) :
  existsb (Sched.has_id id) (List.filter (fun j => negb (Sched.has_id id j)) l)
  = false.
Proof.
  induction l as [| a l IH]; cbn [List.filter existsb]; [reflexivity |].
  destruct (Sched.has_id id a) eqn:E; cbn [negb]; [exact IH |].
  cbn [existsb]. rewrite E. exact IH.
Qed.

Lemma discard_not_armed id s : Sched.is_armed id (discard id s) = false.
Proof. unfold Sched.is_armed, discard. cbn [jobs]. apply existsb_filter_out. Qed.

Lemma discard_one_job_per_id id s : one_job_per_id s -> one_job_per_id (discard id s).
Proof.
  unfold one_job_per_id, Sched.job_ids, discard. cbn [jobs].
  induction (jobs s) as [| a l IH]; cbn [fmap list_fmap List.filter]; [done |].
  intros Hnd. apply NoDup_cons in Hnd as [Hnot Hnd].
  destruct (negb (Sched.has_id id a)); [| by apply IH].
  cbn [fmap list_fmap]. apply NoDup_cons. split; [| by apply IH].
  intros Hin. apply Hnot. apply list_elem_of_fmap in Hin as (x & Hx & Hin).
  apply list_elem_of_fmap. exists x. split; [exact Hx |].
  apply list_elem_of_In. apply list_elem_of_In in Hin.
  apply List.filter_In in Hin. tauto.
Qed.

Lemma try_remove_job id (w : World) :
  try_except (with_sched (Sched.remove_job id)) (fun _ => ret tt) w
  = (set_sched (discard id (sched w)) w, Ok tt).
Proof.
  unfold try_except, with_sched, Sched.remove_job, ret, set_sched, discard.
  destruct (Sched.is_armed id (sched w)) eqn:E; [reflexivity |].
  rewrite (filter_not_armed id (sched w) E). destruct w as [st [js r] lg].
  reflexivity.
Qed.

End RegistryFacts.

(** ** The engine in terms of its compiler *)

Section EngineFacts.

Variable strptime : string -> result Z.
Variable localize : Z -> result Z.
Variable cron_dow_valid : string -> bool.

Local Abbreviation add_reminder :=
  (add_reminder_to_scheduler strptime localize cron_dow_valid).
Local Abbreviation the_plan := (plan strptime localize cron_dow_valid).

Lemma get_time_offset (w : World) :
  _get_time_offset_minutes w = (w, Ok (time_offset (store w))).
Proof. reflexivity. Qed.

Lemma with_sched_add_job (j : Job) (w : World) :
  with_sched (Sched.add_job j true) w = (set_sched (arm j (sched w)) w, Ok tt).
Proof. unfold with_sched. rewrite add_job_replace. reflexivity. Qed.

(** [add_reminder_to_scheduler] compiles, then skips or arms; an
    exception leaves the state as it was. *)
Lemma add_reminder_to_scheduler_plan now chat_id thread_id text rid
      time_str days_str needs_confirm specific_date is_recurring w :
  add_reminder now chat_id thread_id text rid time_str days_str
    needs_confirm specific_date is_recurring w
  = match the_plan now (time_offset (store w)) chat_id thread_id text rid
            time_str days_str needs_confirm specific_date is_recurring with
    | Ok p => (apply_plan p w, Ok tt)
    | Raise e => (w, Raise e)
    end.
Proof.
  unfold add_reminder_to_scheduler, bind. rewrite get_time_offset.
  unfold plan, compile. destruct (opt_truthy specific_date).
  - unfold compileOneShot, physical_instant, lift, rbind.
    destruct (strptime _) as [t0 |]; [| reflexivity].
    destruct (Datetime.timedelta _) as [td |]; [| reflexivity].
    destruct (Datetime.sub t0 td) as [naive |]; [| reflexivity].
    destruct (localize naive) as [ft |]; [| reflexivity].
    destruct (ft <? now); [reflexivity |].
    rewrite with_sched_add_job. reflexivity.
  - unfold compileWeekly, lift, rbind.
    destruct (_convert_bot_time_to_server _ _) as [[[h m] sh] |]; [| reflexivity].
    destruct (cron_trigger _ _ _ _) as [trig |]; [| reflexivity].
    rewrite with_sched_add_job. reflexivity.
Qed.

Lemma exec_add_reminder_to_scheduler now chat_id thread_id text rid
      time_str days_str needs_confirm specific_date is_recurring w :
  exec (add_reminder now chat_id thread_id text rid time_str days_str
          needs_confirm specific_date is_recurring) w
  = match the_plan now (time_offset (store w)) chat_id thread_id text rid
            time_str days_str needs_confirm specific_date is_recurring with
    | Ok p => apply_plan p w
    | Raise _ => w
    end.
Proof.
  unfold exec. rewrite add_reminder_to_scheduler_plan.
  destruct (the_plan _ _ _ _ _ _ _ _ _ _ _); reflexivity.
Qed.

Lemma store_apply_plan p w : store (apply_plan p w) = store w.
Proof. destruct p; reflexivity. Qed.

Lemma plan_job_id now off chat_id thread_id text rid time_str days_str
      needs_confirm specific_date is_recurring j :
  the_plan now off chat_id thread_id text rid time_str days_str
    needs_confirm specific_date is_recurring = Ok (Arm j) ->
  job_id j = _job_id rid.
Proof.
  unfold plan, rbind. destruct (compile _ _ _ _ _ _ _) as [[ft | ft | h m d] |];
    try discriminate.
  - intros [= <-]. reflexivity.
  - destruct (cron_trigger _ _ _ _); [| discriminate]. intros [= <-]. reflexivity.
Qed.

End EngineFacts.

(** C3: the "every day" sentinel is invariant under day shifting.  For every
    shift [_shift_days] returns ["all"] unchanged, so for every time of day
    and every offset the compiled weekday component is ["all"]; and the job
    the code arms for such a reminder carries no explicit weekday set. *)
Theorem C3_all_sentinel_invariant :
  (forall shift : Z, _shift_days "all" shift = "all")
  /\ (forall (time_of_day : string) (offset_minutes : Z),
        compileWeekly time_of_day "all" offset_minutes
        = let? (hour, minute, _) :=
            _convert_bot_time_to_server time_of_day offset_minutes in
          Ok (PhysicalWeekly hour minute "all"))
  /\ (forall strptime localize cron_dow_valid now chat_id thread_id text rid
             time_of_day needs_confirm is_recurring w,
        add_reminder_to_scheduler strptime localize cron_dow_valid now chat_id
          thread_id text rid time_of_day "all" needs_confirm None is_recurring w
        = match _convert_bot_time_to_server time_of_day
                  (time_offset (store w)) with
          | Ok (hour, minute, _) =>
              (set_sched
                 (arm {| job_id := _job_id rid;
                         job_func := SendReminderJob
                           {| a_chat_id := chat_id; a_thread_id := thread_id;
                              a_text := text; a_rid := rid;
                              a_needs_confirm := needs_confirm;
                              a_is_recurring := is_recurring |};
                         job_trigger := CronTrigger None hour minute |}
                      (sched w)) w, Ok tt)
          | Raise e => (w, Raise e)
          end).
Proof.
  split; [| split].
  - intros shift. reflexivity.
  - intros time_of_day offset_minutes. unfold compileWeekly.
    destruct (_convert_bot_time_to_server time_of_day offset_minutes)
      as [[[h m] s] | e]; reflexivity.
  - intros. rewrite add_reminder_to_scheduler_plan.
    unfold plan, compile, compileWeekly. cbn [opt_truthy].
    destruct (_convert_bot_time_to_server time_of_day (time_offset (store w)))
      as [[[h m] s] | e]; reflexivity.
Qed.

(** ** C4 and C10: one-shot reminders *)

Section OneShot.

Variable strptime : string -> result Z.
Variable localize : Z -> result Z.
Variable cron_dow_valid : string -> bool.

Local Abbreviation add_reminder :=
  (add_reminder_to_scheduler strptime localize cron_dow_valid).

Lemma plan_one_shot now off chat_id thread_id text rid time_str days_str
      needs_confirm specific_date is_recurring fire_time :
  opt_truthy specific_date = true ->
  physical_instant strptime localize (opt_str specific_date) time_str off
  = Ok fire_time ->
  plan strptime localize cron_dow_valid now off chat_id thread_id text rid
    time_str days_str needs_confirm specific_date is_recurring
  = if fire_time <? now then Ok (Skip fire_time)
    else Ok (Arm {| job_id := _job_id rid;
                    job_func := SendReminderJob
                      {| a_chat_id := chat_id; a_thread_id := thread_id;
                         a_text := text; a_rid := rid;
                         a_needs_confirm := needs_confirm;
                         a_is_recurring := false |};
                    job_trigger := DateTrigger fire_time |}).
Proof.
  intros Hdate Hinst. unfold plan, compile, compileOneShot.
  rewrite Hdate, Hinst. cbn [rbind]. destruct (fire_time <? now); reflexivity.
Qed.

End OneShot.

(** C4 (amended): a one-shot reminder is skipped exactly when its physical
    instant (logical date and time minus the offset) lies strictly before
    the current physical time.  A skipped reminder is logged with a warning
    and nothing else changes: no job is armed, the registry and the store
    are as before.  An instant that is not in the past, the current instant
    included, is armed with a date trigger at that instant. *)
Theorem C4_one_shot_skipped_iff_past :
  forall strptime localize cron_dow_valid now chat_id thread_id text rid
         time_str days_str needs_confirm date is_recurring w fire_time,
    Py.truthy date = true ->
    physical_instant strptime localize date time_str (time_offset (store w))
    = Ok fire_time ->
    let w' := exec (add_reminder_to_scheduler strptime localize cron_dow_valid
                      now chat_id thread_id text rid time_str days_str
                      needs_confirm (Some date) is_recurring) w in
    (compileOneShot strptime localize now date time_str (time_offset (store w))
     = Ok (Skipped fire_time) <-> fire_time < now)
    /\ (fire_time < now ->
        sched w' = sched w /\ store w' = store w
        /\ log w' = (log w ++ [(WARNING, MsgSkippingPast fire_time)])%list)
    /\ (now <= fire_time ->
        Sched.get_job (_job_id rid) (sched w')
        = Some {| job_id := _job_id rid;
                  job_func := SendReminderJob
                    {| a_chat_id := chat_id; a_thread_id := thread_id;
                       a_text := text; a_rid := rid;
                       a_needs_confirm := needs_confirm;
                       a_is_recurring := false |};
                  job_trigger := DateTrigger fire_time |}
        /\ store w' = store w /\ log w' = log w).
Proof.
  intros until fire_time. intros Hdate Hinst w'. subst w'. unfold exec.
  rewrite add_reminder_to_scheduler_plan.
  rewrite (plan_one_shot strptime localize cron_dow_valid now _ chat_id
             thread_id text rid time_str days_str needs_confirm (Some date)
             is_recurring fire_time Hdate Hinst).
  unfold compileOneShot. rewrite Hinst. cbn [rbind].
  destruct (Z.ltb_spec fire_time now) as [Hlt | Hge]; cbn [fst apply_plan].
  - split; [split; [intros _; exact Hlt | reflexivity] |].
    split; [intros _; repeat split | intros Hle; lia].
  - split; [split; [discriminate | intros Hlt; lia] |].
    split; [intros Hlt; lia | intros _].
    split; [| split; reflexivity].
    cbn [set_sched sched].
    apply (get_job_arm
             {| job_id := _job_id rid;
                job_func := SendReminderJob
                  {| a_chat_id := chat_id; a_thread_id := thread_id;
                     a_text := text; a_rid := rid;
                     a_needs_confirm := needs_confirm;
                     a_is_recurring := false |};
                job_trigger := DateTrigger fire_time |}).
Qed.

(** C4, as first stated, fails when the physical instant equals the current
    time: the instant is not strictly in the future, and yet the reminder
    compiles to a physical instant and its job is armed. *)
Lemma C4_counterexample_instant_is_now :
  let now := 64029070800000000 in
  physical_instant Calendar.strptime_iso localize_almaty "2030-01-01" "10:00" 0
  = Ok now
  /\ ~ (now < now)
  /\ compileOneShot Calendar.strptime_iso localize_almaty now
       "2030-01-01" "10:00" 0 = Ok (PhysicalInstant now)
  /\ Sched.is_armed (_job_id 7)
       (sched (exec (add_reminder_to_scheduler Calendar.strptime_iso
                       localize_almaty cron_weekdays now 1 1 "t" 7 "10:00" ""
                       false (Some "2030-01-01") false)
                    (mk_world [] [] []))) = true.
Proof.
  cbv zeta. split; [vm_compute; reflexivity |].
  split; [lia |]. split; vm_compute; reflexivity.
Qed.

Lemma C4_witness :
  let w := mk_world [] [] [] in
  let w' := exec (add_reminder_to_scheduler Calendar.strptime_iso
                    localize_almaty cron_weekdays 64029070800000001 1 1 "t" 7
                    "10:00" "" false (Some "2030-01-01") false) w in
  (compileOneShot Calendar.strptime_iso localize_almaty 64029070800000001
     "2030-01-01" "10:00" (time_offset (store w))
   = Ok (Skipped 64029070800000000)
   <-> 64029070800000000 < 64029070800000001)
  /\ (64029070800000000 < 64029070800000001 ->
      sched w' = sched w /\ store w' = store w
      /\ log w' = (log w ++ [(WARNING, MsgSkippingPast 64029070800000000)])%list)
  /\ (64029070800000001 <= 64029070800000000 ->
      Sched.get_job (_job_id 7) (sched w')
      = Some {| job_id := _job_id 7;
                job_func := SendReminderJob
                  {| a_chat_id := 1; a_thread_id := 1; a_text := "t";
                     a_rid := 7; a_needs_confirm := false;
                     a_is_recurring := false |};
                job_trigger := DateTrigger 64029070800000000 |}
      /\ store w' = store w /\ log w' = log w).
Proof.
  intros w w'.
  apply (C4_one_shot_skipped_iff_past Calendar.strptime_iso localize_almaty
           cron_weekdays 64029070800000001 1 1 "t" 7 "10:00" "" false
           "2030-01-01" false w 64029070800000000).
  - vm_compute. reflexivity.
  - vm_compute. reflexivity.
Defined.

(** ** C5, C6, C7: the delivery callback *)

Section Delivery.

Implicit Types (w : World) (st : Store).

Lemma delete_reminder_ids rid st :
  reminder_ids (Db.delete_reminder rid st)
  = List.filter (fun i => negb (i =? rid)) (reminder_ids st).
Proof.
  unfold reminder_ids, Db.delete_reminder. cbn [reminders].
  induction (reminders st) as [| r l IH]; cbn [List.filter fmap list_fmap];
    [reflexivity |].
  destruct (negb (r_id r =? rid)); cbn [fmap list_fmap]; rewrite IH; reflexivity.
Qed.

Lemma delete_reminder_gone rid st : rid ∉ reminder_ids (Db.delete_reminder rid st).
Proof.
  rewrite delete_reminder_ids. intros Hin. apply list_elem_of_In in Hin.
  apply List.filter_In in Hin as [_ Hne]. rewrite Z.eqb_refl in Hne. discriminate.
Qed.

Lemma toggle_reminder_ids rid st :
  reminder_ids (fst (Db.toggle_reminder_status rid st)) = reminder_ids st.
Proof.
  unfold Db.toggle_reminder_status, reminder_ids.
  destruct (Db.fetchone rid st); [| reflexivity]. cbn [fst reminders].
  rewrite <- list_fmap_compose. apply list_fmap_ext. intros _ x _. cbn.
  destruct (r_id x =? rid); reflexivity.
Qed.

(** A delivery that succeeds. *)
Lemma send_success chat_id thread_id text rid needs_confirm is_recurring w :
  exec (send_reminder_job None chat_id thread_id text rid needs_confirm
          is_recurring) w
  = if is_recurring then add_log INFO (MsgSent rid thread_id) w
    else add_log INFO (MsgOneTimeDeleted rid)
           (set_sched (discard (_job_id rid) (sched w))
              (set_store (Db.delete_reminder rid (store w))
                 (add_log INFO (MsgSent rid thread_id) w))).
Proof.
  unfold exec, send_reminder_job. unfold try_except at 1. unfold bind.
  destruct is_recurring; cbn [negb]; [reflexivity |].
  cbn [ret logger with_store]. rewrite try_remove_job. reflexivity.
Qed.

(** A delivery that fails on a target that no longer resolves. *)
Lemma send_invalid_target e chat_id thread_id text rid needs_confirm
      is_recurring w :
  invalid_target e = true ->
  exec (send_reminder_job (Some e) chat_id thread_id text rid needs_confirm
          is_recurring) w
  = set_sched (discard (_job_id rid) (sched w))
      (set_store (fst (Db.toggle_reminder_status rid (store w)))
         (add_log WARNING (MsgTargetInvalid thread_id chat_id rid) w)).
Proof.
  intros Hinv. destruct e; try discriminate. cbn [invalid_target] in Hinv.
  unfold exec, send_reminder_job. unfold try_except at 1. unfold bind.
  cbn [raise]. rewrite Hinv. cbn [logger]. unfold with_store. cbn [store].
  destruct (Db.toggle_reminder_status rid (store w)) as [st' v] eqn:E.
  rewrite try_remove_job. reflexivity.
Qed.

(** Any other failure. *)
Lemma send_other_failure e chat_id thread_id text rid needs_confirm
      is_recurring w :
  invalid_target e = false ->
  send_reminder_job (Some e) chat_id thread_id text rid needs_confirm
    is_recurring w
  = (add_log ERROR (failure_msg chat_id rid e) w, Ok tt).
Proof.
  intros Hinv. unfold send_reminder_job, try_except, bind. cbn [raise].
  destruct e; try reflexivity. cbn [invalid_target] in Hinv. rewrite Hinv.
  reflexivity.
Qed.

End Delivery.

(** C5: on a successful delivery a reminder that is not recurring is deleted
    from the store and its job is removed from the registry; a recurring one
    leaves store and registry as they were.  Within the delivery callback
    this is the only path that takes a reminder out of the store: whatever
    the outcome and the flag, the identifiers in the store afterwards are
    those before, less the delivered one exactly on a non-recurring
    success. *)
Theorem C5_success_consumes_one_shot :
  forall chat_id thread_id text rid needs_confirm w,
    (let w' := exec (send_reminder_job None chat_id thread_id text rid
                       needs_confirm false) w in
     store w' = Db.delete_reminder rid (store w)
     /\ (rid ∉ reminder_ids (store w'))
     /\ sched w' = discard (_job_id rid) (sched w)
     /\ Sched.is_armed (_job_id rid) (sched w') = false)
    /\ (let w' := exec (send_reminder_job None chat_id thread_id text rid
                          needs_confirm true) w in
        store w' = store w /\ sched w' = sched w)
    /\ (forall outcome is_recurring,
          reminder_ids
            (store (exec (send_reminder_job outcome chat_id thread_id text rid
                            needs_confirm is_recurring) w))
          = match outcome, is_recurring with
            | None, false =>
                List.filter (fun i => negb (i =? rid)) (reminder_ids (store w))
            | _, _ => reminder_ids (store w)
            end).
Proof.
  intros. split; [| split].
  - cbv zeta. rewrite send_success. cbn [store sched add_log set_sched set_store].
    split; [reflexivity |]. split; [apply delete_reminder_gone |].
    split; [reflexivity | apply discard_not_armed].
  - cbv zeta. rewrite send_success. split; reflexivity.
  - intros [e |] is_recurring.
    + destruct (invalid_target e) eqn:E.
      * rewrite send_invalid_target by exact E.
        cbn [store set_sched set_store]. apply toggle_reminder_ids.
      * unfold exec. rewrite send_other_failure by exact E. reflexivity.
    + rewrite send_success. destruct is_recurring; [reflexivity |].
      cbn [store add_log set_sched set_store]. apply delete_reminder_ids.
Qed.

(** C7: a delivery that fails because the bot was removed from the chat, or
    for any reason other than a target that no longer resolves, is only
    logged, as an error: store and registry are unchanged, whether the
    reminder is recurring or not. *)
Theorem C7_other_failures_only_logged :
  forall e chat_id thread_id text rid needs_confirm is_recurring w,
    invalid_target e = false ->
    let w' := exec (send_reminder_job (Some e) chat_id thread_id text rid
                      needs_confirm is_recurring) w in
    store w' = store w /\ sched w' = sched w
    /\ log w' = (log w ++ [(ERROR, failure_msg chat_id rid e)])%list
    /\ (e = TelegramForbiddenError ->
        log w' = (log w ++ [(ERROR, MsgBotKicked chat_id rid)])%list).
Proof.
  intros until w. intros Hinv w'. subst w'. unfold exec.
  rewrite send_other_failure by exact Hinv. cbn [fst add_log store sched log].
  repeat split. intros ->. reflexivity.
Qed.

Lemma C7_witness :
  let w := mk_world [one_shot_reminder 7 1 "2030-01-01" "10:00" 0] []
             [send_job 7 false (DateTrigger 64029070800000000)] in
  let w' := exec (send_reminder_job (Some TelegramForbiddenError) 1 1 "t" 7
                    false false) w in
  store w' = store w /\ sched w' = sched w
  /\ log w' = (log w ++ [(ERROR, failure_msg 1 7 TelegramForbiddenError)])%list
  /\ (TelegramForbiddenError = TelegramForbiddenError ->
      log w' = (log w ++ [(ERROR, MsgBotKicked 1 7)])%list).
Proof.
  intros w w'.
  apply (C7_other_failures_only_logged TelegramForbiddenError 1 1 "t" 7
           false false w).
  reflexivity.
Defined.

(** C6 on the code: the delivery callback toggles the flag instead of
    clearing it.  A reminder that the operator switched off and that is still
    armed is switched on again by a delivery that fails on a missing chat;
    its job is removed. *)
Theorem C6_invalid_target_toggles_active :
  let w := mk_world [weekly_reminder 1 0 "00:30" "0"] []
             [send_job 1 true (CronTrigger (Some "0") 0 30)] in
  let e := TelegramBadRequest
             "Telegram server says - Bad Request: chat not found" in
  let w' := exec (send_reminder_job (Some e) 1 1 "t" 1 false true) w in
  invalid_target e = true
  /\ reminders (store w') = [weekly_reminder 1 1 "00:30" "0"]
  /\ Sched.is_armed (_job_id 1) (sched w') = false.
Proof. vm_compute. repeat split. Qed.

(** What the callback does on an unresolvable target, for every state: the
    job is removed, and every row of the reminder keeps all its fields except
    [active], which becomes [0] exactly when the first row read [1]. *)
Lemma invalid_target_effect e chat_id thread_id text rid needs_confirm
      is_recurring w :
  invalid_target e = true ->
  let w' := exec (send_reminder_job (Some e) chat_id thread_id text rid
                    needs_confirm is_recurring) w in
  Sched.is_armed (_job_id rid) (sched w') = false
  /\ reminders (store w')
     = match Db.fetchone rid (store w) with
       | Some row =>
           (fun r => if r_id r =? rid
                     then set_active (if r_active row =? 1 then 0 else 1) r
                     else r) <$> reminders (store w)
       | None => reminders (store w)
       end.
Proof.
  intros Hinv w'. subst w'. rewrite send_invalid_target by exact Hinv.
  cbn [sched store set_sched set_store]. split; [apply discard_not_armed |].
  unfold Db.toggle_reminder_status. destruct (Db.fetchone rid (store w)); reflexivity.
Qed.

(** ** C9: the toggle handler *)

(** C9 on the code: [tog_rem_h] writes the new flag to the store and leaves
    the registry as it is.  A reminder switched off stays armed, a reminder
    switched on is not armed. *)
Theorem C9_toggle_leaves_registry :
  (forall rid w, sched (exec (tog_rem_h rid) w) = sched w)
  /\ (let w := mk_world [weekly_reminder 1 1 "00:30" "0"] []
                 [send_job 1 true (CronTrigger (Some "0") 0 30)] in
      let w' := exec (tog_rem_h 1) w in
      reminders (store w') = [weekly_reminder 1 0 "00:30" "0"]
      /\ Sched.is_armed (_job_id 1) (sched w') = true)
  /\ (let w := mk_world [weekly_reminder 1 0 "00:30" "0"] [] [] in
      let w' := exec (tog_rem_h 1) w in
      reminders (store w') = [weekly_reminder 1 1 "00:30" "0"]
      /\ Sched.is_armed (_job_id 1) (sched w') = false).
Proof.
  split; [| split].
  - intros rid w. unfold exec, tog_rem_h, bind, with_store.
    destruct (Db.toggle_reminder_status rid (store w)). reflexivity.
  - vm_compute. split; reflexivity.
  - vm_compute. split; reflexivity.
Qed.

(** ** C10: date-specific reminders are bound as non-recurring *)

(** C10: every call that arms a reminder with a [specific_date], a date
    text as the handlers store it, binds the delivery callback with the
    recurring flag [False], whatever [is_recurring] it was given; when that
    callback later delivers successfully, in any state, the reminder is
    deleted from the store and its job is no longer in the registry. *)
Theorem C10_dated_reminder_bound_non_recurring :
  forall strptime localize cron_dow_valid now chat_id thread_id text rid
         time_str days_str needs_confirm specific_date is_recurring w fire_time,
    opt_truthy specific_date = true ->
    physical_instant strptime localize (opt_str specific_date) time_str
      (time_offset (store w)) = Ok fire_time ->
    now <= fire_time ->
    let w' := exec (add_reminder_to_scheduler strptime localize cron_dow_valid
                      now chat_id thread_id text rid time_str days_str
                      needs_confirm specific_date is_recurring) w in
    exists args,
      Sched.get_job (_job_id rid) (sched w')
      = Some {| job_id := _job_id rid; job_func := SendReminderJob args;
                job_trigger := DateTrigger fire_time |}
      /\ a_is_recurring args = false
      /\ a_rid args = rid
      /\ forall w2,
           let w3 := exec (run_job None args) w2 in
           (rid ∉ reminder_ids (store w3))
           /\ Sched.is_armed (_job_id rid) (sched w3) = false.
Proof.
  intros until fire_time. intros Hdate Hinst Hnow w'. subst w'.
  rewrite exec_add_reminder_to_scheduler.
  rewrite (plan_one_shot strptime localize cron_dow_valid now _ chat_id
             thread_id text rid time_str days_str needs_confirm specific_date
             is_recurring fire_time Hdate Hinst).
  assert ((fire_time <? now) = false) as -> by lia.
  cbn [apply_plan set_sched sched].
  eexists. split; [| split; [| split]].
  - apply (get_job_arm
             {| job_id := _job_id rid;
                job_func := SendReminderJob
                  {| a_chat_id := chat_id; a_thread_id := thread_id;
                     a_text := text; a_rid := rid;
                     a_needs_confirm := needs_confirm;
                     a_is_recurring := false |};
                job_trigger := DateTrigger fire_time |}).
  - reflexivity.
  - reflexivity.
  - intros w2. cbv zeta. unfold run_job. cbn [a_is_recurring a_rid].
    rewrite send_success. cbn [store sched add_log set_sched set_store].
    split; [apply delete_reminder_gone | apply discard_not_armed].
Qed.

Lemma C10_witness :
  let w := mk_world [one_shot_reminder 7 1 "2030-01-01" "10:00" 1] [] [] in
  let w' := exec (add_reminder_to_scheduler Calendar.strptime_iso
                    localize_almaty cron_weekdays 0 1 1 "t" 7 "10:00" ""
                    false (Some "2030-01-01") true) w in
  exists args,
    Sched.get_job (_job_id 7) (sched w')
    = Some {| job_id := _job_id 7; job_func := SendReminderJob args;
              job_trigger := DateTrigger 64029070800000000 |}
    /\ a_is_recurring args = false
    /\ a_rid args = 7
    /\ forall w2,
         let w3 := exec (run_job None args) w2 in
         (7 ∉ reminder_ids (store w3))
         /\ Sched.is_armed (_job_id 7) (sched w3) = false.
Proof.
  intros w w'.
  apply (C10_dated_reminder_bound_non_recurring Calendar.strptime_iso
           localize_almaty cron_weekdays 0 1 1 "t" 7 "10:00" "" false
           (Some "2030-01-01") true w 64029070800000000).
  - reflexivity.
  - vm_compute. reflexivity.
  - lia.
Defined.

(** The branch is taken on [if specific_date:].  An empty date text, which
    no writer of the table produces (the handlers store a formatted date or
    nothing, and the column defaults to [NULL]), would go through the weekly
    branch with the flag it was given. *)
Lemma empty_date_takes_weekly_branch :
  let w := mk_world [one_shot_reminder 7 1 "" "10:00" 1] [] [] in
  let w' := exec (add_reminder_to_scheduler Calendar.strptime_iso
                    localize_almaty cron_weekdays 0 1 1 "t" 7 "10:00" "all"
                    false (Some "") true) w in
  Some "" <> None
  /\ Sched.get_job (_job_id 7) (sched w')
     = Some (send_job 7 true (CronTrigger None 10 0))
  /\ reminder_ids
       (store (exec (send_reminder_job None 1 1 "t" 7 false true) w')) = [7].
Proof. cbv zeta. split; [discriminate |]. split; vm_compute; reflexivity. Qed.

(** ** C8: one job per reminder identifier *)

Section OneJobPerId.

Implicit Types (s : Scheduler) (j : Job) (id : string).

Lemma _job_id_inj (rid1 rid2 : Z) : _job_id rid1 = _job_id rid2 -> rid1 = rid2.
Proof.
  unfold _job_id, Py.str. intros H.
  apply (inj (String.app "rem_")) in H. apply (inj pretty) in H. exact H.
Qed.

Lemma _job_id_not_maintenance (rid : Z) : _job_id rid <> "weekly_maintenance".
Proof. unfold _job_id. cbn. discriminate. Qed.

Lemma filter_update_other id j (l : list Job) :
  id <> job_id j ->
  List.filter (Sched.has_id id)
    ((fun old => if Sched.has_id (job_id j) old then j else old) <$> l)
  = List.filter (Sched.has_id id) l.
Proof.
  intros Hne. induction l as [| a l IH]; cbn [fmap list_fmap List.filter];
    [reflexivity |].
  destruct (Sched.has_id (job_id j) a) eqn:Ea.
  - apply has_id_true in Ea.
    assert (Sched.has_id id j = false) as -> by (apply has_id_false; congruence).
    assert (Sched.has_id id a = false) as -> by (apply has_id_false; congruence).
    exact IH.
  - destruct (Sched.has_id id a); rewrite IH; reflexivity.
Qed.

Lemma jobs_for_arm_other id j s :
  id <> job_id j -> jobs_for id (arm j s) = jobs_for id s.
Proof.
  intros Hne. unfold jobs_for, arm.
  destruct (Sched.is_armed (job_id j) s); cbn [jobs Sched.update_job].
  - apply filter_update_other, Hne.
  - rewrite List.filter_app. cbn [List.filter].
    assert (Sched.has_id id j = false) as -> by (apply has_id_false; congruence).
    apply app_nil_r.
Qed.

Lemma filter_update_hit j (l : list Job) :
  NoDup (job_id <$> l) ->
  existsb (Sched.has_id (job_id j)) l = true ->
  List.filter (Sched.has_id (job_id j))
    ((fun old => if Sched.has_id (job_id j) old then j else old) <$> l) = [j].
Proof.
  induction l as [| a l IH]; cbn [existsb fmap list_fmap List.filter];
    [discriminate |].
  intros Hnd Hex. apply NoDup_cons in Hnd as [Hnot Hnd].
  destruct (Sched.has_id (job_id j) a) eqn:Ea; cbn [orb] in Hex.
  - assert (Sched.has_id (job_id j) j = true) as -> by by apply has_id_true.
    f_equal. apply has_id_true in Ea. apply filter_has_id_nil.
    change (job_id j ∉ Sched.job_ids
              (Sched.update_job j {| jobs := l; running := true |})).
    rewrite job_ids_update. unfold Sched.job_ids. cbn [jobs]. congruence.
  - rewrite Ea. apply IH; assumption.
Qed.

(** Arming leaves exactly the armed job under its identifier. *)
Lemma jobs_for_arm j s :
  one_job_per_id s -> jobs_for (job_id j) (arm j s) = [j].
Proof.
  intros Hnd. unfold jobs_for, arm.
  destruct (Sched.is_armed (job_id j) s) eqn:E; cbn [jobs Sched.update_job].
  - apply filter_update_hit; assumption.
  - rewrite List.filter_app. cbn [List.filter].
    assert (Sched.has_id (job_id j) j = true) as -> by by apply has_id_true.
    rewrite filter_has_id_nil; [reflexivity |].
    apply is_armed_not_elem in E. exact E.
Qed.

Lemma jobs_for_at_most_one id s :
  one_job_per_id s -> (length (jobs_for id s) <= 1)%nat.
Proof. apply filter_has_id_NoDup. Qed.

Lemma apply_plan_one_job_per_id p w :
  one_job_per_id (sched w) -> one_job_per_id (sched (apply_plan p w)).
Proof. destruct p; cbn [apply_plan sched add_log set_sched]; [done | apply arm_one_job_per_id]. Qed.

Lemma apply_plan_length p w :
  (forall j, p = Arm j -> Sched.is_armed (job_id j) (sched w) = true) ->
  length (jobs (sched (apply_plan p w))) = length (jobs (sched w)).
Proof.
  destruct p as [ft | j]; cbn [apply_plan sched add_log set_sched]; [done |].
  intros H. apply length_arm_armed, H. reflexivity.
Qed.

End OneJobPerId.

(** *** Every operation of the service keeps the invariant *)

Create HintDb registry.

Lemma keeps_ret {A} (a : A) : keeps_one_job_per_id (ret a).
Proof. intros w H. exact H. Qed.

Lemma keeps_raise {A} (e : exn) : keeps_one_job_per_id (@raise A e).
Proof. intros w H. exact H. Qed.

Lemma keeps_lift {A} (r : result A) : keeps_one_job_per_id (lift r).
Proof. intros w H. exact H. Qed.

Lemma keeps_bind {A B} (m : M A) (k : A -> M B) :
  keeps_one_job_per_id m -> (forall a, keeps_one_job_per_id (k a)) ->
  keeps_one_job_per_id (bind m k).
Proof.
  intros Hm Hk w H. unfold bind. specialize (Hm w H).
  destruct (m w) as [w1 [a | e]]; [apply Hk, Hm | exact Hm].
Qed.

Lemma keeps_try_except {A} (m : M A) (handler : exn -> M A) :
  keeps_one_job_per_id m -> (forall e, keeps_one_job_per_id (handler e)) ->
  keeps_one_job_per_id (try_except m handler).
Proof.
  intros Hm Hh w H. unfold try_except. specialize (Hm w H).
  destruct (m w) as [w1 [a | e]]; [exact Hm | apply Hh, Hm].
Qed.

Lemma keeps_logger (lvl : Level) (msg : LogMsg) :
  keeps_one_job_per_id (logger lvl msg).
Proof. intros w H. exact H. Qed.

Lemma keeps_with_store {A} (f : Store -> Store * A) :
  keeps_one_job_per_id (with_store f).
Proof. intros w H. unfold with_store. destruct (f (store w)). exact H. Qed.

Lemma keeps_read_store {A} (f : Store -> A) : keeps_one_job_per_id (read_store f).
Proof. intros w H. exact H. Qed.

Lemma keeps_read_sched {A} (f : Scheduler -> A) : keeps_one_job_per_id (read_sched f).
Proof. intros w H. exact H. Qed.

Lemma keeps_with_sched (f : Scheduler -> result Scheduler) :
  (forall s s', one_job_per_id s -> f s = Ok s' -> one_job_per_id s') ->
  keeps_one_job_per_id (with_sched f).
Proof.
  intros Hf w H. unfold with_sched.
  destruct (f (sched w)) as [s' | e] eqn:E; [exact (Hf _ _ H E) | exact H].
Qed.

Lemma keeps_add_job (j : Job) :
  keeps_one_job_per_id (with_sched (Sched.add_job j true)).
Proof.
  apply keeps_with_sched. intros s s' H. rewrite add_job_replace.
  intros [= <-]. apply arm_one_job_per_id, H.
Qed.

Lemma keeps_remove_job (id : string) :
  keeps_one_job_per_id (with_sched (Sched.remove_job id)).
Proof.
  apply keeps_with_sched. intros s s' H. unfold Sched.remove_job.
  destruct (Sched.is_armed id s); [| discriminate].
  intros [= <-]. apply (discard_one_job_per_id id s H).
Qed.

Lemma keeps_remove_all_jobs :
  keeps_one_job_per_id (with_sched (fun s => Ok (Sched.remove_all_jobs s))).
Proof.
  apply keeps_with_sched. intros s s' _ [= <-]. apply NoDup_nil_2.
Qed.

Lemma keeps_start :
  keeps_one_job_per_id (with_sched (fun s => Ok (Sched.start s))).
Proof. apply keeps_with_sched. intros s s' H [= <-]. exact H. Qed.

#[local] Hint Resolve keeps_ret keeps_raise keeps_lift keeps_logger
  keeps_with_store keeps_read_store keeps_read_sched keeps_add_job
  keeps_remove_job keeps_remove_all_jobs keeps_start : registry.
#[local] Hint Extern 2 (keeps_one_job_per_id (bind _ _)) =>
  apply keeps_bind; [| intros ?] : registry.
#[local] Hint Extern 2 (keeps_one_job_per_id (try_except _ _)) =>
  apply keeps_try_except; [| intros ?] : registry.
#[local] Hint Extern 3 (keeps_one_job_per_id (if ?b then _ else _)) =>
  destruct b : registry.
#[local] Hint Extern 3 (keeps_one_job_per_id (match ?x with _ => _ end)) =>
  destruct x : registry.

Lemma keeps_send_reminder_job outcome chat_id thread_id text rid
      needs_confirm is_recurring :
  keeps_one_job_per_id
    (send_reminder_job outcome chat_id thread_id text rid needs_confirm
       is_recurring).
Proof. unfold send_reminder_job. auto 12 with registry. Qed.

Lemma keeps_add_reminder_to_scheduler strptime localize cron_dow_valid now
      chat_id thread_id text rid time_str days_str needs_confirm specific_date
      is_recurring :
  keeps_one_job_per_id
    (add_reminder_to_scheduler strptime localize cron_dow_valid now chat_id
       thread_id text rid time_str days_str needs_confirm specific_date
       is_recurring).
Proof.
  intros w H. rewrite add_reminder_to_scheduler_plan.
  destruct (plan _ _ _ _ _ _ _ _ _ _ _ _ _ _) as [p | e]; cbn [fst];
    [by apply apply_plan_one_job_per_id | exact H].
Qed.

Lemma keeps_load_loop strptime localize cron_dow_valid clock chat_id rs :
  forall count,
    keeps_one_job_per_id
      (load_loop strptime localize cron_dow_valid clock chat_id rs count).
Proof.
  induction rs as [| r rs IH]; intros count; cbn [load_loop].
  - apply keeps_ret.
  - destruct (int_truthy (r_active r)); [| apply IH].
    apply keeps_bind; [apply keeps_lift | intros cid].
    apply keeps_bind; [apply keeps_add_reminder_to_scheduler | intros _; apply IH].
Qed.

#[local] Hint Resolve keeps_send_reminder_job keeps_add_reminder_to_scheduler
  keeps_load_loop : registry.

Lemma keeps_load_reminders strptime localize cron_dow_valid clock :
  keeps_one_job_per_id (load_reminders strptime localize cron_dow_valid clock).
Proof. unfold load_reminders. auto 12 with registry. Qed.

Lemma keeps_start_maintenance_jobs : keeps_one_job_per_id start_maintenance_jobs.
Proof. unfold start_maintenance_jobs. auto with registry. Qed.

#[local] Hint Resolve keeps_load_reminders keeps_start_maintenance_jobs : registry.

Lemma keeps_reload_scheduler strptime localize cron_dow_valid clock :
  keeps_one_job_per_id (reload_scheduler strptime localize cron_dow_valid clock).
Proof. unfold reload_scheduler. auto 12 with registry. Qed.

Lemma keeps_tog_rem_h rid : keeps_one_job_per_id (tog_rem_h rid).
Proof. unfold tog_rem_h. auto with registry. Qed.

(** C8: arming a reminder whose identifier already has a job replaces that
    job.  Starting from a registry with at most one job per identifier, a
    call of [add_reminder_to_scheduler] leaves at most one job per
    identifier; the number of jobs does not grow when the reminder was
    already armed; when the call arms, the jobs under the reminder's
    identifier are exactly the new one; the jobs of other reminders are
    untouched; the same holds again for a second call for the same
    reminder; and deliveries, reloads and toggles keep the registry at one
    job per identifier as well. *)
Theorem C8_arm_replaces_existing_job :
  forall strptime localize cron_dow_valid now chat_id thread_id text rid
         time_str days_str needs_confirm specific_date is_recurring w,
    one_job_per_id (sched w) ->
    let add := add_reminder_to_scheduler strptime localize cron_dow_valid in
    let w' := exec (add now chat_id thread_id text rid time_str days_str
                      needs_confirm specific_date is_recurring) w in
    one_job_per_id (sched w')
    /\ (length (jobs_for (_job_id rid) (sched w')) <= 1)%nat
    /\ (Sched.is_armed (_job_id rid) (sched w) = true ->
        length (jobs (sched w')) = length (jobs (sched w)))
    /\ (forall j,
          plan strptime localize cron_dow_valid now (time_offset (store w))
            chat_id thread_id text rid time_str days_str needs_confirm
            specific_date is_recurring = Ok (Arm j) ->
          jobs_for (_job_id rid) (sched w') = [j]
          /\ Sched.get_job (_job_id rid) (sched w') = Some j)
    /\ (forall rid2, rid2 <> rid ->
          jobs_for (_job_id rid2) (sched w') = jobs_for (_job_id rid2) (sched w))
    /\ (forall now2 chat_id2 thread_id2 text2 time_str2 days_str2 needs_confirm2
               specific_date2 is_recurring2,
          let w'' := exec (add now2 chat_id2 thread_id2 text2 rid time_str2
                             days_str2 needs_confirm2 specific_date2
                             is_recurring2) w' in
          one_job_per_id (sched w'')
          /\ (length (jobs_for (_job_id rid) (sched w'')) <= 1)%nat
          /\ (Sched.is_armed (_job_id rid) (sched w') = true ->
              length (jobs (sched w'')) = length (jobs (sched w'))))
    /\ (forall outcome chat_id2 thread_id2 text2 rid2 needs_confirm2
               is_recurring2,
          one_job_per_id
            (sched (exec (send_reminder_job outcome chat_id2 thread_id2 text2
                            rid2 needs_confirm2 is_recurring2) w)))
    /\ (forall clock,
          one_job_per_id
            (sched (exec (reload_scheduler strptime localize cron_dow_valid
                            clock) w)))
    /\ (forall rid2, one_job_per_id (sched (exec (tog_rem_h rid2) w))).
Proof.
  intros until w. intros Hinv add w'.
  assert (forall now0 chat0 thread0 text0 time0 days0 nc0 sd0 rec0 w0,
            one_job_per_id (sched w0) ->
            let w1 := exec (add now0 chat0 thread0 text0 rid time0 days0 nc0
                              sd0 rec0) w0 in
            one_job_per_id (sched w1)
            /\ (length (jobs_for (_job_id rid) (sched w1)) <= 1)%nat
            /\ (Sched.is_armed (_job_id rid) (sched w0) = true ->
                length (jobs (sched w1)) = length (jobs (sched w0)))) as Hstep.
  { intros until w0. intros Hinv0 w1. subst w1 add.
    rewrite exec_add_reminder_to_scheduler.
    destruct (plan _ _ _ _ _ _ _ _ _ _ _ _ _ _) as [p | e] eqn:Hplan.
    - pose proof (apply_plan_one_job_per_id p w0 Hinv0) as Hinv1.
      split; [exact Hinv1 |]. split; [by apply jobs_for_at_most_one |].
      intros Harmed. apply apply_plan_length. intros j ->.
      rewrite (plan_job_id _ _ _ _ _ _ _ _ _ _ _ _ _ _ _ Hplan). exact Harmed.
    - split; [exact Hinv0 |]. split; [by apply jobs_for_at_most_one | done]. }
  destruct (Hstep now chat_id thread_id text time_str days_str needs_confirm
              specific_date is_recurring w Hinv) as (H1 & H2 & H3).
  fold w' in H1, H2, H3.
  split; [exact H1 |]. split; [exact H2 |]. split; [exact H3 |].
  split; [| split; [| split; [| split; [| split]]]].
  - intros j Hplan. subst w' add. rewrite exec_add_reminder_to_scheduler, Hplan.
    cbn [apply_plan sched set_sched].
    rewrite <- (plan_job_id _ _ _ _ _ _ _ _ _ _ _ _ _ _ _ Hplan).
    split; [by apply jobs_for_arm | apply get_job_arm].
  - intros rid2 Hne. subst w' add. rewrite exec_add_reminder_to_scheduler.
    destruct (plan _ _ _ _ _ _ _ _ _ _ _ _ _ _) as [[ft | j] | e] eqn:Hplan;
      try reflexivity.
    cbn [apply_plan sched set_sched]. apply jobs_for_arm_other.
    rewrite (plan_job_id _ _ _ _ _ _ _ _ _ _ _ _ _ _ _ Hplan).
    intros Heq. apply _job_id_inj in Heq. contradiction.
  - intros. apply Hstep. exact H1.
  - intros. by apply keeps_send_reminder_job.
  - intros. by apply keeps_reload_scheduler.
  - intros. by apply keeps_tog_rem_h.
Qed.

Lemma C8_witness :
  let add := add_reminder_to_scheduler Calendar.strptime_iso localize_almaty
               cron_weekdays in
  let w := mk_world [] [] [send_job 7 true (CronTrigger (Some "0") 9 0)] in
  let w' := exec (add 0 1 1 "t" 7 "10:00" "0,2" false None true) w in
  one_job_per_id (sched w)
  /\ jobs_for (_job_id 7) (sched w')
     = [send_job 7 true (CronTrigger (Some "0,2") 10 0)]
  /\ length (jobs (sched w')) = 1%nat.
Proof.
  intros add w w'.
  assert (one_job_per_id (sched w)) as Hinv.
  { unfold one_job_per_id. vm_compute. apply NoDup_singleton. }
  destruct (C8_arm_replaces_existing_job Calendar.strptime_iso localize_almaty
              cron_weekdays 0 1 1 "t" 7 "10:00" "0,2" false None true w Hinv)
    as (_ & _ & Hlen & Hnew & _).
  split; [exact Hinv |]. split.
  - apply (Hnew (send_job 7 true (CronTrigger (Some "0,2") 10 0))).
    vm_compute. reflexivity.
  - apply Hlen. vm_compute. reflexivity.
Defined.

(** ** C1: reload *)

Section Reload.

Variable strptime : string -> result Z.
Variable localize : Z -> result Z.
Variable cron_dow_valid : string -> bool.
Variable clock : Z -> Z.

Local Abbreviation loop := (load_loop strptime localize cron_dow_valid clock).
Local Abbreviation the_plan_of :=
  (plan_of strptime localize cron_dow_valid clock).
Local Abbreviation armed := (armed_by_load strptime localize cron_dow_valid clock).
Local Abbreviation ok := (compiles strptime localize cron_dow_valid clock).

(** The loop of [load_reminders], when no reminder makes it raise: every
    active reminder that is not skipped is armed, nothing else changes in
    the registry, and the store is only read. *)
Lemma load_loop_arms (cid_str : string) (cid : Z) (rs : list Reminder) :
  int_or_raise cid_str = Ok cid ->
  forall (count : Z) (w : World),
    (forall r, r ∈ rs -> int_truthy (r_active r) = true ->
               ok (time_offset (store w)) cid r = true) ->
    exists w' n,
      loop cid_str rs count w = (w', Ok n)
      /\ store w' = store w
      /\ running (sched w') = running (sched w)
      /\ (one_job_per_id (sched w) -> one_job_per_id (sched w'))
      /\ forall id,
           id ∈ Sched.job_ids (sched w') <->
           id ∈ Sched.job_ids (sched w)
           \/ exists r, r ∈ rs
                        /\ armed (time_offset (store w)) cid r = true
                        /\ id = _job_id (r_id r).
Proof.
  intros Hcid. induction rs as [| r rs IH]; intros count w Hok.
  - exists w, count. repeat split; try done.
    + intros H. left. exact H.
    + intros [H | (r & Hin & _)]; [exact H | by apply elem_of_nil in Hin].
  - cbn [load_loop]. unfold armed_by_load at 1.
    destruct (int_truthy (r_active r)) eqn:Hact.
    + pose proof (Hok r (list_elem_of_here _ _) Hact) as Hr.
      unfold compiles in Hr.
      unfold bind at 1. unfold lift. rewrite Hcid. unfold bind at 1.
      rewrite add_reminder_to_scheduler_plan. fold (the_plan_of (time_offset (store w)) cid r).
      destruct (the_plan_of (time_offset (store w)) cid r) as [p | e] eqn:Hp;
        [| discriminate].
      destruct (IH (count + 1) (apply_plan p w)) as (w' & n & Hrun & Hst & Hrn & Hinv & Hids).
      { intros r' Hin Hact'. rewrite store_apply_plan.
        apply Hok; [by apply list_elem_of_further | exact Hact']. }
      rewrite store_apply_plan in Hst, Hids.
      exists w', n. split; [exact Hrun |]. split; [exact Hst |].
      split; [| split].
      * rewrite Hrn. destruct p; cbn [apply_plan sched add_log set_sched];
          [reflexivity | apply running_arm].
      * intros H. apply Hinv, apply_plan_one_job_per_id, H.
      * intros id. rewrite Hids. clear Hids Hrun Hinv.
        destruct p as [ft | j]; cbn [apply_plan sched add_log set_sched].
        -- split.
           ++ intros [H | (r' & Hin & Ha & ->)]; [by left |].
              right. exists r'. split; [by apply list_elem_of_further | done].
           ++ intros [H | (r' & Hin & Ha & ->)]; [by left |].
              apply elem_of_cons in Hin as [-> | Hin].
              ** unfold armed_by_load in Ha. rewrite Hact in Ha.
                 fold (the_plan_of (time_offset (store w)) cid r) in Ha.
                 rewrite Hp in Ha. discriminate.
              ** right. exists r'. done.
        -- pose proof (plan_job_id _ _ _ _ _ _ _ _ _ _ _ _ _ _ _ Hp) as Hj.
           rewrite job_ids_arm, Hj. split.
           ++ intros [[-> | H] | (r' & Hin & Ha & ->)].
              ** right. exists r. split; [apply list_elem_of_here |].
                 split; [| reflexivity].
                 unfold armed_by_load. rewrite Hact.
                 fold (the_plan_of (time_offset (store w)) cid r).
                 rewrite Hp. reflexivity.
              ** by left.
              ** right. exists r'. split; [by apply list_elem_of_further | done].
           ++ intros [H | (r' & Hin & Ha & ->)]; [left; by right |].
              apply elem_of_cons in Hin as [-> | Hin].
              ** left. by left.
              ** right. exists r'. done.
    + destruct (IH count w) as (w' & n & Hrun & Hst & Hrn & Hinv & Hids).
      { intros r' Hin Hact'. apply Hok; [by apply list_elem_of_further | exact Hact']. }
      exists w', n. split; [exact Hrun |]. split; [exact Hst |].
      split; [exact Hrn |]. split; [exact Hinv |].
      intros id. rewrite Hids. split.
      * intros [H | (r' & Hin & Ha & ->)]; [by left |].
        right. exists r'. split; [by apply list_elem_of_further | done].
      * intros [H | (r' & Hin & Ha & ->)]; [by left |].
        apply elem_of_cons in Hin as [-> | Hin].
        -- unfold armed_by_load in Ha. rewrite Hact in Ha. discriminate.
        -- right. exists r'. done.
Qed.

End Reload.

Section ReloadFacts.

Variable strptime : string -> result Z.
Variable localize : Z -> result Z.
Variable cron_dow_valid : string -> bool.
Variable clock : Z -> Z.

Local Abbreviation armed := (armed_by_load strptime localize cron_dow_valid clock).
Local Abbreviation ok := (compiles strptime localize cron_dow_valid clock).

Lemma start_maintenance_jobs_run (w : World) :
  start_maintenance_jobs w
  = (add_log INFO MsgMaintenanceScheduled
       (set_sched (arm maintenance_job (sched w)) w), Ok tt).
Proof.
  unfold start_maintenance_jobs, bind. rewrite with_sched_add_job. reflexivity.
Qed.

Lemma int_nonempty (s : string) (n : Z) : Py.int s = Some n -> Py.truthy s = true.
Proof. destruct s; [discriminate | reflexivity]. Qed.

Lemma load_reminders_run (w : World) (cid_str : string) (cid : Z) :
  Db.get_setting "group_chat_id" None (store w) = Some cid_str ->
  Py.int cid_str = Some cid ->
  (forall r, r ∈ reminders (store w) -> int_truthy (r_active r) = true ->
             ok (time_offset (store w)) cid r = true) ->
  exists w',
    load_reminders strptime localize cron_dow_valid clock w = (w', Ok tt)
    /\ store w' = store w
    /\ running (sched w') = running (sched w)
    /\ (one_job_per_id (sched w) -> one_job_per_id (sched w'))
    /\ forall id,
         id ∈ Sched.job_ids (sched w') <->
         id ∈ Sched.job_ids (sched w)
         \/ exists r, r ∈ reminders (store w)
                      /\ armed (time_offset (store w)) cid r = true
                      /\ id = _job_id (r_id r).
Proof.
  intros Hchat Hint Hok.
  assert (int_or_raise cid_str = Ok cid) as Hcid
    by (unfold int_or_raise; rewrite Hint; reflexivity).
  destruct (load_loop_arms strptime localize cron_dow_valid clock cid_str cid
              (reminders (store w)) Hcid 0 w Hok)
    as (w1 & n & Hrun & Hst & Hrn & Hinv & Hids).
  exists (add_log INFO (MsgLoaded n) w1).
  split; [| repeat split; try assumption; apply Hids].
  unfold load_reminders. unfold bind at 1. unfold read_store at 1.
  rewrite Hchat. cbn [opt_truthy opt_str]. rewrite (int_nonempty _ _ Hint).
  cbn [negb]. unfold try_except, bind, read_store, Db.get_reminders.
  change (opt_str (Some cid_str)) with cid_str. rewrite Hrun. reflexivity.
Qed.

End ReloadFacts.

(** Reload in terms of the jobs the calls install. *)
Lemma reload_arms_planned :
  forall strptime localize cron_dow_valid clock w cid_str cid,
    Db.get_setting "group_chat_id" None (store w) = Some cid_str ->
    Py.int cid_str = Some cid ->
    (forall r, r ∈ reminders (store w) -> int_truthy (r_active r) = true ->
               compiles strptime localize cron_dow_valid clock
                 (time_offset (store w)) cid r = true) ->
    let w' := exec (reload_scheduler strptime localize cron_dow_valid clock) w in
    let armed_ids :=
      r_id <$> List.filter (armed_by_load strptime localize cron_dow_valid clock
                              (time_offset (store w)) cid)
                           (reminders (store w)) in
    store w' = store w
    /\ running (sched w') = true
    /\ one_job_per_id (sched w')
    /\ (forall rid,
          Sched.is_armed (_job_id rid) (sched w') = true <-> rid ∈ armed_ids)
    /\ list_to_set (Sched.job_ids (sched w'))
       =@{gset string}
       {[ "weekly_maintenance" ]} ∪ list_to_set (_job_id <$> armed_ids).
Proof.
  intros until cid. intros Hchat Hint Hok w' armed_ids.
  set (w1 := add_log INFO MsgMaintenanceScheduled
               (set_sched (arm maintenance_job
                             (Sched.remove_all_jobs (sched w))) w)).
  destruct (load_reminders_run strptime localize cron_dow_valid clock w1
              cid_str cid Hchat Hint Hok)
    as (w2 & Hrun & Hst & Hrn & Hinv & Hids).
  assert (w' = if negb (running (sched w2))
               then set_sched (Sched.start (sched w2)) w2 else w2) as Hw'.
  { subst w'. unfold exec, reload_scheduler. unfold bind at 1.
    cbn [with_sched]. unfold bind at 1. rewrite start_maintenance_jobs_run.
    change (add_log INFO MsgMaintenanceScheduled (set_sched _ _)) with w1.
    unfold bind at 1. rewrite Hrun. unfold bind, read_sched.
    destruct (running (sched w2)); reflexivity. }
  assert (store w' = store w) as Hstore.
  { rewrite Hw'. destruct (negb (running (sched w2))); exact Hst. }
  assert (Sched.job_ids (sched w') = Sched.job_ids (sched w2)) as Hjobs.
  { rewrite Hw'. destruct (negb (running (sched w2))); reflexivity. }
  assert (forall id,
            id ∈ Sched.job_ids (sched w') <->
            id = "weekly_maintenance" \/ exists rid, rid ∈ armed_ids /\ id = _job_id rid)
    as Hmem.
  { intros id. rewrite Hjobs, Hids. subst w1.
    cbn [sched store add_log set_sched]. unfold arm.
    cbn [Sched.is_armed Sched.remove_all_jobs jobs existsb Sched.job_ids app
         fmap list_fmap]. rewrite list_elem_of_singleton.
    cbn [maintenance_job job_id].
    apply or_iff_compat_l. subst armed_ids. split.
    - intros (r & Hin & Ha & ->). exists (r_id r). split; [| reflexivity].
      apply list_elem_of_fmap. exists r. split; [reflexivity |].
      apply list_elem_of_In, List.filter_In. split; [by apply list_elem_of_In | exact Ha].
    - intros (rid & Hin & ->). apply list_elem_of_fmap in Hin as (r & -> & Hin).
      apply list_elem_of_In, List.filter_In in Hin as [Hin Ha].
      exists r. split; [by apply list_elem_of_In | done]. }
  split; [exact Hstore |]. split; [| split; [| split]].
  - rewrite Hw'. destruct (running (sched w2)) eqn:E; [exact E | reflexivity].
  - unfold one_job_per_id. rewrite Hjobs. apply Hinv. subst w1.
    cbn [sched add_log set_sched]. apply arm_one_job_per_id.
    unfold one_job_per_id. cbn. apply NoDup_nil_2.
  - intros rid. rewrite is_armed_elem, Hmem. split.
    + intros [Hm | (rid' & Hin & Heq)].
      * by apply _job_id_not_maintenance in Hm.
      * apply _job_id_inj in Heq. by subst rid'.
    + intros Hin. right. exists rid. done.
  - apply set_eq. intros id.
    rewrite elem_of_union, elem_of_singleton, !elem_of_list_to_set, Hmem.
    rewrite list_elem_of_fmap. apply or_iff_compat_l. split.
    + intros (rid & Hin & ->). exists rid. done.
    + intros (rid & -> & Hin). exists rid. done.
Qed.

(** With no exception, a job is installed exactly for the reminders that are
    active and not skipped. *)
Lemma armed_by_load_active_not_skipped strptime localize cron_dow_valid clock
      offset_minutes chat_id r :
  compiles strptime localize cron_dow_valid clock offset_minutes chat_id r = true ->
  armed_by_load strptime localize cron_dow_valid clock offset_minutes chat_id r
  = active_not_skipped strptime localize clock offset_minutes r.
Proof.
  unfold compiles, armed_by_load, active_not_skipped, plan_of, plan, compile_of.
  destruct (compile _ _ _ _ _ _ _) as [[ft | ft | h m d] | e]; cbn [rbind is_skipped];
    intros Hok; try reflexivity; try discriminate.
  destruct (cron_trigger _ _ _ _); [reflexivity | discriminate].
Qed.

(** C1 (amended): when a destination chat is bound ([group_chat_id] holds an
    integer) and arming raises for no active reminder, then after
    [reload_scheduler] the reminder jobs in the registry are exactly those of
    the reminders that are active in the store and whose schedule did not
    compile to [Skipped]: the identifiers in the registry are the maintenance
    job's and theirs, each once.  The store is only read, and the scheduler
    runs afterwards. *)
Theorem C1_reload_arms_exactly_active :
  forall strptime localize cron_dow_valid clock w cid_str cid,
    Db.get_setting "group_chat_id" None (store w) = Some cid_str ->
    Py.int cid_str = Some cid ->
    (forall r, r ∈ reminders (store w) -> int_truthy (r_active r) = true ->
               compiles strptime localize cron_dow_valid clock
                 (time_offset (store w)) cid r = true) ->
    let w' := exec (reload_scheduler strptime localize cron_dow_valid clock) w in
    let armed_ids :=
      r_id <$> List.filter (active_not_skipped strptime localize clock
                              (time_offset (store w)))
                           (reminders (store w)) in
    store w' = store w
    /\ running (sched w') = true
    /\ one_job_per_id (sched w')
    /\ (forall rid,
          Sched.is_armed (_job_id rid) (sched w') = true <-> rid ∈ armed_ids)
    /\ list_to_set (Sched.job_ids (sched w'))
       =@{gset string}
       {[ "weekly_maintenance" ]} ∪ list_to_set (_job_id <$> armed_ids).
Proof.
  intros until cid. intros Hchat Hint Hok w' armed_ids.
  assert (List.filter (active_not_skipped strptime localize clock
                         (time_offset (store w))) (reminders (store w))
          = List.filter (armed_by_load strptime localize cron_dow_valid clock
                           (time_offset (store w)) cid) (reminders (store w)))
    as Hfilter.
  { apply List.filter_ext_in. intros r Hin.
    destruct (int_truthy (r_active r)) eqn:Hact.
    - symmetry. apply armed_by_load_active_not_skipped, Hok; [| exact Hact].
      by apply list_elem_of_In.
    - unfold active_not_skipped, armed_by_load. rewrite Hact. reflexivity. }
  subst armed_ids w'. rewrite Hfilter.
  exact (reload_arms_planned strptime localize cron_dow_valid clock w cid_str
           cid Hchat Hint Hok).
Qed.

(** Without a destination chat [load_reminders] only logs a warning. *)
Lemma load_reminders_without_chat strptime localize cron_dow_valid clock w :
  opt_truthy (Db.get_setting "group_chat_id" None (store w)) = false ->
  load_reminders strptime localize cron_dow_valid clock w
  = (add_log WARNING MsgChatIdNotSet w, Ok tt).
Proof.
  intros Hchat. unfold load_reminders. unfold bind at 1. unfold read_store at 1.
  rewrite Hchat. reflexivity.
Qed.

(** Without a destination chat the reload still clears the registry and
    installs the maintenance job, and arms no reminder. *)
Lemma reload_without_chat strptime localize cron_dow_valid clock w :
  opt_truthy (Db.get_setting "group_chat_id" None (store w)) = false ->
  let w' := exec (reload_scheduler strptime localize cron_dow_valid clock) w in
  jobs (sched w') = [maintenance_job] /\ store w' = store w.
Proof.
  intros Hchat w'.
  set (w1 := add_log INFO MsgMaintenanceScheduled
               (set_sched (arm maintenance_job
                             (Sched.remove_all_jobs (sched w))) w)).
  set (w2 := add_log WARNING MsgChatIdNotSet w1).
  assert (w' = if negb (running (sched w2))
               then set_sched (Sched.start (sched w2)) w2 else w2) as ->.
  { subst w'. unfold exec, reload_scheduler. unfold bind at 1.
    cbn [with_sched]. unfold bind at 1. rewrite start_maintenance_jobs_run.
    change (add_log INFO MsgMaintenanceScheduled (set_sched _ _)) with w1.
    unfold bind at 1.
    rewrite (load_reminders_without_chat strptime localize cron_dow_valid
               clock w1 Hchat).
    fold w2. unfold bind, read_sched.
    destruct (running (sched w2)); reflexivity. }
  destruct (negb (running (sched w2))); split; reflexivity.
Qed.

Lemma C1_witness :
  let clock := fun _ : Z => 64000000000000000 in
  let w := mk_world
             [weekly_reminder 1 1 "00:30" "0";
              one_shot_reminder 2 1 "2030-01-01" "10:00" 1;
              weekly_reminder 3 0 "10:00" "all";
              one_shot_reminder 4 1 "2000-01-01" "10:00" 0]
             [("group_chat_id", "-100123"); ("time_offset_minutes", "120")]
             [send_job 3 true (CronTrigger None 10 0)] in
  let w' := exec (reload_scheduler Calendar.strptime_iso localize_almaty
                    cron_weekdays clock) w in
  let armed_ids :=
    r_id <$> List.filter (active_not_skipped Calendar.strptime_iso
                            localize_almaty clock (time_offset (store w)))
                         (reminders (store w)) in
  armed_ids = [1; 2]
  /\ store w' = store w
  /\ running (sched w') = true
  /\ one_job_per_id (sched w')
  /\ (forall rid,
        Sched.is_armed (_job_id rid) (sched w') = true <-> rid ∈ armed_ids)
  /\ list_to_set (Sched.job_ids (sched w'))
     =@{gset string}
     {[ "weekly_maintenance" ]} ∪ list_to_set (_job_id <$> armed_ids).
Proof.
  intros clock w w' armed_ids. split; [vm_compute; reflexivity |].
  apply (C1_reload_arms_exactly_active Calendar.strptime_iso localize_almaty
           cron_weekdays clock w "-100123" (-100123)).
  - vm_compute. reflexivity.
  - vm_compute. reflexivity.
  - intros r Hin _.
    repeat (apply elem_of_cons in Hin as [-> | Hin]; [vm_compute; reflexivity |]).
    by apply elem_of_nil in Hin.
Defined.

(** C1, as first stated, fails when no destination chat is bound: the
    reminder is active and its schedule compiles to a weekly trigger, and
    after the reload only the maintenance job is in the registry. *)
Lemma C1_counterexample_no_chat_bound :
  let r := weekly_reminder 1 1 "10:00" "all" in
  let w := mk_world [r] [("time_offset_minutes", "0")] [] in
  let w' := exec (reload_scheduler Calendar.strptime_iso localize_almaty
                    cron_weekdays (fun _ => 0)) w in
  int_truthy (r_active r) = true
  /\ compile Calendar.strptime_iso localize_almaty 0 (r_time r) (r_days r)
       (r_specific_date r) (time_offset (store w))
     = Ok (PhysicalWeekly 10 0 "all")
  /\ Sched.is_armed (_job_id 1) (sched w') = false
  /\ Sched.job_ids (sched w') = ["weekly_maintenance"].
Proof. vm_compute. repeat split. Qed.

(** The loop of [load_reminders] stops at the first reminder that raises:
    the reminders after it are not armed. *)
Example load_stops_at_first_failure :
  let w := mk_world
             [weekly_reminder 1 1 "25:00" "0"; weekly_reminder 2 1 "10:00" "all"]
             [("group_chat_id", "-100123")] [] in
  let w' := exec (reload_scheduler Calendar.strptime_iso localize_almaty
                    cron_weekdays (fun _ => 0)) w in
  Sched.job_ids (sched w') = ["weekly_maintenance"]
  /\ log w' = [(INFO, MsgMaintenanceScheduled); (ERROR, MsgLoadFailed)].
Proof. vm_compute. split; reflexivity. Qed.

(** The scheduler checks of the repository's system test, on the model. *)
Example cron_plus_120_test_system :
  let w := mk_world [] [("time_offset_minutes", "120")] [] in
  Sched.get_job "rem_99001"
    (sched (exec (add_reminder_to_scheduler Calendar.strptime_iso
                    localize_almaty cron_weekdays 0 1 1 "t" 99001 "00:30" "0"
                    false None true) w))
  = Some (send_job 99001 true (CronTrigger (Some "6") 22 30)).
Proof. vm_compute. reflexivity. Qed.

Example cron_minus_120_test_system :
  let w := mk_world [] [("time_offset_minutes", "-120")] [] in
  Sched.get_job "rem_99002"
    (sched (exec (add_reminder_to_scheduler Calendar.strptime_iso
                    localize_almaty cron_weekdays 0 1 1 "t" 99002 "23:30" "0"
                    false None true) w))
  = Some (send_job 99002 true (CronTrigger (Some "1") 1 30)).
Proof. vm_compute. reflexivity. Qed.

Example past_date_skipped_test_system :
  let w := mk_world [] [("time_offset_minutes", "0")] [] in
  Sched.get_job "rem_99004"
    (sched (exec (add_reminder_to_scheduler Calendar.strptime_iso
                    localize_almaty cron_weekdays 64029070800000000 1 1 "t"
                    99004 "10:00" "all" false (Some "2000-01-01") false) w))
  = None.
Proof. vm_compute. reflexivity. Qed.

(** * Further properties of the code *)

(** ** Decimal texts: [int(str(n))] *)

Section Decimal.

Lemma rev_app_rev_app (s a b : string) :
  String.rev_app (String.rev_app s a) b = String.rev_app a (s +:+ b).
Proof.
  revert a b. induction s as [| c s IH]; intros a b; cbn [String.rev_app].
  - reflexivity.
  - rewrite IH. reflexivity.
Qed.

Lemma append_empty_r (s : string) : s +:+ "" = s.
Proof.
  induction s as [| c s IH]; [reflexivity |].
  change (String c s +:+ "") with (String c (s +:+ "")). by rewrite IH.
Qed.

Lemma rev_involutive (s : string) : String.rev (String.rev s) = s.
Proof.
  unfold String.rev. rewrite rev_app_rev_app. cbn [String.rev_app].
  apply append_empty_r.
Qed.

Lemma all_chars_rev_app P (s a : string) :
  all_chars P (String.rev_app s a) = all_chars P s && all_chars P a.
Proof.
  revert a. induction s as [| c s IH]; intros a; cbn [String.rev_app all_chars].
  - reflexivity.
  - rewrite IH. cbn [all_chars]. destruct (P c), (all_chars P s); reflexivity.
Qed.

Lemma lstrip_no_space (s : string) :
  all_chars (fun c => negb (Py.is_space c)) s = true -> Py.lstrip s = s.
Proof.
  destruct s as [| c s]; cbn [all_chars Py.lstrip]; [reflexivity |].
  destruct (Py.is_space c); [discriminate | reflexivity].
Qed.

(** A text without blanks is its own [strip]. *)
Lemma strip_no_space (s : string) :
  all_chars (fun c => negb (Py.is_space c)) s = true -> Py.strip s = s.
Proof.
  intros H. unfold Py.strip, Py.rstrip. rewrite (lstrip_no_space s H).
  rewrite lstrip_no_space; [apply rev_involutive |].
  unfold String.rev. rewrite all_chars_rev_app, H. reflexivity.
Qed.

(** The blanks of [int] are blanks of [strip]. *)
Lemma is_int_space_is_space (c : ascii) :
  Py.is_int_space c = true -> Py.is_space c = true.
Proof.
  unfold Py.is_int_space, Py.is_space. intros H.
  apply orb_true_iff in H as [H | H]; rewrite H; [reflexivity |].
  rewrite orb_true_r. reflexivity.
Qed.

Lemma int_lstrip_no_space (s : string) :
  all_chars (fun c => negb (Py.is_space c)) s = true -> Py.int_lstrip s = s.
Proof.
  destruct s as [| c s]; cbn [all_chars Py.int_lstrip]; [reflexivity |].
  destruct (Py.is_int_space c) eqn:E; [| reflexivity].
  rewrite (is_int_space_is_space c E). discriminate.
Qed.

Lemma int_strip_no_space (s : string) :
  all_chars (fun c => negb (Py.is_space c)) s = true -> Py.int_strip s = s.
Proof.
  intros H. unfold Py.int_strip. rewrite (int_lstrip_no_space s H).
  rewrite int_lstrip_no_space; [apply rev_involutive |].
  unfold String.rev. rewrite all_chars_rev_app, H. reflexivity.
Qed.

Lemma is_digit_not_space (c : ascii) :
  is_digit c = true -> negb (Py.is_space c) = true.
Proof.
  destruct c as [[] [] [] [] [] [] [] []]; vm_compute; congruence.
Qed.

Lemma all_chars_impl (P Q : ascii -> bool) (s : string) :
  (forall c, P c = true -> Q c = true) ->
  all_chars P s = true -> all_chars Q s = true.
Proof.
  intros HPQ. induction s as [| c s IH]; cbn [all_chars]; [done |].
  intros [Hc Hs]%andb_prop. rewrite (HPQ c Hc), (IH Hs). reflexivity.
Qed.

(** FS..US are dropped by [strip] and refused by [int]. *)
Lemma int_refuses_unit_separator :
  Py.strip (String "7" (String "031" "")) = "7"
  /\ Py.int (String "7" (String "031" "")) = None
  /\ Py.int " 7 " = Some 7.
Proof. repeat split; vm_compute; reflexivity. Qed.

(** On a text of digits [int] reads the digits. *)
Lemma int_digits_only (s : string) :
  all_chars is_digit s = true -> Py.int s = Py.int_digits 0 false s.
Proof.
  intros H. unfold Py.int.
  rewrite int_strip_no_space by (eapply all_chars_impl; [apply is_digit_not_space | exact H]).
  destruct s as [| c s]; [reflexivity |].
  cbn [all_chars] in H. apply andb_prop in H as [Hc _].
  destruct c as [[] [] [] [] [] [] [] []]; try discriminate Hc; reflexivity.
Qed.

Lemma digit_val_pretty_N_char (d : N) :
  (d < 10)%N -> Py.digit_val (pretty_N_char d) = Some (Z.of_N d).
Proof.
  intros Hd.
  assert (d = 0 \/ d = 1 \/ d = 2 \/ d = 3 \/ d = 4 \/ d = 5 \/ d = 6
          \/ d = 7 \/ d = 8 \/ d = 9)%N as Hcases by lia.
  repeat (destruct Hcases as [-> | Hcases]); [.. | subst d]; reflexivity.
Qed.

Lemma all_digits_pretty_N_go (x : N) (s : string) :
  all_chars is_digit s = true -> all_chars is_digit (pretty_N_go x s) = true.
Proof.
  revert s. induction (N.lt_wf_0 x) as [x _ IH]; intros s Hs.
  assert (x = 0 \/ 0 < x)%N as [-> | Hpos] by lia.
  - rewrite pretty_N_go_0. exact Hs.
  - rewrite pretty_N_go_step by exact Hpos. apply IH.
    + by apply N.div_lt.
    + cbn [all_chars]. rewrite Hs, andb_true_r. unfold is_digit.
      rewrite digit_val_pretty_N_char by (apply N.mod_lt; lia).
      apply bool_decide_eq_true. eexists. reflexivity.
Qed.

Lemma int_digits_pretty_N_go (x : N) (s : string) (flag : bool) :
  (0 < x)%N ->
  Py.int_digits 0 flag (pretty_N_go x s) = Py.int_digits (Z.of_N x) true s.
Proof.
  revert s flag. induction (N.lt_wf_0 x) as [x _ IH]; intros s flag Hpos.
  rewrite pretty_N_go_step by exact Hpos.
  pose proof (N.mod_lt x 10 ltac:(lia)) as Hmod.
  pose proof (N.div_mod x 10 ltac:(lia)) as Hdiv.
  assert (x `div` 10 = 0 \/ 0 < x `div` 10)%N as [H0 | Hq] by lia.
  - rewrite H0, pretty_N_go_0. cbn [Py.int_digits].
    rewrite digit_val_pretty_N_char by exact Hmod. f_equal. lia.
  - rewrite IH by (try apply N.div_lt; lia). cbn [Py.int_digits].
    rewrite digit_val_pretty_N_char by exact Hmod. f_equal. lia.
Qed.

(** [int(str(n)) == n] *)
Lemma int_str (n : Z) : Py.int (Py.str n) = Some n.
Proof.
  unfold Py.str, pretty, pretty_Z. destruct n as [| p | p].
  - reflexivity.
  - unfold pretty, pretty_positive, pretty, pretty_N.
    rewrite decide_False by discriminate.
    rewrite int_digits_only by (by apply all_digits_pretty_N_go).
    rewrite int_digits_pretty_N_go by lia. reflexivity.
  - unfold pretty, pretty_positive, pretty, pretty_N.
    rewrite decide_False by discriminate.
    unfold Py.int. rewrite int_strip_no_space.
    + change ("-" +:+ ?r) with (String "-" r). cbn match.
      rewrite int_digits_pretty_N_go by lia. reflexivity.
    + change ("-" +:+ ?r) with (String "-" r). cbn [all_chars].
      rewrite andb_true_iff. split; [reflexivity |].
      eapply all_chars_impl; [apply is_digit_not_space |].
      by apply all_digits_pretty_N_go.
Qed.

End Decimal.

(** ** The stored correction and the handlers that set it *)

Create HintDb store_frame.

Lemma keeps_store_ret {A} (a : A) : keeps_store (ret a).
Proof. intros w. reflexivity. Qed.

Lemma keeps_store_raise {A} (e : exn) : keeps_store (@raise A e).
Proof. intros w. reflexivity. Qed.

Lemma keeps_store_lift {A} (r : result A) : keeps_store (lift r).
Proof. intros w. reflexivity. Qed.

Lemma keeps_store_bind {A B} (m : M A) (k : A -> M B) :
  keeps_store m -> (forall a, keeps_store (k a)) -> keeps_store (bind m k).
Proof.
  intros Hm Hk w. unfold bind. specialize (Hm w).
  destruct (m w) as [w1 [a | e]]; cbn [fst] in *; [| exact Hm].
  rewrite Hk. exact Hm.
Qed.

Lemma keeps_store_try_except {A} (m : M A) (handler : exn -> M A) :
  keeps_store m -> (forall e, keeps_store (handler e)) ->
  keeps_store (try_except m handler).
Proof.
  intros Hm Hh w. unfold try_except. specialize (Hm w).
  destruct (m w) as [w1 [a | e]]; cbn [fst] in *; [exact Hm |].
  rewrite Hh. exact Hm.
Qed.

Lemma keeps_store_logger (lvl : Level) (msg : LogMsg) : keeps_store (logger lvl msg).
Proof. intros w. reflexivity. Qed.

Lemma keeps_store_read_store {A} (f : Store -> A) : keeps_store (read_store f).
Proof. intros w. reflexivity. Qed.

Lemma keeps_store_read_sched {A} (f : Scheduler -> A) : keeps_store (read_sched f).
Proof. intros w. reflexivity. Qed.

Lemma keeps_store_with_sched (f : Scheduler -> result Scheduler) :
  keeps_store (with_sched f).
Proof. intros w. unfold with_sched. destruct (f (sched w)); reflexivity. Qed.

#[local] Hint Resolve keeps_store_ret keeps_store_raise keeps_store_lift
  keeps_store_logger keeps_store_read_store keeps_store_read_sched
  keeps_store_with_sched : store_frame.
#[local] Hint Extern 2 (keeps_store (bind _ _)) =>
  apply keeps_store_bind; [| intros ?] : store_frame.
#[local] Hint Extern 2 (keeps_store (try_except _ _)) =>
  apply keeps_store_try_except; [| intros ?] : store_frame.
#[local] Hint Extern 3 (keeps_store (if ?b then _ else _)) =>
  destruct b : store_frame.
#[local] Hint Extern 3 (keeps_store (match ?x with _ => _ end)) =>
  destruct x : store_frame.

Lemma keeps_store_add_reminder_to_scheduler strptime localize cron_dow_valid
      now chat_id thread_id text rid time_str days_str needs_confirm
      specific_date is_recurring :
  keeps_store
    (add_reminder_to_scheduler strptime localize cron_dow_valid now chat_id
       thread_id text rid time_str days_str needs_confirm specific_date
       is_recurring).
Proof.
  intros w. rewrite add_reminder_to_scheduler_plan.
  destruct (plan _ _ _ _ _ _ _ _ _ _ _ _ _ _) as [p | e]; cbn [fst];
    [apply store_apply_plan | reflexivity].
Qed.

Lemma keeps_store_load_loop strptime localize cron_dow_valid clock chat_id rs :
  forall count,
    keeps_store (load_loop strptime localize cron_dow_valid clock chat_id rs count).
Proof.
  induction rs as [| r rs IH]; intros count; cbn [load_loop].
  - apply keeps_store_ret.
  - destruct (int_truthy (r_active r)); [| apply IH].
    apply keeps_store_bind; [apply keeps_store_lift | intros cid].
    apply keeps_store_bind;
      [apply keeps_store_add_reminder_to_scheduler | intros _; apply IH].
Qed.

#[local] Hint Resolve keeps_store_add_reminder_to_scheduler
  keeps_store_load_loop : store_frame.

(** A reload only reads the store. *)
Lemma keeps_store_reload_scheduler strptime localize cron_dow_valid clock :
  keeps_store (reload_scheduler strptime localize cron_dow_valid clock).
Proof.
  unfold reload_scheduler, start_maintenance_jobs, load_reminders.
  auto 14 with store_frame.
Qed.

(** After a reload the registry holds one job per identifier, whatever it
    held before. *)
Lemma reload_scheduler_one_job_per_id strptime localize cron_dow_valid clock w :
  one_job_per_id
    (sched (exec (reload_scheduler strptime localize cron_dow_valid clock) w)).
Proof.
  unfold exec, reload_scheduler. unfold bind at 1. cbn [with_sched].
  match goal with
  | |- one_job_per_id (sched (fst (?m ?w0))) =>
      assert (keeps_one_job_per_id m) as Hkeep
  end.
  { apply keeps_bind; [apply keeps_start_maintenance_jobs | intros _].
    apply keeps_bind; [apply keeps_load_reminders | intros _].
    apply keeps_bind; [apply keeps_read_sched | intros b].
    destruct (negb b); [apply keeps_start | apply keeps_ret]. }
  apply Hkeep. apply NoDup_nil_2.
Qed.

Lemma time_offset_set_setting (n : Z) (st : Store) :
  time_offset (set_setting "time_offset_minutes" (Py.str n) st) = n.
Proof.
  unfold time_offset, Db.get_setting, set_setting. cbn [settings].
  rewrite lookup_insert_eq. cbn [opt_str default from_option id].
  rewrite int_str. reflexivity.
Qed.

(** X1: the correction written with [set_setting] is the correction
    [_get_time_offset_minutes] reads back, for every integer; the write
    touches neither the reminders nor any other setting. *)
Theorem X1_offset_written_is_offset_read :
  forall (n : Z) (w : World),
    let w' := exec (with_store (fun st =>
                (set_setting "time_offset_minutes" (Py.str n) st, tt))) w in
    _get_time_offset_minutes w' = (w', Ok n)
    /\ reminders (store w') = reminders (store w)
    /\ (forall key dflt, key <> "time_offset_minutes" ->
          Db.get_setting key dflt (store w') = Db.get_setting key dflt (store w)).
Proof.
  intros n w w'. subst w'. unfold exec, with_store. cbn [fst].
  split; [| split].
  - rewrite get_time_offset. cbn [store]. rewrite time_offset_set_setting.
    reflexivity.
  - reflexivity.
  - intros key dflt Hne. unfold Db.get_setting, set_setting. cbn [store settings].
    rewrite lookup_insert_ne by congruence. reflexivity.
Qed.

(** ** Times of day *)

Section TimesOfDay.

Lemma two_digit_text_below_60 :
  forallb two_digit_text (seqZ 0 60) = true.
Proof. vm_compute. reflexivity. Qed.

Lemma fmt_02d_two_digits (n : Z) :
  0 <= n <= 59 ->
  exists c1 c2, fmt_02d n = String c1 (String c2 "")
                /\ is_digit c1 = true /\ is_digit c2 = true
                /\ Py.int (fmt_02d n) = Some n.
Proof.
  intros Hn. pose proof two_digit_text_below_60 as Hall.
  rewrite forallb_forall in Hall. specialize (Hall n).
  assert (two_digit_text n = true) as Hok.
  { apply Hall, list_elem_of_In, elem_of_seqZ. lia. }
  unfold two_digit_text in Hok.
  destruct (fmt_02d n) as [| c1 [| c2 [| c3 r]]]; try discriminate.
  apply andb_prop in Hok as [[H1 H2]%andb_prop H3].
  exists c1, c2. repeat split; try assumption.
  by apply bool_decide_eq_true in H3.
Qed.

Lemma is_digit_not_colon (c : ascii) : is_digit c = true -> Ascii.eqb c ":" = false.
Proof. destruct c as [[] [] [] [] [] [] [] []]; vm_compute; congruence. Qed.

(** The time picker's text splits into the hour and the minute it was
    written from. *)
Lemma parse_time_text (h m : Z) :
  0 <= h <= 59 -> 0 <= m <= 59 ->
  Py.int <$> Py.split ":" (time_text h m) = [Some h; Some m].
Proof.
  intros Hh Hm. unfold time_text.
  destruct (fmt_02d_two_digits h Hh) as (c1 & c2 & Eh & Hc1 & Hc2 & Hih).
  destruct (fmt_02d_two_digits m Hm) as (d1 & d2 & Em & Hd1 & Hd2 & Him).
  rewrite Eh in *. rewrite Em in *.
  change (String c1 (String c2 "") +:+ ":" +:+ String d1 (String d2 ""))
    with (String c1 (String c2 (String ":" (String d1 (String d2 ""))))).
  cbn [Py.split].
  rewrite (is_digit_not_colon c1 Hc1), (is_digit_not_colon c2 Hc2),
    (is_digit_not_colon d1 Hd1), (is_digit_not_colon d2 Hd2), Ascii.eqb_refl.
  cbn [fmap list_fmap]. rewrite Hih, Him. reflexivity.
Qed.

(** The conversion on a text that reads as hour [hh] and minute [mm]. *)
Lemma convert_parsed (t : string) (off hh mm h m s : Z) :
  Py.int <$> Py.split ":" t = [Some hh; Some mm] ->
  _convert_bot_time_to_server t off = Ok (h, m, s) ->
  (0 <= hh <= 23 /\ 0 <= mm <= 59)
  /\ (0 <= h <= 23 /\ 0 <= m <= 59)
  /\ s * 1440 + h * 60 + m = hh * 60 + mm - off.
Proof.
  intros Hparse. unfold _convert_bot_time_to_server. rewrite Hparse.
  unfold Datetime.reference, Datetime.timedelta, Datetime.sub, rbind.
  destruct (negb _); [discriminate |].
  destruct ((0 <=? hh) && (hh <=? 23) && (0 <=? mm) && (mm <=? 59)) eqn:Hr;
    [| discriminate].
  destruct (Z.abs _ <=? _); [| discriminate].
  destruct (Datetime.in_range _) eqn:Hin; [| discriminate].
  intros [= <- <- <-].
  unfold Datetime.hour, Datetime.minute, Datetime.date, Datetime.minutes_per_day,
    Datetime.ordinal_2000_01_03 in *.
  split; [lia |].
  split; [split; Z.div_mod_to_equations; lia | Z.div_mod_to_equations; lia].
Qed.

Lemma convert_returns (t : string) (off hh mm : Z) :
  Py.int <$> Py.split ":" t = [Some hh; Some mm] ->
  0 <= hh <= 23 -> 0 <= mm <= 59 ->
  -1000000000 <= off <= 1000000000 ->
  exists h m s, _convert_bot_time_to_server t off = Ok (h, m, s).
Proof.
  intros Hparse Hh Hm Hoff. unfold _convert_bot_time_to_server. rewrite Hparse.
  unfold Datetime.reference, Datetime.timedelta, Datetime.sub, rbind,
    Datetime.fits_c_int, Datetime.in_range, Datetime.minutes_per_day,
    Datetime.max_ordinal, Datetime.ordinal_2000_01_03.
  assert (negb ((- 2 ^ 31 <=? hh) && (hh <? 2 ^ 31)
                && ((- 2 ^ 31 <=? mm) && (mm <? 2 ^ 31))) = false) as -> by lia.
  assert ((0 <=? hh) && (hh <=? 23) && (0 <=? mm) && (mm <=? 59) = true) as ->
    by lia.
  assert ((Z.abs (off / 1440) <=? 999999999) = true) as ->.
  { apply Z.leb_le. Z.div_mod_to_equations. lia. }
  assert ((0 <=? (730122 - 1) * 1440 + hh * 60 + mm - off)
          && ((730122 - 1) * 1440 + hh * 60 + mm - off <? 3652059 * 1440)
          = true) as -> by lia.
  eauto.
Qed.

End TimesOfDay.

(** X3: the conversion of a time of day is exact and in range.  For a text
    that reads as hour [hh] and minute [mm], every result [(h, m, s)] has
    [hh], [mm], [h] and [m] in the ranges of a clock, and physical time plus
    day shift is logical time minus offset: [s*1440 + h*60 + m = hh*60 + mm
    - off]; so an offset of zero changes nothing and an offset of less than
    a day shifts by at most one day.  For a valid time and an offset of at
    most a thousand million minutes the conversion returns. *)
Theorem X3_convert_exact_and_in_range :
  forall (t : string) (off hh mm : Z),
    Py.int <$> Py.split ":" t = [Some hh; Some mm] ->
    (forall h m s,
       _convert_bot_time_to_server t off = Ok (h, m, s) ->
       (0 <= hh <= 23 /\ 0 <= mm <= 59)
       /\ (0 <= h <= 23 /\ 0 <= m <= 59)
       /\ s * 1440 + h * 60 + m = hh * 60 + mm - off
       /\ (off = 0 -> (h, m, s) = (hh, mm, 0))
       /\ (Z.abs off < 1440 -> -1 <= s <= 1))
    /\ (0 <= hh <= 23 -> 0 <= mm <= 59 ->
        -1000000000 <= off <= 1000000000 ->
        exists h m s, _convert_bot_time_to_server t off = Ok (h, m, s)).
Proof.
  intros t off hh mm Hparse. split.
  - intros h m s Hc.
    destruct (convert_parsed t off hh mm h m s Hparse Hc) as (H1 & H2 & H3).
    split; [exact H1 |]. split; [exact H2 |]. split; [exact H3 |].
    split.
    + intros ->. assert (s = 0) by lia. subst s.
      assert (h = hh) by lia. subst h. f_equal. f_equal. lia.
    + intros Hlt. lia.
  - apply convert_returns, Hparse.
Qed.

Lemma X3_witness :
  (forall h m s,
     _convert_bot_time_to_server "00:30" 120 = Ok (h, m, s) ->
     (0 <= 0 <= 23 /\ 0 <= 30 <= 59)
     /\ (0 <= h <= 23 /\ 0 <= m <= 59)
     /\ s * 1440 + h * 60 + m = 0 * 60 + 30 - 120
     /\ (120 = 0 -> (h, m, s) = (0, 30, 0))
     /\ (Z.abs 120 < 1440 -> -1 <= s <= 1))
  /\ (0 <= 0 <= 23 -> 0 <= 30 <= 59 ->
      -1000000000 <= 120 <= 1000000000 ->
      exists h m s, _convert_bot_time_to_server "00:30" 120 = Ok (h, m, s)).
Proof.
  apply (X3_convert_exact_and_in_range "00:30" 120 0 30). reflexivity.
Defined.

(** ** Computations that return *)

Create HintDb returns.

Lemma never_raises_ret {A} (a : A) : never_raises (ret a).
Proof. intros w. eexists. reflexivity. Qed.

Lemma never_raises_logger lvl msg : never_raises (logger lvl msg).
Proof. intros w. eexists. reflexivity. Qed.

Lemma never_raises_read_store {A} (f : Store -> A) : never_raises (read_store f).
Proof. intros w. eexists. reflexivity. Qed.

Lemma never_raises_read_sched {A} (f : Scheduler -> A) : never_raises (read_sched f).
Proof. intros w. eexists. reflexivity. Qed.

Lemma never_raises_with_store {A} (f : Store -> Store * A) :
  never_raises (with_store f).
Proof.
  intros w. unfold with_store. destruct (f (store w)). eexists. reflexivity.
Qed.

Lemma never_raises_with_sched_total (f : Scheduler -> Scheduler) :
  never_raises (with_sched (fun s => Ok (f s))).
Proof. intros w. eexists. reflexivity. Qed.

Lemma never_raises_add_job (j : Job) :
  never_raises (with_sched (Sched.add_job j true)).
Proof. intros w. rewrite with_sched_add_job. eexists. reflexivity. Qed.

Lemma never_raises_bind {A B} (m : M A) (k : A -> M B) :
  never_raises m -> (forall a, never_raises (k a)) -> never_raises (bind m k).
Proof.
  intros Hm Hk w. unfold bind. destruct (Hm w) as [a Ha].
  destruct (m w) as [w1 r]. cbn [snd] in Ha. subst r. apply Hk.
Qed.

Lemma never_raises_try_except {A} (m : M A) (handler : exn -> M A) :
  (forall e, never_raises (handler e)) -> never_raises (try_except m handler).
Proof.
  intros Hh w. unfold try_except.
  destruct (m w) as [w1 [a | e]]; [eexists; reflexivity | apply Hh].
Qed.

#[local] Hint Resolve never_raises_ret never_raises_logger
  never_raises_read_store never_raises_read_sched never_raises_with_store
  never_raises_with_sched_total never_raises_add_job : returns.
#[local] Hint Extern 2 (never_raises (bind _ _)) =>
  apply never_raises_bind; [| intros ?] : returns.
#[local] Hint Extern 2 (never_raises (try_except _ _)) =>
  apply never_raises_try_except; intros ? : returns.
#[local] Hint Extern 3 (never_raises (if ?b then _ else _)) =>
  destruct b : returns.

(** [load_reminders] and [reload_scheduler] contain every failure. *)
Lemma never_raises_load_reminders strptime localize cron_dow_valid clock :
  never_raises (load_reminders strptime localize cron_dow_valid clock).
Proof. unfold load_reminders. auto 10 with returns. Qed.

Lemma never_raises_reload_scheduler strptime localize cron_dow_valid clock :
  never_raises (reload_scheduler strptime localize cron_dow_valid clock).
Proof.
  unfold reload_scheduler, start_maintenance_jobs.
  pose proof (never_raises_load_reminders strptime localize cron_dow_valid clock).
  auto 12 with returns.
Qed.

Lemma reload_scheduler_run strptime localize cron_dow_valid clock w :
  reload_scheduler strptime localize cron_dow_valid clock w
  = (exec (reload_scheduler strptime localize cron_dow_valid clock) w, Ok tt).
Proof.
  destruct (never_raises_reload_scheduler strptime localize cron_dow_valid
              clock w) as [[] Ha].
  unfold exec. destruct (reload_scheduler _ _ _ _ w) as [w1 r].
  cbn [snd fst] in *. subst r. reflexivity.
Qed.

(** ** Reload, job by job *)

Section ReloadJobs.

Variable strptime : string -> result Z.
Variable localize : Z -> result Z.
Variable cron_dow_valid : string -> bool.
Variable clock : Z -> Z.

Local Abbreviation loop := (load_loop strptime localize cron_dow_valid clock).
Local Abbreviation load := (load_reminders strptime localize cron_dow_valid clock).
Local Abbreviation reload :=
  (reload_scheduler strptime localize cron_dow_valid clock).
Local Abbreviation the_plan_of :=
  (plan_of strptime localize cron_dow_valid clock).
Local Abbreviation ok := (compiles strptime localize cron_dow_valid clock).

(** The registry as [reload_scheduler] hands it to [load_reminders]. *)
Local Abbreviation cleared w :=
  (add_log INFO MsgMaintenanceScheduled
     (set_sched (arm maintenance_job (Sched.remove_all_jobs (sched w))) w)).

Lemma jobs_for_apply_plan_other id p w :
  (forall j, p = Arm j -> id <> job_id j) ->
  jobs_for id (sched (apply_plan p w)) = jobs_for id (sched w).
Proof.
  destruct p as [ft | j]; cbn [apply_plan sched add_log set_sched]; intros H;
    [reflexivity |].
  apply jobs_for_arm_other, (H j eq_refl).
Qed.

(** The loop touches the jobs of the active reminders it walks through and
    no other job, also when it stops at a failure. *)
Lemma load_loop_frame (cid_str : string) (id : string) (rs : list Reminder) :
  (forall r, r ∈ rs -> int_truthy (r_active r) = true ->
             id <> _job_id (r_id r)) ->
  forall (count : Z) (w : World),
    jobs_for id (sched (fst (loop cid_str rs count w))) = jobs_for id (sched w).
Proof.
  induction rs as [| r rs IH]; intros Hid count w; [reflexivity |].
  assert (forall r', r' ∈ rs -> int_truthy (r_active r') = true ->
                     id <> _job_id (r_id r')) as Hid'.
  { intros r' Hin. apply Hid. by apply list_elem_of_further. }
  cbn [load_loop]. destruct (int_truthy (r_active r)) eqn:Hact.
  - unfold bind at 1. unfold lift.
    destruct (int_or_raise cid_str) as [cid | e]; [| reflexivity].
    unfold bind at 1. rewrite add_reminder_to_scheduler_plan.
    destruct (plan _ _ _ _ _ _ _ _ _ _ _ _ _ _) as [p | e] eqn:Hp;
      [| reflexivity].
    rewrite (IH Hid'). apply jobs_for_apply_plan_other.
    intros j ->. rewrite (plan_job_id _ _ _ _ _ _ _ _ _ _ _ _ _ _ _ Hp).
    apply Hid; [apply list_elem_of_here | exact Hact].
  - apply (IH Hid').
Qed.

(** When no reminder makes the loop raise and identifiers are a key, the
    job of every active reminder afterwards is the job compiled from its
    row; a skipped one-shot leaves what was there. *)
Lemma load_loop_jobs (cid_str : string) (cid : Z) (rs : list Reminder) :
  int_or_raise cid_str = Ok cid ->
  NoDup (r_id <$> rs) ->
  forall (count : Z) (w : World),
    (forall r, r ∈ rs -> int_truthy (r_active r) = true ->
               ok (time_offset (store w)) cid r = true) ->
    one_job_per_id (sched w) ->
    forall r, r ∈ rs -> int_truthy (r_active r) = true ->
      jobs_for (_job_id (r_id r)) (sched (fst (loop cid_str rs count w)))
      = match the_plan_of (time_offset (store w)) cid r with
        | Ok (Arm j) => [j]
        | _ => jobs_for (_job_id (r_id r)) (sched w)
        end.
Proof.
  intros Hcid. induction rs as [| r0 rs IH]; intros Hnd count w Hok Hinv r Hin Hact.
  { by apply elem_of_nil in Hin. }
  cbn [fmap list_fmap] in Hnd. apply NoDup_cons in Hnd as [Hfresh Hnd].
  assert (forall r', r' ∈ rs -> _job_id (r_id r0) <> _job_id (r_id r')) as Hother.
  { intros r' Hin' Heq. apply _job_id_inj in Heq. apply Hfresh.
    apply list_elem_of_fmap. exists r'. split; [congruence | exact Hin']. }
  cbn [load_loop]. destruct (int_truthy (r_active r0)) eqn:Hact0.
  - pose proof (Hok r0 (list_elem_of_here _ _) Hact0) as Hr0.
    unfold compiles in Hr0.
    unfold bind at 1. unfold lift. rewrite Hcid. unfold bind at 1.
    rewrite add_reminder_to_scheduler_plan.
    fold (the_plan_of (time_offset (store w)) cid r0).
    destruct (the_plan_of (time_offset (store w)) cid r0) as [p | e] eqn:Hp;
      [| discriminate].
    apply elem_of_cons in Hin as [-> | Hin].
    + rewrite load_loop_frame by (intros r' Hin' _; by apply Hother).
      rewrite Hp. destruct p as [ft | j]; [reflexivity |].
      cbn [apply_plan sched set_sched].
      rewrite <- (plan_job_id _ _ _ _ _ _ _ _ _ _ _ _ _ _ _ Hp).
      by apply jobs_for_arm.
    + rewrite (IH Hnd (count + 1) (apply_plan p w)); try assumption.
      * rewrite store_apply_plan.
        destruct (the_plan_of (time_offset (store w)) cid r) as [[ft | j] | e];
          try reflexivity;
          apply jobs_for_apply_plan_other; intros j' ->;
          rewrite (plan_job_id _ _ _ _ _ _ _ _ _ _ _ _ _ _ _ Hp);
          intros Heq; by apply (Hother r Hin).
      * intros r' Hin' Hact'. rewrite store_apply_plan.
        apply Hok; [by apply list_elem_of_further | exact Hact'].
      * by apply apply_plan_one_job_per_id.
  - apply elem_of_cons in Hin as [-> | Hin]; [congruence |].
    apply (IH Hnd count w); try assumption.
    intros r' Hin' Hact'. apply Hok; [by apply list_elem_of_further | exact Hact'].
Qed.

Lemma load_reminders_total (w : World) : load w = (exec load w, Ok tt).
Proof.
  destruct (never_raises_load_reminders strptime localize cron_dow_valid
              clock w) as [[] Ha].
  unfold exec. destruct (load w) as [w1 r]. cbn [snd fst] in *. by subst r.
Qed.

(** The registry after [load_reminders] is the one its loop leaves. *)
Lemma load_reminders_sched (w : World) :
  sched (exec load w)
  = match Db.get_setting "group_chat_id" None (store w) with
    | Some cs =>
        if Py.truthy cs
        then sched (fst (loop cs (reminders (store w)) 0 w))
        else sched w
    | None => sched w
    end.
Proof.
  unfold exec, load_reminders. unfold bind at 1. unfold read_store at 1.
  destruct (Db.get_setting "group_chat_id" None (store w)) as [cs |];
    cbn [opt_truthy]; [| reflexivity].
  destruct (Py.truthy cs); cbn [negb]; [| reflexivity].
  change (opt_str (Some cs)) with cs.
  unfold try_except, bind, read_store, Db.get_reminders.
  destruct (loop cs (reminders (store w)) 0 w) as [w1 [n | e]]; reflexivity.
Qed.

(** [reload_scheduler], step by step. *)
Lemma reload_scheduler_exec (w : World) :
  exec reload w
  = let w2 := exec load (cleared w) in
    if negb (running (sched w2)) then set_sched (Sched.start (sched w2)) w2
    else w2.
Proof.
  unfold exec, reload_scheduler. unfold bind at 1. cbn [with_sched].
  unfold bind at 1. rewrite start_maintenance_jobs_run.
  unfold bind at 1. rewrite load_reminders_total.
  unfold bind, read_sched. cbv zeta. unfold exec.
  destruct (running (sched (fst (load _)))); reflexivity.
Qed.

Lemma reload_scheduler_jobs (w : World) :
  jobs (sched (exec reload w)) = jobs (sched (exec load (cleared w))).
Proof.
  rewrite reload_scheduler_exec. cbv zeta.
  destruct (negb (running (sched (exec load (cleared w))))); reflexivity.
Qed.

Lemma jobs_for_cleared_reminder (rid : Z) (w : World) :
  jobs_for (_job_id rid) (sched (cleared w)) = [].
Proof. reflexivity. Qed.

(** Whatever the store holds, a reload leaves the scheduler running with
    the maintenance job installed, once. *)
Lemma reload_installs_maintenance (w : World) :
  running (sched (exec reload w)) = true
  /\ jobs_for "weekly_maintenance" (sched (exec reload w)) = [maintenance_job].
Proof.
  split.
  - rewrite reload_scheduler_exec. cbv zeta.
    destruct (running (sched (exec load (cleared w)))) eqn:E; cbn [negb];
      [exact E | reflexivity].
  - unfold jobs_for. rewrite reload_scheduler_jobs.
    change (jobs_for "weekly_maintenance" (sched (exec load (cleared w)))
            = [maintenance_job]).
    rewrite load_reminders_sched.
    destruct (Db.get_setting _ _ _) as [cs |]; [| reflexivity].
    destruct (Py.truthy cs); [| reflexivity].
    rewrite load_loop_frame; [reflexivity |].
    intros r _ _ Heq. symmetry in Heq. by apply _job_id_not_maintenance in Heq.
Qed.

(** With a chat bound, identifiers that are a key and no failure while
    arming, a reload leaves for every reminder of the store exactly the job
    compiled from its row if it is active and not skipped, and no job
    otherwise; no job answers to an identifier that is not in the store. *)
Lemma reload_installs_planned_jobs (w : World) (cid_str : string) (cid : Z) :
  Db.get_setting "group_chat_id" None (store w) = Some cid_str ->
  Py.int cid_str = Some cid ->
  NoDup (reminder_ids (store w)) ->
  (forall r, r ∈ reminders (store w) -> int_truthy (r_active r) = true ->
             ok (time_offset (store w)) cid r = true) ->
  (forall r, r ∈ reminders (store w) ->
     jobs_for (_job_id (r_id r)) (sched (exec reload w))
     = if int_truthy (r_active r)
       then match the_plan_of (time_offset (store w)) cid r with
            | Ok (Arm j) => [j]
            | _ => []
            end
       else [])
  /\ (forall rid, rid ∉ reminder_ids (store w) ->
        jobs_for (_job_id rid) (sched (exec reload w)) = []).
Proof.
  intros Hchat Hint Hnd Hok.
  assert (int_or_raise cid_str = Ok cid) as Hcid
    by (unfold int_or_raise; rewrite Hint; reflexivity).
  assert (forall id,
            jobs_for id (sched (exec reload w))
            = jobs_for id
                (sched (fst (loop cid_str (reminders (store w)) 0 (cleared w)))))
    as Hjobs.
  { intros id. unfold jobs_for at 1. rewrite reload_scheduler_jobs.
    change (jobs_for id (sched (exec load (cleared w))) = 
            jobs_for id
              (sched (fst (loop cid_str (reminders (store w)) 0 (cleared w))))).
    rewrite load_reminders_sched. cbn [store add_log set_sched].
    rewrite Hchat, (int_nonempty _ _ Hint). reflexivity. }
  split.
  - intros r Hin. rewrite Hjobs.
    destruct (int_truthy (r_active r)) eqn:Hact.
    + rewrite (load_loop_jobs cid_str cid (reminders (store w)) Hcid Hnd 0
                 (cleared w)); try assumption.
      * cbn [store add_log set_sched]. rewrite jobs_for_cleared_reminder.
        reflexivity.
      * unfold one_job_per_id. cbn. apply NoDup_singleton.
    + rewrite load_loop_frame; [apply jobs_for_cleared_reminder |].
      intros r' Hin' Hact' Heq. apply _job_id_inj in Heq.
      assert (r = r') as <-; [| congruence].
      apply list_elem_of_lookup in Hin as [i Hi].
      apply list_elem_of_lookup in Hin' as [i' Hi'].
      assert (i = i') as <-; [| congruence].
      apply (NoDup_lookup _ _ _ (r_id r) Hnd); unfold reminder_ids;
        rewrite list_lookup_fmap; [rewrite Hi | rewrite Hi']; cbn; congruence.
  - intros rid Hnot. rewrite Hjobs.
    rewrite load_loop_frame; [apply jobs_for_cleared_reminder |].
    intros r Hin _ Heq. apply _job_id_inj in Heq. apply Hnot.
    apply list_elem_of_fmap. exists r. split; [congruence | exact Hin].
Qed.

(** A reload leaves the registry that the store stands for. *)
Lemma reload_registry_as_loaded (w : World) (cid : Z) :
  loads_without_failure strptime localize cron_dow_valid clock (store w) cid ->
  registry_as_loaded strptime localize cron_dow_valid clock (store w) cid
    (sched (exec reload w)).
Proof.
  intros ([cid_str [Hchat Hint]] & Hnd & Hok).
  destruct (reload_installs_planned_jobs w cid_str cid Hchat Hint Hnd Hok)
    as [Hjobs Hnone].
  split; [apply reload_installs_maintenance |]. split; [| exact Hnone].
  intros r Hin. rewrite (Hjobs r Hin). reflexivity.
Qed.

(** What [load_reminders] leaves for an active reminder of such a store, on
    top of any registry with one job per identifier. *)
Lemma load_reminders_jobs (w : World) (cid : Z) :
  loads_without_failure strptime localize cron_dow_valid clock (store w) cid ->
  one_job_per_id (sched w) ->
  forall r, r ∈ reminders (store w) -> int_truthy (r_active r) = true ->
    jobs_for (_job_id (r_id r)) (sched (exec load w))
    = match the_plan_of (time_offset (store w)) cid r with
      | Ok (Arm j) => [j]
      | _ => jobs_for (_job_id (r_id r)) (sched w)
      end.
Proof.
  intros ([cid_str [Hchat Hint]] & Hnd & Hok) Hinv r Hin Hact.
  assert (int_or_raise cid_str = Ok cid) as Hcid
    by (unfold int_or_raise; rewrite Hint; reflexivity).
  rewrite load_reminders_sched, Hchat, (int_nonempty _ _ Hint).
  by apply (load_loop_jobs cid_str cid (reminders (store w)) Hcid Hnd 0 w).
Qed.

End ReloadJobs.

(** ** Setting the clock *)

Section ClockHandlers.

Variable strptime : string -> result Z.
Variable localize : Z -> result Z.
Variable cron_dow_valid : string -> bool.
Variable clock : Z -> Z.

Local Abbreviation reload :=
  (reload_scheduler strptime localize cron_dow_valid clock).

(** The world after the correction [off] is written and the scheduler is
    reloaded. *)
Local Abbreviation reloaded_with off w :=
  (exec reload
     (set_store (set_setting "time_offset_minutes" (Py.str off) (store w)) w)).

Lemma reloaded_with_facts (off : Z) (w : World) :
  let w' := reloaded_with off w in
  store w' = set_setting "time_offset_minutes" (Py.str off) (store w)
  /\ time_offset (store w') = off
  /\ reminders (store w') = reminders (store w)
  /\ (forall key dflt, key <> "time_offset_minutes" ->
        Db.get_setting key dflt (store w') = Db.get_setting key dflt (store w))
  /\ running (sched w') = true
  /\ one_job_per_id (sched w')
  /\ jobs_for "weekly_maintenance" (sched w') = [maintenance_job]
  /\ (forall cid,
        loads_without_failure strptime localize cron_dow_valid clock
          (store w') cid ->
        registry_as_loaded strptime localize cron_dow_valid clock
          (store w') cid (sched w')).
Proof.
  intros w'.
  assert (store w' = set_setting "time_offset_minutes" (Py.str off) (store w))
    as Hst.
  { subst w'. unfold exec. rewrite keeps_store_reload_scheduler. reflexivity. }
  split; [exact Hst |]. rewrite Hst.
  split; [apply time_offset_set_setting |]. split; [reflexivity |].
  split.
  { intros key dflt Hne. unfold Db.get_setting, set_setting. cbn [settings].
    rewrite lookup_insert_ne by congruence. reflexivity. }
  destruct (reload_installs_maintenance strptime localize cron_dow_valid clock
              (set_store (set_setting "time_offset_minutes" (Py.str off)
                            (store w)) w)) as [Hrun Hmaint].
  split; [exact Hrun |].
  split; [apply reload_scheduler_one_job_per_id |].
  split; [exact Hmaint |].
  intros cid Hload.
  apply (reload_registry_as_loaded strptime localize cron_dow_valid clock
           (set_store (set_setting "time_offset_minutes" (Py.str off)
                         (store w)) w) cid Hload).
Qed.

Lemma time_adjust_run (val : string) (w : World) :
  match Py.int val with
  | Some delta =>
      exec (time_adjust strptime localize cron_dow_valid clock val) w
      = reloaded_with (time_offset (store w) + delta) w
  | None =>
      time_adjust strptime localize cron_dow_valid clock val w
      = (w, Raise ValueError)
  end.
Proof.
  destruct (Py.int val) as [delta |] eqn:Hval.
  - unfold exec, time_adjust. unfold bind at 1.
    unfold lift, int_or_raise. rewrite Hval. unfold bind at 1.
    rewrite get_time_offset. unfold bind at 1. reflexivity.
  - unfold time_adjust, bind, lift, int_or_raise. rewrite Hval. reflexivity.
Qed.

(** The calls that follow the reload in [time_input_finish]: they leave
    the world alone and raise what one of them raises. *)
Lemma ui_calls_after_reload (ui : UiCall -> option exn) (off : Z) (w : World) :
  let run := (call ui StateClear ;; call ui (AnswerTimeSet off) ;;
              call ui SettingsMenuKb ;; call ui AnswerSettingsMenu) w in
  fst run = w
  /\ (forall e, snd run = Raise e -> exists c, ui c = Some e)
  /\ ((forall c, ui c = None) -> snd run = Ok tt).
Proof.
  unfold call, bind, lift. cbv zeta.
  destruct (ui StateClear) as [e1 |] eqn:E1; cbn [fst snd].
  { split; [reflexivity |]. split; [intros e [= <-]; eauto |].
    intros H. by rewrite H in E1. }
  destruct (ui (AnswerTimeSet off)) as [e2 |] eqn:E2; cbn [fst snd].
  { split; [reflexivity |]. split; [intros e [= <-]; eauto |].
    intros H. by rewrite H in E2. }
  destruct (ui SettingsMenuKb) as [e3 |] eqn:E3; cbn [fst snd].
  { split; [reflexivity |]. split; [intros e [= <-]; eauto |].
    intros H. by rewrite H in E3. }
  destruct (ui AnswerSettingsMenu) as [e4 |] eqn:E4; cbn [fst snd].
  { split; [reflexivity |]. split; [intros e [= <-]; eauto |].
    intros H. by rewrite H in E4. }
  split; [reflexivity |]. split; [discriminate | reflexivity].
Qed.

Lemma ui_call_invalid (ui : UiCall -> option exn) (w : World) :
  let run := call ui AnswerInvalidFormat w in
  fst run = w
  /\ (forall e, snd run = Raise e -> exists c, ui c = Some e)
  /\ ((forall c, ui c = None) -> snd run = Ok tt).
Proof.
  unfold call, lift. cbv zeta.
  destruct (ui AnswerInvalidFormat) as [e1 |] eqn:E1; cbn [fst snd].
  - split; [reflexivity |]. split; [intros e [= <-]; eauto |].
    intros H. by rewrite H in E1.
  - split; [reflexivity |]. split; [discriminate | reflexivity].
Qed.

Lemma time_input_finish_run (ui : UiCall -> option exn)
      (server_hour server_minute : Z) (text : option string) (w : World) :
  time_input_finish strptime localize cron_dow_valid ui clock server_hour
    server_minute text w
  = match Py.int <$> Py.split ":" (Py.strip (default "" text)) with
    | [Some h; Some m] =>
        if (0 <=? h) && (h <=? 23) && (0 <=? m) && (m <=? 59) then
          let off := (h * 60 + m) - (server_hour * 60 + server_minute) in
          (call ui StateClear ;; call ui (AnswerTimeSet off) ;;
           call ui SettingsMenuKb ;; call ui AnswerSettingsMenu)
            (reloaded_with off w)
        else call ui AnswerInvalidFormat w
    | _ => call ui AnswerInvalidFormat w
    end.
Proof.
  unfold time_input_finish. cbv zeta.
  destruct (Py.split ":" (Py.strip (default "" text)))
    as [| h_str [| m_str [| x r]]]; cbn [fmap list_fmap]; try reflexivity.
  - destruct (Py.int h_str); reflexivity.
  - destruct (Py.int h_str) as [h |], (Py.int m_str) as [m |]; try reflexivity.
    destruct ((0 <=? h) && (h <=? 23) && (0 <=? m) && (m <=? 59)); [| reflexivity].
    unfold bind at 1. unfold with_store at 1. cbn match. unfold bind at 1.
    rewrite reload_scheduler_run. reflexivity.
  - destruct (Py.int h_str), (Py.int m_str), (Py.int x); reflexivity.
Qed.

End ClockHandlers.

(** X2: [time_adjust] adds the amount on the button to the stored
    correction and reloads the scheduler.  Afterwards the correction is the
    old one plus the amount, the reminders and the other settings are those
    before, the scheduler runs with one job per identifier and with the
    maintenance job, and, when the store loads without a failure, the
    registry holds for every reminder exactly the job compiled from its row
    under the new correction and no other reminder job.  A button text that
    is no integer raises before anything is written. *)
Theorem X2_time_adjust_adds_delta :
  forall strptime localize cron_dow_valid clock (val : string) (w : World),
    match Py.int val with
    | Some delta =>
        let w' := exec (time_adjust strptime localize cron_dow_valid clock val) w in
        time_offset (store w') = time_offset (store w) + delta
        /\ reminders (store w') = reminders (store w)
        /\ (forall key dflt, key <> "time_offset_minutes" ->
              Db.get_setting key dflt (store w')
              = Db.get_setting key dflt (store w))
        /\ running (sched w') = true
        /\ one_job_per_id (sched w')
        /\ jobs_for "weekly_maintenance" (sched w') = [maintenance_job]
        /\ (forall cid,
              loads_without_failure strptime localize cron_dow_valid clock
                (store w') cid ->
              registry_as_loaded strptime localize cron_dow_valid clock
                (store w') cid (sched w'))
    | None =>
        time_adjust strptime localize cron_dow_valid clock val w
        = (w, Raise ValueError)
    end.
Proof.
  intros. pose proof (time_adjust_run strptime localize cron_dow_valid clock
                        val w) as Hrun.
  destruct (Py.int val) as [delta |]; [| exact Hrun].
  intros w'. subst w'. rewrite Hrun.
  destruct (reloaded_with_facts strptime localize cron_dow_valid clock
              (time_offset (store w) + delta) w)
    as (_ & H1 & H2 & H3 & H4 & H5 & H6 & H7).
  split; [exact H1 |]. split; [exact H2 |]. split; [exact H3 |].
  split; [exact H4 |]. split; [exact H5 |]. split; [exact H6 | exact H7].
Qed.

Lemma X2_witness :
  let w := mk_world [weekly_reminder 1 1 "09:00" "0"]
             [("group_chat_id", "-100123")] [] in
  let w' := exec (time_adjust Calendar.strptime_iso localize_almaty
                    cron_weekdays (fun _ => 0) "+60") w in
  time_offset (store w') = 60
  /\ jobs_for (_job_id 1) (sched w')
     = [{| job_id := _job_id 1;
           job_func := SendReminderJob
             {| a_chat_id := -100123; a_thread_id := 1; a_text := "t";
                a_rid := 1; a_needs_confirm := false;
                a_is_recurring := true |};
           job_trigger := CronTrigger (Some "0") 8 0 |}].
Proof.
  intros w w'.
  pose proof (X2_time_adjust_adds_delta Calendar.strptime_iso localize_almaty
                cron_weekdays (fun _ => 0) "+60" w) as H.
  change (Py.int "+60") with (Some 60) in H. cbv zeta in H. fold w' in H.
  destruct H as (Hoff & Hrem & _ & _ & _ & _ & Hreg).
  split; [exact Hoff |].
  assert (loads_without_failure Calendar.strptime_iso localize_almaty
            cron_weekdays (fun _ => 0) (store w') (-100123)) as Hload.
  { split; [| split].
    - exists "-100123". split; vm_compute; reflexivity.
    - unfold reminder_ids. rewrite Hrem. apply NoDup_singleton.
    - rewrite Hrem. intros r Hin _. apply list_elem_of_singleton in Hin.
      subst r. vm_compute. reflexivity. }
  destruct (Hreg (-100123) Hload) as (_ & Hjobs & _).
  change (_job_id 1) with (_job_id (r_id (weekly_reminder 1 1 "09:00" "0"))).
  rewrite (Hjobs (weekly_reminder 1 1 "09:00" "0")).
  - vm_compute. reflexivity.
  - rewrite Hrem. apply list_elem_of_here.
Defined.

(** X4: [time_input_finish] sets the logical clock to the time typed and
    reloads the scheduler.  It raises only what one of its calls to the
    chat raises and returns when they all return; a text it does not accept
    is answered and changes nothing.  When it accepts, with the server
    clock at [sh:sm], the time typed converts back to [sh:sm] with day
    shift 0 under the new correction, the reminders are untouched, the
    scheduler runs with one job per identifier and with the maintenance
    job, and, when the store loads without a failure, the registry holds
    for every reminder exactly the job compiled from its row under the new
    correction.  A canonical time of day is accepted and gives the
    correction [(h*60+m) - (sh*60+sm)]. *)
Theorem X4_time_input_sets_logical_clock :
  forall strptime localize cron_dow_valid clock ui (sh sm : Z)
         (text : option string) (w : World),
    0 <= sh <= 23 -> 0 <= sm <= 59 ->
    let raw := Py.strip (default "" text) in
    let run := time_input_finish strptime localize cron_dow_valid ui clock
                 sh sm text w in
    let w' := fst run in
    (forall e, snd run = Raise e -> exists c, ui c = Some e)
    /\ ((forall c, ui c = None) -> snd run = Ok tt)
    /\ exists accepted : bool,
         (if accepted then
            _convert_bot_time_to_server raw (time_offset (store w'))
            = Ok (sh, sm, 0)
            /\ reminders (store w') = reminders (store w)
            /\ running (sched w') = true
            /\ one_job_per_id (sched w')
            /\ jobs_for "weekly_maintenance" (sched w') = [maintenance_job]
            /\ (forall cid,
                  loads_without_failure strptime localize cron_dow_valid
                    clock (store w') cid ->
                  registry_as_loaded strptime localize cron_dow_valid clock
                    (store w') cid (sched w'))
          else run = call ui AnswerInvalidFormat w)
         /\ (forall h m, 0 <= h <= 23 -> 0 <= m <= 59 -> raw = time_text h m ->
               accepted = true
               /\ time_offset (store w') = (h * 60 + m) - (sh * 60 + sm)).
Proof.
  intros until w. intros HH HM raw run w'. subst run w'.
  rewrite time_input_finish_run. fold raw.
  assert (forall h m, 0 <= h <= 23 -> 0 <= m <= 59 -> raw = time_text h m ->
                      Py.int <$> Py.split ":" raw = [Some h; Some m]) as Hcanon.
  { intros h m Hh Hm ->. apply parse_time_text; lia. }
  pose proof (ui_call_invalid ui w) as (Hi1 & Hi2 & Hi3).
  destruct (Py.int <$> Py.split ":" raw) as [| [h |] [| [m |] [| x r]]] eqn:Hparse;
    try (split; [exact Hi2 |]; split; [exact Hi3 |]; exists false;
         split; [reflexivity |];
         intros h0 m0 Hh0 Hm0 Hraw; by specialize (Hcanon h0 m0 Hh0 Hm0 Hraw)).
  destruct ((0 <=? h) && (h <=? 23) && (0 <=? m) && (m <=? 59)) eqn:Hrange.
  - cbv zeta. set (off := h * 60 + m - (sh * 60 + sm)).
    pose proof (ui_calls_after_reload ui off
                  (exec (reload_scheduler strptime localize cron_dow_valid clock)
                     (set_store (set_setting "time_offset_minutes" (Py.str off)
                                   (store w)) w))) as (Hc1 & Hc2 & Hc3).
    destruct (reloaded_with_facts strptime localize cron_dow_valid clock off w)
      as (Hst & H1 & H2 & H3 & H4 & H5 & H6 & H7).
    split; [exact Hc2 |]. split; [exact Hc3 |]. rewrite Hc1.
    exists true. split.
    + split; [| split; [exact H2 |]; split; [exact H4 |]; split; [exact H5 |];
                split; [exact H6 | exact H7]].
      rewrite H1.
      destruct (convert_returns raw off h m Hparse) as (h' & m' & s' & Hc);
        try lia.
      destruct (convert_parsed raw _ h m h' m' s' Hparse Hc) as (_ & Hr & Hid).
      rewrite Hc. assert (s' = 0) as -> by lia.
      assert (h' = sh) as -> by lia. assert (m' = sm) as -> by lia.
      reflexivity.
    + intros h0 m0 Hh0 Hm0 Hraw.
      specialize (Hcanon h0 m0 Hh0 Hm0 Hraw). injection Hcanon as <- <-.
      split; [reflexivity | exact H1].
  - split; [exact Hi2 |]. split; [exact Hi3 |]. exists false.
    split; [reflexivity |].
    intros h0 m0 Hh0 Hm0 Hraw.
    specialize (Hcanon h0 m0 Hh0 Hm0 Hraw). injection Hcanon as -> ->. lia.
Qed.

Lemma X4_witness :
  let w := mk_world [weekly_reminder 1 1 "09:00" "0"]
             [("group_chat_id", "-100123")] [] in
  let run := time_input_finish Calendar.strptime_iso localize_almaty
               cron_weekdays (fun _ => None) (fun _ => 0) 12 40
               (Some " 14:25 ") w in
  snd run = Ok tt
  /\ time_offset (store (fst run)) = 105
  /\ jobs_for (_job_id 1) (sched (fst run))
     = [{| job_id := _job_id 1;
           job_func := SendReminderJob
             {| a_chat_id := -100123; a_thread_id := 1; a_text := "t";
                a_rid := 1; a_needs_confirm := false;
                a_is_recurring := true |};
           job_trigger := CronTrigger (Some "0") 7 15 |}].
Proof.
  intros w run.
  destruct (X4_time_input_sets_logical_clock Calendar.strptime_iso
              localize_almaty cron_weekdays (fun _ => 0) (fun _ => None) 12 40
              (Some " 14:25 ") w ltac:(lia) ltac:(lia))
    as (_ & Hret & accepted & Hacc & Hcanon).
  fold run in Hret, Hacc, Hcanon.
  destruct (Hcanon 14 25 ltac:(lia) ltac:(lia) eq_refl) as [-> Hoff].
  destruct Hacc as (_ & Hrem & _ & _ & _ & Hreg).
  split; [by apply Hret |]. split; [exact Hoff |].
  assert (loads_without_failure Calendar.strptime_iso localize_almaty
            cron_weekdays (fun _ => 0) (store (fst run)) (-100123)) as Hload.
  { split; [| split].
    - exists "-100123". split; vm_compute; reflexivity.
    - unfold reminder_ids. rewrite Hrem. apply NoDup_singleton.
    - rewrite Hrem. intros r Hin _. apply list_elem_of_singleton in Hin.
      subst r. vm_compute. reflexivity. }
  destruct (Hreg (-100123) Hload) as (_ & Hjobs & _).
  change (_job_id 1) with (_job_id (r_id (weekly_reminder 1 1 "09:00" "0"))).
  rewrite (Hjobs (weekly_reminder 1 1 "09:00" "0")).
  - vm_compute. reflexivity.
  - rewrite Hrem. apply list_elem_of_here.
Defined.

(** ** Weekday sets under the day shift *)

Lemma shift_days_read (days : string) (shift : Z) :
  String.eqb days "all" = false -> shift <> 0 ->
  _shift_days days shift
  = match parse_days days with
    | [] => days
    | ds => encode_days ((fun d => (d + shift) mod 7) <$> ds)
    end.
Proof.
  intros Hall Hshift. unfold _shift_days. rewrite Hall.
  assert ((shift =? 0) = false) as -> by lia. cbn [orb].
  fold (parse_days days). destruct (parse_days days) as [| d ds]; [reflexivity |].
  unfold encode_days. rewrite <- list_fmap_compose. reflexivity.
Qed.

Lemma Forall_weekday_mod (f : Z -> Z) (ds : list Z) :
  Forall (fun x => 0 <= x < 7) ((fun d => f d mod 7) <$> ds).
Proof.
  apply Forall_fmap, Forall_forall. intros x _. cbn. apply Z.mod_pos_bound. lia.
Qed.

(** X5: what [_shift_days] returns reads as the days of its argument, each
    shifted modulo seven, whatever the text looks like: for a shift other
    than zero and a text other than ["all"] in which at least one day can be
    read, the days read from the result are those read from the argument
    plus the shift modulo seven, all between 0 and 6; a text in which no day
    can be read is returned as it is. *)
Theorem X5_shift_days_reads_shifted :
  forall (days : string) (shift : Z),
    shift <> 0 -> days <> "all" ->
    (parse_days days = [] -> _shift_days days shift = days)
    /\ (parse_days days <> [] ->
        parse_days (_shift_days days shift)
        = (fun d => (d + shift) mod 7) <$> parse_days days
        /\ Forall (fun d => 0 <= d < 7) (parse_days (_shift_days days shift))).
Proof.
  intros days shift Hshift Hall.
  apply String.eqb_neq in Hall. rewrite (shift_days_read days shift Hall Hshift).
  destruct (parse_days days) as [| d ds] eqn:Hp.
  - split; [reflexivity | congruence].
  - split; [discriminate | intros _].
    pose proof (Forall_weekday_mod (fun x => x + shift) (d :: ds)) as Hf.
    cbn [fmap list_fmap] in *. rewrite parse_days_encode by exact Hf.
    split; [reflexivity | exact Hf].
Qed.

Lemma X5_witness :
  (parse_days " 1 , x, 7," = [] -> _shift_days " 1 , x, 7," 3 = " 1 , x, 7,")
  /\ (parse_days " 1 , x, 7," <> [] ->
      parse_days (_shift_days " 1 , x, 7," 3)
      = (fun d => (d + 3) mod 7) <$> parse_days " 1 , x, 7,"
      /\ Forall (fun d => 0 <= d < 7) (parse_days (_shift_days " 1 , x, 7," 3))).
Proof.
  apply (X5_shift_days_reads_shifted " 1 , x, 7," 3); [lia | discriminate].
Defined.

(** X6: on weekday sets day shifts compose and cancel: shifting by [a] and
    then by [b] is shifting by [a + b], shifting back by [-a] restores the
    set, and a shift by a whole week changes nothing. *)
Theorem X6_shift_days_compose :
  forall (ds : list Z) (a b : Z),
    let days := encode_days ((fun d => d mod 7) <$> ds) in
    _shift_days (_shift_days days a) b = _shift_days days (a + b)
    /\ _shift_days (_shift_days days a) (- a) = days
    /\ _shift_days days 7 = days.
Proof.
  intros ds a b days. subst days.
  pose proof (Forall_weekday_mod (fun d => d) ds) as Hds.
  assert (forall s,
            _shift_days (encode_days ((fun d => d mod 7) <$> ds)) s
            = encode_days ((fun d => (d + s) mod 7) <$> ds)) as Hone.
  { intros s. rewrite shift_days_encode by exact Hds.
    rewrite <- list_fmap_compose. f_equal. apply list_fmap_ext.
    intros _ d _. cbn. apply Zplus_mod_idemp_l. }
  assert (forall s t,
            _shift_days (encode_days ((fun d => (d + s) mod 7) <$> ds)) t
            = encode_days ((fun d => (d + (s + t)) mod 7) <$> ds)) as Htwo.
  { intros s t.
    rewrite shift_days_encode by apply (Forall_weekday_mod (fun d => d + s)).
    rewrite <- list_fmap_compose. f_equal. apply list_fmap_ext.
    intros _ d _. cbn. rewrite Zplus_mod_idemp_l. f_equal. lia. }
  split; [| split].
  - rewrite !Hone, Htwo. reflexivity.
  - rewrite Hone, Htwo. f_equal. apply list_fmap_ext.
    intros _ d _. cbn. f_equal. lia.
  - rewrite Hone. f_equal. apply list_fmap_ext.
    intros _ d _. cbn. rewrite <- (Z.mul_1_l 7) at 1. apply Z_mod_plus_full.
Qed.

(** X7: the weekly compiler moves a trigger by exactly the offset.  For a
    canonical time of day, a set of weekdays and an offset of at most a
    thousand million minutes, the compiler returns, and for every weekday
    of the set the position of the physical trigger in the week is the
    position of the logical one minus the offset, modulo the 10080 minutes
    of a week. *)
Theorem X7_weekly_trigger_moves_by_offset :
  forall (hh mm off : Z) (ds : list Z),
    0 <= hh <= 23 -> 0 <= mm <= 59 -> -1000000000 <= off <= 1000000000 ->
    exists h m s,
      compileWeekly (time_text hh mm) (encode_days ((fun d => d mod 7) <$> ds)) off
      = Ok (PhysicalWeekly h m
              (encode_days ((fun d => (d mod 7 + s) mod 7) <$> ds)))
      /\ forall d,
           minute_of_week ((d mod 7 + s) mod 7) h m
           = (minute_of_week (d mod 7) hh mm - off) mod 10080.
Proof.
  intros hh mm off ds Hh Hm Hoff.
  pose proof (parse_time_text hh mm ltac:(lia) Hm) as Hparse.
  destruct (convert_returns _ off hh mm Hparse Hh Hm Hoff) as (h & m & s & Hc).
  destruct (convert_parsed _ off hh mm h m s Hparse Hc) as (_ & Hr & Hid).
  exists h, m, s. split.
  - unfold compileWeekly. rewrite Hc. cbn [rbind]. do 2 f_equal.
    rewrite shift_days_encode by apply (Forall_weekday_mod (fun d => d)).
    rewrite <- list_fmap_compose. reflexivity.
  - intros d. unfold minute_of_week.
    rewrite Zminus_mod_idemp_l.
    replace (d mod 7 * 1440 + hh * 60 + mm - off)
      with (d mod 7 * 1440 + (s * 1440 + h * 60 + m)) by lia.
    replace (d mod 7 * 1440 + (s * 1440 + h * 60 + m))
      with ((d mod 7 + s) * 1440 + h * 60 + m) by lia.
    rewrite (Z.div_mod (d mod 7 + s) 7) at 2 by lia.
    replace ((7 * ((d mod 7 + s) / 7) + (d mod 7 + s) mod 7) * 1440
             + h * 60 + m)
      with (((d mod 7 + s) mod 7) * 1440 + h * 60 + m
            + ((d mod 7 + s) / 7) * 10080) by lia.
    rewrite Z_mod_plus_full. reflexivity.
Qed.

Lemma X7_witness :
  exists h m s,
    compileWeekly (time_text 0 30) (encode_days ((fun d => d mod 7) <$> [0; 2; 6])) 120
    = Ok (PhysicalWeekly h m
            (encode_days ((fun d => (d mod 7 + s) mod 7) <$> [0; 2; 6])))
    /\ forall d,
         minute_of_week ((d mod 7 + s) mod 7) h m
         = (minute_of_week (d mod 7) 0 30 - 120) mod 10080.
Proof.
  apply (X7_weekly_trigger_moves_by_offset 0 30 120 [0; 2; 6]); lia.
Defined.

(** ** The reminders table: toggle and delete *)

Section Rows.

Implicit Types (st : Store) (r row : Reminder) (rid : Z).

Lemma set_active_same r : set_active (r_active r) r = r.
Proof. destruct r. reflexivity. Qed.

Lemma store_eta st : {| reminders := reminders st; settings := settings st |} = st.
Proof. destruct st. reflexivity. Qed.

Lemma fetchone_some rid st row :
  Db.fetchone rid st = Some row -> row ∈ reminders st /\ r_id row = rid.
Proof.
  unfold Db.fetchone. intros H. apply List.find_some in H as [Hin Hid].
  split; [by apply list_elem_of_In | lia].
Qed.

Lemma fetchone_none rid st :
  Db.fetchone rid st = None <-> rid ∉ reminder_ids st.
Proof.
  unfold Db.fetchone, reminder_ids. split.
  - intros H Hin. apply list_elem_of_fmap in Hin as (r & -> & Hin).
    apply list_elem_of_In in Hin.
    pose proof (List.find_none _ _ H r Hin) as Hne. cbn in Hne. lia.
  - intros Hnot. destruct (List.find _ _) as [r |] eqn:E; [| reflexivity].
    apply List.find_some in E as [Hin Hid]. exfalso. apply Hnot.
    apply list_elem_of_fmap. exists r. split; [lia | by apply list_elem_of_In].
Qed.

(** With a primary key the row that [fetchone] returns is the only one of
    its identifier. *)
Lemma fetchone_unique rid st row :
  NoDup (reminder_ids st) -> Db.fetchone rid st = Some row ->
  forall r, r ∈ reminders st -> r_id r = rid -> r = row.
Proof.
  unfold reminder_ids, Db.fetchone.
  induction (reminders st) as [| a l IH]; cbn [fmap list_fmap List.find];
    [discriminate |].
  intros Hnd Hfind r Hin Hid. apply NoDup_cons in Hnd as [Hnot Hnd].
  destruct (Z.eqb_spec (r_id a) rid) as [Ha | Ha].
  - injection Hfind as <-. apply elem_of_cons in Hin as [-> | Hin]; [reflexivity |].
    exfalso. apply Hnot. apply list_elem_of_fmap. exists r. split; [congruence | exact Hin].
  - apply elem_of_cons in Hin as [-> | Hin]; [congruence |].
    by apply IH.
Qed.

Lemma find_fmap_same_id (f : Reminder -> Reminder) rid (l : list Reminder) :
  (forall r, r_id (f r) = r_id r) ->
  List.find (fun r => r_id r =? rid) (f <$> l)
  = f <$> List.find (fun r => r_id r =? rid) l.
Proof.
  intros Hf. induction l as [| a l IH]; cbn [fmap list_fmap List.find]; [reflexivity |].
  rewrite Hf. destruct (r_id a =? rid); [reflexivity | exact IH].
Qed.

Lemma toggle_run rid st :
  Db.toggle_reminder_status rid st
  = match Db.fetchone rid st with
    | Some row =>
        let x := if r_active row =? 1 then 0 else 1 in
        ({| reminders :=
              (fun r => if r_id r =? rid then set_active x r else r)
                <$> reminders st;
            settings := settings st |}, Some x)
    | None => (st, None)
    end.
Proof. reflexivity. Qed.

End Rows.

(** X8: with identifiers that are a primary key, toggling a reminder twice
    restores the store when its flag was 0 or 1, and the two calls report
    the flipped flag and then the original one. *)
Theorem X8_toggle_twice_restores :
  forall (st : Store) (rid : Z) (row : Reminder),
    NoDup (reminder_ids st) ->
    Db.fetchone rid st = Some row ->
    r_active row = 0 \/ r_active row = 1 ->
    let '(st1, v1) := Db.toggle_reminder_status rid st in
    let '(st2, v2) := Db.toggle_reminder_status rid st1 in
    st2 = st /\ v1 = Some (1 - r_active row) /\ v2 = Some (r_active row).
Proof.
  intros st rid row Hnd Hrow Hact.
  rewrite toggle_run, Hrow. cbv beta iota zeta.
  set (x := if r_active row =? 1 then 0 else 1).
  set (f := fun r => if r_id r =? rid then set_active x r else r).
  rewrite toggle_run. unfold Db.fetchone at 1. cbn [reminders].
  rewrite (find_fmap_same_id f) by (intros r; unfold f; destruct (r_id r =? rid); reflexivity).
  fold (Db.fetchone rid st). rewrite Hrow. cbn [fmap option_fmap option_map].
  destruct (fetchone_some rid st row Hrow) as [Hin Hid].
  assert (f row = set_active x row) as -> by (unfold f; rewrite Hid, Z.eqb_refl; reflexivity).
  cbn [r_active set_active settings reminders].
  assert ((if x =? 1 then 0 else 1) = r_active row) as Hback
    by (subst x; destruct Hact as [-> | ->]; reflexivity).
  rewrite Hback.
  assert ((fun r => if r_id r =? rid then set_active (r_active row) r else r)
            <$> (f <$> reminders st) = reminders st) as Hrows.
  { rewrite <- list_fmap_compose.
    transitivity (id <$> reminders st); [| apply list_fmap_id].
    apply list_fmap_ext. intros _ r Hr%list_elem_of_lookup_2. cbn. unfold f.
    destruct (Z.eqb_spec (r_id r) rid) as [Hr_id | Hne].
    - cbn [r_id set_active]. rewrite Hr_id, Z.eqb_refl.
      rewrite (fetchone_unique rid st row Hnd Hrow r Hr Hr_id).
      destruct row. reflexivity.
    - destruct (Z.eqb_spec (r_id r) rid); [contradiction | reflexivity]. }
  rewrite Hrows. split; [apply store_eta |]. split; [| reflexivity].
  subst x. destruct Hact as [-> | ->]; reflexivity.
Qed.

Lemma X8_witness :
  let st := store (mk_world [weekly_reminder 1 1 "09:00" "0";
                             weekly_reminder 2 0 "10:00" "all"] [] []) in
  let '(st1, v1) := Db.toggle_reminder_status 2 st in
  let '(st2, v2) := Db.toggle_reminder_status 2 st1 in
  st2 = st
  /\ v1 = Some (1 - r_active (weekly_reminder 2 0 "10:00" "all"))
  /\ v2 = Some (r_active (weekly_reminder 2 0 "10:00" "all")).
Proof.
  intros st.
  apply (X8_toggle_twice_restores st 2 (weekly_reminder 2 0 "10:00" "all")).
  - unfold reminder_ids. cbn. apply NoDup_cons. split; [| apply NoDup_singleton].
    intros Hin. apply list_elem_of_singleton in Hin. discriminate.
  - reflexivity.
  - left. reflexivity.
Defined.

(** X9: [toggle_reminder_status] touches nothing but the flag of the given
    identifier.  It reports [None] exactly when no row has the identifier,
    and then the store is unchanged; otherwise it reports 0 or 1, every row
    of the identifier carries that flag afterwards and is otherwise as
    before, and the rows of other identifiers, the order of the rows and the
    settings are unchanged. *)
Theorem X9_toggle_touches_only_the_flag :
  forall (st : Store) (rid : Z),
    let '(st', v) := Db.toggle_reminder_status rid st in
    settings st' = settings st
    /\ reminder_ids st' = reminder_ids st
    /\ (v = None <-> rid ∉ reminder_ids st)
    /\ (v = None -> st' = st)
    /\ (forall x, v = Some x ->
          (x = 0 \/ x = 1)
          /\ forall i r, reminders st !! i = Some r ->
               reminders st' !! i
               = Some (if r_id r =? rid then set_active x r else r)).
Proof.
  intros st rid.
  pose proof (toggle_reminder_ids rid st) as Hids.
  rewrite toggle_run in *.
  destruct (Db.fetchone rid st) as [row |] eqn:Hrow; cbv zeta in *; cbn [fst] in *.
  - destruct (fetchone_some rid st row Hrow) as [Hin Hid].
    split; [reflexivity |]. split; [exact Hids |].
    split; [| split].
    + split; [discriminate |]. intros Hnot. exfalso. apply Hnot.
      apply list_elem_of_fmap. exists row. split; [congruence | exact Hin].
    + discriminate.
    + intros x [= <-]. split; [destruct (r_active row =? 1); auto |].
      intros i r Hi. cbn [reminders]. rewrite list_lookup_fmap, Hi. reflexivity.
  - split; [reflexivity |]. split; [reflexivity |].
    split; [| split].
    + split; [intros _; by apply fetchone_none | reflexivity].
    + reflexivity.
    + discriminate.
Qed.

Lemma delete_reminder_absent (rid : Z) (st : Store) :
  rid ∉ reminder_ids st -> Db.delete_reminder rid st = st.
Proof.
  intros Hnot. unfold Db.delete_reminder.
  assert (List.filter (fun r => negb (r_id r =? rid)) (reminders st)
          = reminders st) as ->; [| apply store_eta].
  unfold reminder_ids in Hnot.
  induction (reminders st) as [| a l IH]; cbn [List.filter]; [reflexivity |].
  cbn [fmap list_fmap] in Hnot. apply not_elem_of_cons in Hnot as [Hne Hnot].
  assert ((r_id a =? rid) = false) as -> by lia. cbn [negb].
  f_equal. apply IH, Hnot.
Qed.

(** X10: [delete_reminder] removes exactly the rows of the given
    identifier and keeps the others in order with the settings: the rows
    left are rows of other identifiers, they stand in the table in the order
    they had, and as many rows are gone as carried the identifier.
    Deleting again changes nothing, deleting an absent identifier changes
    nothing, and a toggle of the deleted identifier finds no row. *)
Theorem X10_delete_removes_exactly_one_id :
  forall (st : Store) (rid : Z),
    let st' := Db.delete_reminder rid st in
    (forall r, r ∈ reminders st' <-> r ∈ reminders st /\ r_id r <> rid)
    /\ reminders st' `sublist_of` reminders st
    /\ (length (reminders st')
        + length (List.filter (fun r => (r_id r =? rid)%Z) (reminders st))
        = length (reminders st))%nat
    /\ settings st' = settings st
    /\ Db.delete_reminder rid st' = st'
    /\ Db.toggle_reminder_status rid st' = (st', None)
    /\ (rid ∉ reminder_ids st -> st' = st).
Proof.
  intros st rid st'. subst st'.
  assert (forall l : list Reminder,
            (forall r, r ∈ l -> r_id r <> rid) ->
            List.filter (fun r => negb (r_id r =? rid)) l = l) as Hfix.
  { induction l as [| a l IH]; intros Hall; cbn [List.filter]; [reflexivity |].
    assert (r_id a <> rid) by (apply Hall, list_elem_of_here).
    assert ((r_id a =? rid) = false) as -> by lia. cbn [negb].
    f_equal. apply IH. intros r Hr. apply Hall. by apply list_elem_of_further. }
  assert (forall r, r ∈ reminders (Db.delete_reminder rid st)
                    <-> r ∈ reminders st /\ r_id r <> rid) as Hmem.
  { intros r. unfold Db.delete_reminder. cbn [reminders].
    rewrite list_elem_of_In, List.filter_In, <- list_elem_of_In.
    split; intros [Hin Hne]; (split; [exact Hin | lia]). }
  split; [exact Hmem |].
  split.
  { unfold Db.delete_reminder. cbn [reminders]. clear Hmem.
    induction (reminders st) as [| a l IH]; cbn [List.filter];
      [apply sublist_nil |].
    destruct (negb (r_id a =? rid));
      [apply sublist_skip | apply sublist_cons]; exact IH. }
  split.
  { unfold Db.delete_reminder. cbn [reminders]. clear Hmem.
    induction (reminders st) as [| a l IH]; cbn [List.filter]; [reflexivity |].
    destruct (r_id a =? rid); cbn [negb length]; lia. }
  split; [reflexivity |]. split; [| split].
  - unfold Db.delete_reminder at 1. cbn [settings].
    rewrite Hfix by (intros r Hr; by apply Hmem in Hr as [_ ?]).
    reflexivity.
  - rewrite toggle_run.
    assert (Db.fetchone rid (Db.delete_reminder rid st) = None) as ->;
      [| reflexivity].
    apply fetchone_none, delete_reminder_gone.
  - intros Hnot. unfold Db.delete_reminder. rewrite Hfix; [apply store_eta |].
    intros r Hr Heq. apply Hnot. apply list_elem_of_fmap. exists r.
    split; [symmetry; exact Heq | exact Hr].
Qed.

(** ** Creating and deleting reminders from the chat *)

Section CreateDelete.

Implicit Types (s : Scheduler) (j : Job) (id : string).

Lemma scheduler_eta s : {| jobs := jobs s; running := running s |} = s.
Proof. destruct s. reflexivity. Qed.

Lemma discard_absent id s : Sched.is_armed id s = false -> discard id s = s.
Proof.
  intros H. unfold discard. rewrite filter_not_armed by exact H.
  apply scheduler_eta.
Qed.

(** Removing a job that was armed on a registry without it gives the
    registry back. *)
Lemma discard_arm_fresh j s :
  Sched.is_armed (job_id j) s = false -> discard (job_id j) (arm j s) = s.
Proof.
  intros H. unfold arm. rewrite H. unfold discard. cbn [jobs running].
  rewrite List.filter_app, filter_not_armed by exact H. cbn [List.filter].
  assert (Sched.has_id (job_id j) j = true) as -> by by apply has_id_true.
  cbn [negb]. rewrite app_nil_r. apply scheduler_eta.
Qed.

Lemma jobs_for_discard_other id id' s :
  id <> id' -> jobs_for id (discard id' s) = jobs_for id s.
Proof.
  intros Hne. unfold jobs_for, discard. cbn [jobs].
  induction (jobs s) as [| a l IH]; cbn [List.filter]; [reflexivity |].
  destruct (Sched.has_id id' a) eqn:Ea; cbn [negb List.filter].
  - apply has_id_true in Ea.
    assert (Sched.has_id id a = false) as -> by (apply has_id_false; congruence).
    exact IH.
  - destruct (Sched.has_id id a); rewrite IH; reflexivity.
Qed.

Lemma c_del_run (val : string) (rid : Z) (w : World) :
  Py.int val = Some rid ->
  c_del val w
  = (set_sched (discard (_job_id rid) (sched w))
       (set_store (Db.delete_reminder rid (store w)) w), Ok tt).
Proof.
  intros Hval. unfold c_del. unfold bind at 1. unfold lift, int_or_raise.
  rewrite Hval. unfold bind at 1. unfold with_store at 1. cbn match.
  fold (_job_id rid). rewrite try_remove_job. reflexivity.
Qed.

Lemma int_truthy_flag (b : bool) : int_truthy (if b then 1 else 0) = b.
Proof. destruct b; reflexivity. Qed.

End CreateDelete.

(** X11: [c_del] deletes the reminder and its job and nothing else: for a
    button that carries an integer the rows of that identifier are gone
    from the store, no job answers to it, the jobs of every other reminder
    and the maintenance job are as before and the registry keeps one job
    per identifier; a button that carries no integer raises before anything
    is touched. *)
Theorem X11_c_del_removes_row_and_job :
  forall (val : string) (w : World),
    match Py.int val with
    | Some rid =>
        let w' := exec (c_del val) w in
        store w' = Db.delete_reminder rid (store w)
        /\ (rid ∉ reminder_ids (store w'))
        /\ Sched.is_armed (_job_id rid) (sched w') = false
        /\ (forall rid2, rid2 <> rid ->
              jobs_for (_job_id rid2) (sched w') = jobs_for (_job_id rid2) (sched w))
        /\ jobs_for "weekly_maintenance" (sched w')
           = jobs_for "weekly_maintenance" (sched w)
        /\ (one_job_per_id (sched w) -> one_job_per_id (sched w'))
    | None => c_del val w = (w, Raise ValueError)
    end.
Proof.
  intros val w. destruct (Py.int val) as [rid |] eqn:Hval.
  - intros w'. subst w'. unfold exec. rewrite (c_del_run val rid w Hval).
    cbn [fst store sched set_sched set_store].
    split; [reflexivity |]. split; [apply delete_reminder_gone |].
    split; [apply discard_not_armed |]. split; [| split].
    + intros rid2 Hne. apply jobs_for_discard_other.
      intros Heq. apply _job_id_inj in Heq. contradiction.
    + apply jobs_for_discard_other. intros Heq. symmetry in Heq.
      by apply _job_id_not_maintenance in Heq.
    + apply discard_one_job_per_id.
  - unfold c_del, bind, lift, int_or_raise. rewrite Hval. reflexivity.
Qed.

(** What [confirm_reminder_h] does to the store and to the registry. *)
Lemma confirm_reminder_h_effect :
  forall strptime localize cron_dow_valid (now lastrowid : Z) (data : FormData)
         (w : World),
    let w' := exec (confirm_reminder_h strptime localize cron_dow_valid now
                      lastrowid data) w in
    match form_row lastrowid data with
    | None => w' = w
    | Some row =>
        store w' = {| reminders := reminders (store w) ++ [row];
                      settings := settings (store w) |}
        /\ r_active row = 1
        /\ sched w' =
           match Db.get_setting "group_chat_id" None (store w) with
           | Some cs =>
               match Py.truthy cs, Py.int cs with
               | true, Some cid =>
                   match plan_of strptime localize cron_dow_valid
                           (fun _ => now) (time_offset (store w)) cid row with
                   | Ok (Arm j) => arm j (sched w)
                   | _ => sched w
                   end
               | _, _ => sched w
               end
           | None => sched w
           end
    end.
Proof.
  intros until w. intros w'. subst w'.
  unfold confirm_reminder_h, form_row.
  destruct (f_thread_id data) as [thread_id |]; [| reflexivity].
  destruct (f_text data) as [text |]; [| reflexivity].
  destruct (f_time data) as [time |]; [| reflexivity].
  destruct (f_days data) as [days |]; [| reflexivity].
  destruct (f_needs_confirm data) as [nc |]; [| reflexivity].
  unfold exec.
  match goal with
  | |- context [fst (?m w)] => remember (fst (m w)) as w' eqn:Hw'
  end.
  unfold bind at 1 in Hw'. unfold with_store at 1, add_reminder at 1 in Hw'.
  cbn match in Hw'. unfold bind at 1 in Hw'. unfold read_store at 1 in Hw'.
  cbn [store] in Hw'.
  change (Db.get_setting "group_chat_id" None
            {| reminders := _; settings := settings (store w) |})
    with (Db.get_setting "group_chat_id" None (store w)) in Hw'.
  destruct (Db.get_setting "group_chat_id" None (store w)) as [cs |];
    cbn [opt_truthy opt_str] in Hw'; [| subst w'; repeat split; reflexivity].
  change (opt_str (Some cs)) with cs in Hw'.
  destruct (Py.truthy cs); [| subst w'; repeat split; reflexivity].
  unfold bind at 1 in Hw'. unfold lift at 1, int_or_raise in Hw'.
  destruct (Py.int cs) as [cid |]; [| subst w'; repeat split; reflexivity].
  rewrite add_reminder_to_scheduler_plan in Hw'. unfold plan_of.
  cbn [store r_id r_thread_id r_text r_time r_days r_needs_confirm
       r_specific_date r_is_recurring] in *.
  rewrite !int_truthy_flag.
  change (time_offset {| reminders := _; settings := settings (store w) |})
    with (time_offset (store w)) in Hw'.
  destruct (plan _ _ _ _ _ _ _ _ _ _ _ _ _ _) as [[ft | j] | e];
    subst w'; repeat split; reflexivity.
Qed.

(** X12: [confirm_reminder_h] stores the reminder as active and arms it as
    [load_reminders] would.  With a required field missing nothing changes.
    Otherwise the row of the form is appended to the table under the new
    identifier with [active] set, the settings are untouched, and the
    registry changes only when a chat is bound to an integer: then the job
    compiled from the row is armed, and nothing is armed when the row is
    skipped or fails to compile.  When the store with the new row loads
    without a failure, the jobs that answer to the new identifier are those
    that [load_reminders] leaves for it when it runs on that store, with
    the same clock reading, over the registry as it was. *)
Theorem X12_created_reminder_armed_as_reload_would :
  forall strptime localize cron_dow_valid (now lastrowid : Z) (data : FormData)
         (w : World),
    let w' := exec (confirm_reminder_h strptime localize cron_dow_valid now
                      lastrowid data) w in
    match form_row lastrowid data with
    | None => w' = w
    | Some row =>
        store w' = {| reminders := reminders (store w) ++ [row];
                      settings := settings (store w) |}
        /\ r_active row = 1
        /\ r_id row = lastrowid
        /\ sched w' =
           match Db.get_setting "group_chat_id" None (store w) with
           | Some cs =>
               match Py.truthy cs, Py.int cs with
               | true, Some cid =>
                   match plan_of strptime localize cron_dow_valid
                           (fun _ => now) (time_offset (store w)) cid row with
                   | Ok (Arm j) => arm j (sched w)
                   | _ => sched w
                   end
               | _, _ => sched w
               end
           | None => sched w
           end
        /\ (forall clock cid,
              clock lastrowid = now ->
              loads_without_failure strptime localize cron_dow_valid clock
                (store w') cid ->
              one_job_per_id (sched w) ->
              jobs_for (_job_id lastrowid) (sched w')
              = jobs_for (_job_id lastrowid)
                  (sched (exec (load_reminders strptime localize
                                  cron_dow_valid clock)
                            (set_store (store w') w))))
    end.
Proof.
  intros until w. intros w'.
  pose proof (confirm_reminder_h_effect strptime localize cron_dow_valid now
                lastrowid data w) as Heff.
  cbv zeta in Heff. fold w' in Heff.
  destruct (form_row lastrowid data) as [row |] eqn:Hrow; [| exact Heff].
  destruct Heff as (Hst & Hact & Hsched).
  assert (r_id row = lastrowid) as Hid.
  { unfold form_row in Hrow.
    destruct (f_thread_id data), (f_text data), (f_time data), (f_days data),
      (f_needs_confirm data); try discriminate.
    injection Hrow as <-. reflexivity. }
  split; [exact Hst |]. split; [exact Hact |]. split; [exact Hid |].
  split; [exact Hsched |].
  intros clock cid Hclock Hload Hinv.
  assert (row ∈ reminders (store w')) as Hin.
  { rewrite Hst. cbn [reminders]. apply elem_of_app. right.
    apply list_elem_of_here. }
  assert (int_truthy (r_active row) = true) as Htruthy by (by rewrite Hact).
  pose proof (load_reminders_jobs strptime localize cron_dow_valid clock
                (set_store (store w') w) cid Hload Hinv row Hin Htruthy) as Hjobs.
  rewrite Hid in Hjobs. rewrite Hjobs. clear Hjobs.
  cbn [store sched set_store].
  destruct Hload as ([cs [Hchat Hint]] & _ & _).
  assert (Db.get_setting "group_chat_id" None (store w) = Some cs) as Hchat'.
  { rewrite Hst in Hchat. exact Hchat. }
  assert (plan_of strptime localize cron_dow_valid clock
            (time_offset (store w')) cid row
          = plan_of strptime localize cron_dow_valid (fun _ => now)
              (time_offset (store w)) cid row) as ->.
  { unfold plan_of. rewrite Hid, Hclock, Hst. reflexivity. }
  rewrite Hsched, Hchat', (int_nonempty _ _ Hint), Hint.
  destruct (plan_of _ _ _ _ _ _ row) as [[ft | j] | e] eqn:Hp; try reflexivity.
  unfold plan_of in Hp.
  pose proof (plan_job_id _ _ _ _ _ _ _ _ _ _ _ _ _ _ _ Hp) as Hj.
  rewrite Hid in Hj. rewrite <- Hj. by apply jobs_for_arm.
Qed.

Lemma X12_witness :
  let data := {| f_thread_id := Some 1; f_text := Some "t";
                 f_time := Some "09:00"; f_days := Some "0,2";
                 f_needs_confirm := Some 0; f_specific_date := None;
                 f_is_recurring := Some 1 |} in
  let w := mk_world [weekly_reminder 1 1 "10:00" "all"]
             [("group_chat_id", "-100123")]
             [send_job 1 true (CronTrigger None 10 0)] in
  let w' := exec (confirm_reminder_h Calendar.strptime_iso localize_almaty
                    cron_weekdays 0 2 data) w in
  jobs_for (_job_id 2) (sched w')
  = jobs_for (_job_id 2)
      (sched (exec (load_reminders Calendar.strptime_iso localize_almaty
                      cron_weekdays (fun _ => 0))
                (set_store (store w') w)))
  /\ jobs_for (_job_id 2) (sched w')
     = [{| job_id := _job_id 2;
           job_func := SendReminderJob
             {| a_chat_id := -100123; a_thread_id := 1; a_text := "t";
                a_rid := 2; a_needs_confirm := false;
                a_is_recurring := true |};
           job_trigger := CronTrigger (Some "0,2") 9 0 |}].
Proof.
  intros data w w'.
  pose proof (X12_created_reminder_armed_as_reload_would Calendar.strptime_iso
                localize_almaty cron_weekdays 0 2 data w) as H.
  cbv zeta in H. fold w' in H.
  change (form_row 2 data)
    with (Some {| r_id := 2; r_thread_id := 1; r_text := "t";
                  r_time := "09:00"; r_days := "0,2"; r_active := 1;
                  r_specific_date := None; r_needs_confirm := 0;
                  r_is_recurring := 1 |}) in H.
  destruct H as (Hst & _ & _ & _ & Hload).
  split; [| vm_compute; reflexivity].
  apply (Hload (fun _ => 0) (-100123)).
  - reflexivity.
  - split; [| split].
    + exists "-100123". split; vm_compute; reflexivity.
    + rewrite Hst. unfold reminder_ids. cbn.
      apply (bool_decide_unpack _). vm_compute. exact I.
    + rewrite Hst. cbn [reminders]. intros r Hin _.
      apply elem_of_cons in Hin as [-> | Hin];
        [vm_compute; reflexivity |].
      apply list_elem_of_singleton in Hin. subst r. vm_compute. reflexivity.
  - unfold one_job_per_id. vm_compute. apply NoDup_singleton.
Defined.

(** X13: creating a reminder and deleting it again restores the store and
    the registry, for an identifier that is new to both: whatever the form
    and the settings, [c_del] after [confirm_reminder_h] leaves the rows,
    the settings and the jobs as they were. *)
Theorem X13_create_then_delete_restores :
  forall strptime localize cron_dow_valid (now lastrowid : Z) (data : FormData)
         (w : World),
    lastrowid ∉ reminder_ids (store w) ->
    Sched.is_armed (_job_id lastrowid) (sched w) = false ->
    let w1 := exec (confirm_reminder_h strptime localize cron_dow_valid now
                      lastrowid data) w in
    let w2 := exec (c_del (Py.str lastrowid)) w1 in
    store w2 = store w /\ sched w2 = sched w.
Proof.
  intros until w. intros Hfresh Hjob.
  pose proof (confirm_reminder_h_effect strptime localize cron_dow_valid now
                lastrowid data w) as Hcreate.
  cbv zeta in *.
  remember (exec (confirm_reminder_h strptime localize cron_dow_valid now
                    lastrowid data) w) as w1 eqn:Hw1.
  unfold exec at 1. unfold exec at 1.
  rewrite (c_del_run _ lastrowid w1 (int_str lastrowid)).
  cbn [fst store sched set_sched set_store].
  destruct (form_row lastrowid data) as [row |] eqn:Hrow.
  - destruct Hcreate as (Hst & _ & Hsched).
    assert (r_id row = lastrowid) as Hid.
    { unfold form_row in Hrow.
      destruct (f_thread_id data), (f_text data), (f_time data), (f_days data),
        (f_needs_confirm data); try discriminate.
      injection Hrow as <-. reflexivity. }
    split.
    + rewrite Hst. unfold Db.delete_reminder. cbn [reminders settings].
      rewrite List.filter_app. cbn [List.filter]. rewrite Hid, Z.eqb_refl.
      cbn [negb]. rewrite app_nil_r.
      apply delete_reminder_absent, Hfresh.
    + rewrite Hsched.
      destruct (Db.get_setting "group_chat_id" None (store w)) as [cs |];
        [| by apply discard_absent].
      destruct (Py.truthy cs), (Py.int cs) as [cid |];
        try (by apply discard_absent).
      destruct (plan_of _ _ _ _ _ _ _) as [[ft | j] | e] eqn:Hplan;
        try (by apply discard_absent).
      unfold plan_of in Hplan. rewrite Hid in Hplan.
      pose proof (plan_job_id _ _ _ _ _ _ _ _ _ _ _ _ _ _ _ Hplan) as Hj.
      rewrite <- Hj in *. by apply discard_arm_fresh.
  - rewrite Hcreate. split.
    + apply delete_reminder_absent, Hfresh.
    + by apply discard_absent.
Qed.

Lemma X13_witness :
  let data := {| f_thread_id := Some 1; f_text := Some "t";
                 f_time := Some "09:00"; f_days := Some "0,2";
                 f_needs_confirm := Some 0; f_specific_date := None;
                 f_is_recurring := Some 1 |} in
  let w := mk_world [weekly_reminder 1 1 "10:00" "all"]
             [("group_chat_id", "-100123")]
             [send_job 1 true (CronTrigger None 10 0)] in
  let w1 := exec (confirm_reminder_h Calendar.strptime_iso localize_almaty
                    cron_weekdays 0 2 data) w in
  let w2 := exec (c_del (Py.str 2)) w1 in
  length (jobs (sched w1)) = 2%nat /\ store w2 = store w /\ sched w2 = sched w.
Proof.
  intros data w w1 w2. split; [vm_compute; reflexivity |].
  apply (X13_create_then_delete_restores Calendar.strptime_iso localize_almaty
           cron_weekdays 0 2 data w).
  - unfold reminder_ids. cbn. intros Hin. apply list_elem_of_singleton in Hin.
    discriminate.
  - vm_compute. reflexivity.
Defined.

(** ** Binding the chat *)

(** X14: [cmd_bind] binds the chat so that loading can proceed.  Issued by
    an administrator in a group or supergroup it stores the chat
    identifier as a text that is non-empty and reads back as the
    identifier, and leaves the reminders and the correction alone; from
    anybody else or in any other chat it changes nothing. *)
Theorem X14_cmd_bind_binds_readable_chat :
  forall (admin_ids : list Z) (from_user_id : Z) (chat_type : string)
         (chat_id : Z) (w : World),
    let w' := exec (cmd_bind admin_ids from_user_id chat_type chat_id) w in
    if bool_decide (from_user_id ∈ admin_ids)
       && bool_decide (chat_type = "group" \/ chat_type = "supergroup")
    then
      exists cs,
        Db.get_setting "group_chat_id" None (store w') = Some cs
        /\ Py.truthy cs = true
        /\ Py.int cs = Some chat_id
        /\ reminders (store w') = reminders (store w)
        /\ time_offset (store w') = time_offset (store w)
        /\ sched w' = sched w
    else w' = w.
Proof.
  intros. subst w'. unfold exec, cmd_bind.
  destruct (bool_decide (from_user_id ∈ admin_ids)); cbn [negb andb];
    [| reflexivity].
  destruct (decide (chat_type = "group" \/ chat_type = "supergroup")) as [Hg | Hg].
  - rewrite (bool_decide_eq_true_2 _ Hg).
    assert (bool_decide (chat_type ∈ ["group"; "supergroup"]) = true) as ->.
    { apply bool_decide_eq_true. destruct Hg as [-> | ->]; set_solver. }
    cbn [negb]. unfold with_store. cbn [fst store sched].
    exists (Py.str chat_id).
    split; [| split; [| split; [| split; [| split]]]]; try reflexivity.
    + unfold Db.get_setting, set_setting. cbn [settings].
      rewrite lookup_insert_eq. reflexivity.
    + eapply int_nonempty, int_str.
    + apply int_str.
    + unfold time_offset, Db.get_setting, set_setting. cbn [settings].
      rewrite lookup_insert_ne by discriminate. reflexivity.
  - rewrite (bool_decide_eq_false_2 _ Hg).
    assert (bool_decide (chat_type ∈ ["group"; "supergroup"]) = false) as ->.
    { apply bool_decide_eq_false. intros Hin. apply Hg.
      apply elem_of_cons in Hin as [-> | Hin]; [by left |].
      apply list_elem_of_singleton in Hin. by right. }
    reflexivity.
Qed.

(** ** Job identifiers *)

(** X15: job identifiers keep reminders apart: two reminders have the same
    job identifier only if they are the same reminder, and no reminder's
    job identifier is that of the maintenance job. *)
Theorem X15_job_ids_distinct :
  forall rid1 rid2 : Z,
    (_job_id rid1 = _job_id rid2 <-> rid1 = rid2)
    /\ _job_id rid1 <> job_id maintenance_job.
Proof.
  intros rid1 rid2. split.
  - split; [apply _job_id_inj | by intros ->].
  - apply _job_id_not_maintenance.
Qed.

(** ** Failures are contained *)

(** X16: the exceptions of class [Exception] are contained in the delivery
    callback, the loader and the reload.  While the store answers its
    queries, [send_reminder_job], [load_reminders] and [reload_scheduler]
    return without raising whenever [bot.send_message] returns or raises
    such an exception, whatever rows and settings the store holds: a job
    that is missing when it is removed, a chat identifier, time or date
    that cannot be read, an offset out of range and a weekday expression
    the trigger refuses are all caught.  What is outside the class
    [Exception], such as the cancellation of the task, is outside this
    statement, as is a failure of the store itself. *)
Theorem X16_failures_are_contained :
  (forall outcome chat_id thread_id text rid needs_confirm is_recurring,
     never_raises (send_reminder_job outcome chat_id thread_id text rid
                     needs_confirm is_recurring))
  /\ (forall strptime localize cron_dow_valid clock,
        never_raises (load_reminders strptime localize cron_dow_valid clock))
  /\ (forall strptime localize cron_dow_valid clock,
        never_raises (reload_scheduler strptime localize cron_dow_valid clock)).
Proof.
  split; [| split].
  - intros. unfold send_reminder_job. apply never_raises_try_except.
    intros e. destruct e; auto 8 with returns.
  - apply never_raises_load_reminders.
  - apply never_raises_reload_scheduler.
Qed.

(** ** Topics and their cache *)

Section TopicsFacts.

Import TopicsDb.

Lemma prefix_append (p x : string) : String.prefix p (p +:+ x) = true.
Proof.
  induction p as [| c p IH]; [destruct x; reflexivity |].
  change (String c p +:+ x) with (String c (p +:+ x)). cbn [String.prefix].
  destruct (ascii_dec c c); [exact IH | contradiction].
Qed.

Lemma is_generic_placeholder (x : string) : is_generic (generic_prefix +:+ x) = true.
Proof. apply prefix_append. Qed.

Lemma add_topic_sync (thread_id : Z) (name : string) (t : Topics) :
  cache_in_sync t -> cache_in_sync (add_topic_if_not_exists thread_id name t).
Proof.
  unfold cache_in_sync, add_topic_if_not_exists. intros Hsync.
  destruct (decide (thread_id ∈ topics_cache t)) as [Hin | Hnot].
  - rewrite (bool_decide_eq_true_2 _ Hin).
    destruct (negb (is_generic name)); [| exact Hsync].
    destruct (topics t !! thread_id) as [old |] eqn:Hold; [| exact Hsync].
    destruct (is_generic old); [| exact Hsync].
    cbn [topics topics_cache]. rewrite dom_insert_L, Hsync.
    rewrite Hsync in Hin. symmetry. apply subseteq_union_1_L.
    by apply singleton_subseteq_l.
  - rewrite (bool_decide_eq_false_2 _ Hnot). cbn [topics topics_cache].
    destruct (topics t !! thread_id) as [old |] eqn:Hold.
    + exfalso. apply Hnot. rewrite Hsync. apply elem_of_dom. by eexists.
    + rewrite dom_insert_L, Hsync. apply (comm_L (∪)).
Qed.

End TopicsFacts.

(** X17: the topic cache stays in step with the table: when the cache
    holds exactly the threads of the table, it still does after
    [set_topic_name], [add_topic_if_not_exists] and [delete_topic]. *)
Theorem X17_topics_cache_in_sync :
  forall (t : Topics) (thread_id : Z) (name : string),
    TopicsDb.cache_in_sync t ->
    TopicsDb.cache_in_sync (TopicsDb.set_topic_name thread_id name t)
    /\ TopicsDb.cache_in_sync (TopicsDb.add_topic_if_not_exists thread_id name t)
    /\ TopicsDb.cache_in_sync (TopicsDb.delete_topic thread_id t).
Proof.
  intros t thread_id name Hsync. split; [| split].
  - unfold TopicsDb.cache_in_sync, TopicsDb.set_topic_name in *.
    cbn [topics topics_cache]. rewrite dom_insert_L, Hsync. apply (comm_L (∪)).
  - by apply add_topic_sync.
  - unfold TopicsDb.cache_in_sync, TopicsDb.delete_topic in *.
    cbn [topics topics_cache]. rewrite dom_delete_L, Hsync. reflexivity.
Qed.

Lemma X17_witness :
  let t := {| topics := {[ 1 := "General" ]}; topics_cache := {[ 1 ]} |} in
  TopicsDb.cache_in_sync (TopicsDb.set_topic_name 7 "Ops" t)
  /\ TopicsDb.cache_in_sync (TopicsDb.add_topic_if_not_exists 7 "Ops" t)
  /\ TopicsDb.cache_in_sync (TopicsDb.delete_topic 7 t).
Proof.
  intros t. apply (X17_topics_cache_in_sync t 7 "Ops").
  unfold TopicsDb.cache_in_sync, t. cbn [topics topics_cache].
  rewrite dom_singleton_L. reflexivity.
Defined.

(** X18: [add_topic_if_not_exists] never replaces a real name and fills in
    placeholders.  With the cache in step, the name of the thread
    afterwards is the given one when the thread was unknown or when its
    stored name was a placeholder and the given one is not, and the stored
    one otherwise; other threads keep their names; and the name
    [get_topic_name] makes up for an unknown thread is a placeholder. *)
Theorem X18_add_topic_keeps_real_names :
  forall (t : Topics) (thread_id : Z) (name : string),
    TopicsDb.cache_in_sync t ->
    let t' := TopicsDb.add_topic_if_not_exists thread_id name t in
    topics t' !! thread_id
    = Some (match topics t !! thread_id with
            | Some old =>
                if TopicsDb.is_generic old && negb (TopicsDb.is_generic name)
                then name else old
            | None => name
            end)
    /\ (forall other, other <> thread_id ->
          topics t' !! other = topics t !! other)
    /\ (topics t !! thread_id = None ->
        TopicsDb.is_generic (TopicsDb.get_topic_name thread_id t) = true).
Proof.
  intros t thread_id name Hsync t'. subst t'.
  unfold TopicsDb.cache_in_sync in Hsync.
  unfold TopicsDb.add_topic_if_not_exists.
  destruct (decide (thread_id ∈ topics_cache t)) as [Hin | Hnot].
  - rewrite (bool_decide_eq_true_2 _ Hin).
    assert (is_Some (topics t !! thread_id)) as [old Hold]
      by (apply elem_of_dom; by rewrite <- Hsync).
    rewrite Hold.
    split; [| split; [| congruence]].
    + destruct (TopicsDb.is_generic name); cbn [negb];
        [by rewrite andb_false_r |].
      rewrite ?Hold. rewrite andb_true_r.
      destruct (TopicsDb.is_generic old); [| exact Hold].
      cbn [topics]. apply lookup_insert_eq.
    + intros other Hne. destruct (negb (TopicsDb.is_generic name)); [| reflexivity].
      rewrite ?Hold. destruct (TopicsDb.is_generic old); [| reflexivity].
      cbn [topics]. apply lookup_insert_ne. congruence.
  - rewrite (bool_decide_eq_false_2 _ Hnot). cbn [topics].
    assert (topics t !! thread_id = None) as Hnone
      by (apply not_elem_of_dom; by rewrite <- Hsync).
    rewrite Hnone. split; [apply lookup_insert_eq |].
    split; [intros other Hne; apply lookup_insert_ne; congruence |].
    intros _. unfold TopicsDb.get_topic_name. rewrite Hnone.
    apply is_generic_placeholder.
Qed.

Lemma X18_witness :
  let t := {| topics := {[ 7 := TopicsDb.get_topic_name 7
                                  {| topics := ∅; topics_cache := ∅ |} ]};
              topics_cache := {[ 7 ]} |} in
  let t' := TopicsDb.add_topic_if_not_exists 7 "Ops" t in
  topics t' !! 7
  = Some (match topics t !! 7 with
          | Some old =>
              if TopicsDb.is_generic old && negb (TopicsDb.is_generic "Ops")
              then "Ops" else old
          | None => "Ops"
          end)
  /\ (forall other, other <> 7 -> topics t' !! other = topics t !! other)
  /\ (topics t !! 7 = None ->
      TopicsDb.is_generic (TopicsDb.get_topic_name 7 t) = true).
Proof.
  intros t. apply (X18_add_topic_keeps_real_names t 7 "Ops").
  unfold TopicsDb.cache_in_sync, t. cbn [topics topics_cache].
  rewrite dom_singleton_L. reflexivity.
Defined.

(** ** The time picker *)

Section TimePicker.

Lemma adjust_time_text (h m : Z) (adj : string) :
  0 <= h <= 23 -> 0 <= m <= 59 ->
  adjust_time_h (time_text h m) adj
  = let? (h', m') :=
      if String.eqb adj "+1h" then Ok ((h + 1) mod 24, m)
      else if String.eqb adj "-1h" then Ok ((h - 1) mod 24, m)
      else if String.eqb adj "+5m" then Ok (h, (m + 5) mod 60)
      else if String.eqb adj "-5m" then Ok (h, (m - 5) mod 60)
      else if String.prefix "m" adj then
        let? m1 := int_or_raise (String.substring 1 (String.length adj - 1) adj) in
        Ok (h, m1)
      else Ok (h, m) in
    Ok (time_text h' m').
Proof.
  intros Hh Hm. unfold adjust_time_h.
  rewrite parse_time_text by lia. reflexivity.
Qed.

End TimePicker.

(** X19: the time picker stays on the clock.  From a canonical time of day
    every button of the picker gives a canonical time of day again.  The
    hour buttons leave the minute and move the hour by one, from 23 on to 0
    and from 0 back to 23; the other buttons leave the hour; [+5m] and
    [-5m] move the minute by five within the hour, past 59 on to the start
    and past 0 back to the end, without touching the hour; the presets set
    the minute to 0, 15, 30 and 45.  [+1h] and [-1h] undo each other, as do
    [+5m] and [-5m]; and the converter accepts the resulting time for every
    offset of at most a thousand million minutes. *)
Theorem X19_time_picker_stays_on_the_clock :
  forall (h m : Z) (adj : string),
    0 <= h <= 23 -> 0 <= m <= 59 -> adj ∈ picker_buttons ->
    exists h' m',
      adjust_time_h (time_text h m) adj = Ok (time_text h' m')
      /\ (0 <= h' <= 23 /\ 0 <= m' <= 59)
      /\ (adj = "+1h" \/ adj = "-1h" -> m' = m)
      /\ (adj <> "+1h" -> adj <> "-1h" -> h' = h)
      /\ (adj = "+1h" -> h' = if h =? 23 then 0 else h + 1)
      /\ (adj = "-1h" -> h' = if h =? 0 then 23 else h - 1)
      /\ (adj = "+5m" -> m' = if m <? 55 then m + 5 else m - 55)
      /\ (adj = "-5m" -> m' = if 5 <=? m then m - 5 else m + 55)
      /\ (adj = "m00" -> m' = 0)
      /\ (adj = "m15" -> m' = 15)
      /\ (adj = "m30" -> m' = 30)
      /\ (adj = "m45" -> m' = 45)
      /\ (adj = "+1h" -> adjust_time_h (time_text h' m') "-1h" = Ok (time_text h m))
      /\ (adj = "-1h" -> adjust_time_h (time_text h' m') "+1h" = Ok (time_text h m))
      /\ (adj = "+5m" -> adjust_time_h (time_text h' m') "-5m" = Ok (time_text h m))
      /\ (adj = "-5m" -> adjust_time_h (time_text h' m') "+5m" = Ok (time_text h m))
      /\ (forall off, -1000000000 <= off <= 1000000000 ->
            exists ph pm s,
              _convert_bot_time_to_server (time_text h' m') off = Ok (ph, pm, s)).
Proof.
  intros h m adj Hh Hm Hadj.
  assert (forall h' m', 0 <= h' <= 23 -> 0 <= m' <= 59 ->
            forall off, -1000000000 <= off <= 1000000000 ->
              exists ph pm s,
                _convert_bot_time_to_server (time_text h' m') off = Ok (ph, pm, s))
    as Hconv.
  { intros h' m' Hh' Hm' off Hoff.
    apply (convert_returns _ off h' m'); [apply parse_time_text; lia | lia..]. }
  pose proof (Z.mod_pos_bound (h + 1) 24 ltac:(lia)) as Bh1.
  pose proof (Z.mod_pos_bound (h - 1) 24 ltac:(lia)) as Bh2.
  pose proof (Z.mod_pos_bound (m + 5) 60 ltac:(lia)) as Bm1.
  pose proof (Z.mod_pos_bound (m - 5) 60 ltac:(lia)) as Bm2.
  unfold picker_buttons in Hadj.
  repeat (apply elem_of_cons in Hadj as [-> | Hadj]);
    [.. | by apply elem_of_nil in Hadj].
  - exists ((h + 1) mod 24), m.
    split; [by rewrite adjust_time_text by lia |]. split; [lia |].
    split; [reflexivity |]. split; [intros H; by destruct H |].
    split; [intros _; destruct (Z.eqb_spec h 23); Z.div_mod_to_equations; lia |].
    do 7 (split; [discriminate |]).
    split; [| do 3 (split; [discriminate |]); apply Hconv; lia].
    intros _. rewrite adjust_time_text by lia. cbn. do 2 f_equal.
    Z.div_mod_to_equations. lia.
  - exists ((h - 1) mod 24), m.
    split; [by rewrite adjust_time_text by lia |]. split; [lia |].
    split; [reflexivity |]. split; [intros _ H; by destruct H |].
    split; [discriminate |].
    split; [intros _; destruct (Z.eqb_spec h 0); Z.div_mod_to_equations; lia |].
    do 7 (split; [discriminate |]).
    split; [| do 2 (split; [discriminate |]); apply Hconv; lia].
    intros _. rewrite adjust_time_text by lia. cbn. do 2 f_equal.
    Z.div_mod_to_equations. lia.
  - exists h, ((m + 5) mod 60).
    split; [by rewrite adjust_time_text by lia |]. split; [lia |].
    split; [intros [H | H]; discriminate H |]. split; [reflexivity |].
    do 2 (split; [discriminate |]).
    split; [intros _; destruct (Z.ltb_spec m 55); Z.div_mod_to_equations; lia |].
    do 7 (split; [discriminate |]).
    split; [| split; [discriminate |]; apply Hconv; lia].
    intros _. rewrite adjust_time_text by lia. cbn. do 2 f_equal.
    Z.div_mod_to_equations. lia.
  - exists h, ((m - 5) mod 60).
    split; [by rewrite adjust_time_text by lia |]. split; [lia |].
    split; [intros [H | H]; discriminate H |]. split; [reflexivity |].
    do 3 (split; [discriminate |]).
    split; [intros _; destruct (Z.leb_spec 5 m); Z.div_mod_to_equations; lia |].
    do 7 (split; [discriminate |]).
    split; [| apply Hconv; lia].
    intros _. rewrite adjust_time_text by lia. cbn. do 2 f_equal.
    Z.div_mod_to_equations. lia.
  - exists h, 0. split; [by rewrite adjust_time_text by lia |].
    split; [lia |]. split; [intros [H | H]; discriminate H |].
    split; [reflexivity |].
    do 4 (split; [discriminate |]). split; [reflexivity |].
    do 7 (split; [discriminate |]). apply Hconv; lia.
  - exists h, 15. split; [by rewrite adjust_time_text by lia |].
    split; [lia |]. split; [intros [H | H]; discriminate H |].
    split; [reflexivity |].
    do 5 (split; [discriminate |]). split; [reflexivity |].
    do 6 (split; [discriminate |]). apply Hconv; lia.
  - exists h, 30. split; [by rewrite adjust_time_text by lia |].
    split; [lia |]. split; [intros [H | H]; discriminate H |].
    split; [reflexivity |].
    do 6 (split; [discriminate |]). split; [reflexivity |].
    do 5 (split; [discriminate |]). apply Hconv; lia.
  - exists h, 45. split; [by rewrite adjust_time_text by lia |].
    split; [lia |]. split; [intros [H | H]; discriminate H |].
    split; [reflexivity |].
    do 7 (split; [discriminate |]). split; [reflexivity |].
    do 4 (split; [discriminate |]). apply Hconv; lia.
Qed.

Lemma X19_witness :
  exists h' m',
    adjust_time_h (time_text 23 58) "+1h" = Ok (time_text h' m')
    /\ (0 <= h' <= 23 /\ 0 <= m' <= 59)
    /\ h' = 0 /\ m' = 58.
Proof.
  destruct (X19_time_picker_stays_on_the_clock 23 58 "+1h")
    as (h' & m' & Hrun & Hrange & Hmin & _ & Hhour & _); [lia | lia | |].
  - unfold picker_buttons. apply list_elem_of_here.
  - exists h', m'. split; [exact Hrun |]. split; [exact Hrange |].
    split; [exact (Hhour eq_refl) | apply Hmin; by left].
Defined.

(** ** The weekday picker *)

Section DayPicker.

Implicit Types (day d : string) (sel : list string).

Lemma elem_of_remove_first day d sel :
  NoDup sel -> (d ∈ remove_first day sel <-> d ∈ sel /\ d <> day).
Proof.
  induction sel as [| y sel IH]; cbn [remove_first]; intros Hnd.
  - split; [intros H; by apply elem_of_nil in H | intros [H _]; by apply elem_of_nil in H].
  - apply NoDup_cons in Hnd as [Hnot Hnd].
    destruct (String.eqb_spec y day) as [-> | Hne].
    + rewrite elem_of_cons. split.
      * intros Hd. split; [by right |]. intros ->. contradiction.
      * intros [[-> | Hd] Hne]; [contradiction | exact Hd].
    + rewrite !elem_of_cons, (IH Hnd). split.
      * intros [-> | [Hd Hneq]]; [split; [by left | exact Hne] |].
        split; [by right | exact Hneq].
      * intros [[-> | Hd] Hneq]; [by left | right; by split].
Qed.

Lemma NoDup_remove_first day sel : NoDup sel -> NoDup (remove_first day sel).
Proof.
  induction sel as [| y sel IH]; cbn [remove_first]; intros Hnd; [exact Hnd |].
  pose proof Hnd as Hnd'. apply NoDup_cons in Hnd as [Hnot Hnd].
  destruct (String.eqb y day); [exact Hnd |].
  apply NoDup_cons. split; [| by apply IH].
  intros Hin. apply elem_of_remove_first in Hin as [Hin _]; [| exact Hnd].
  contradiction.
Qed.

Lemma t_day_elem day d sel :
  NoDup sel ->
  (d ∈ t_day day sel <-> (d = day /\ day ∉ sel) \/ (d <> day /\ d ∈ sel)).
Proof.
  intros Hnd. unfold t_day.
  destruct (decide (day ∈ sel)) as [Hin | Hnot].
  - rewrite (bool_decide_eq_true_2 _ Hin), (elem_of_remove_first _ _ _ Hnd).
    split; [intros [Hd Hne]; by right | intros [[_ Hn] | [Hne Hd]]; [contradiction | by split]].
  - rewrite (bool_decide_eq_false_2 _ Hnot), elem_of_app, list_elem_of_singleton.
    split.
    + intros [Hd | ->]; [right; split; [intros ->; contradiction | exact Hd] | by left].
    + intros [[-> _] | [_ Hd]]; [by right | by left].
Qed.

Lemma t_day_NoDup day sel : NoDup sel -> NoDup (t_day day sel).
Proof.
  intros Hnd. unfold t_day.
  destruct (decide (day ∈ sel)) as [Hin | Hnot].
  - rewrite (bool_decide_eq_true_2 _ Hin). by apply NoDup_remove_first.
  - rewrite (bool_decide_eq_false_2 _ Hnot). apply NoDup_app.
    split; [exact Hnd |]. split; [| apply NoDup_singleton].
    intros x Hx Hx'. apply list_elem_of_singleton in Hx'. by subst x.
Qed.

(** The saved text depends on the selection as a set of buttons only. *)
Lemma f_rem_Permutation sel1 sel2 :
  sel1 ≡ₚ sel2 -> f_rem (DaysList sel1) = f_rem (DaysList sel2).
Proof.
  intros Hperm.
  assert (merge_sort String.le sel1 = merge_sort String.le sel2) as Hsort.
  { apply (Sorted_unique String.le).
    - apply Sorted_merge_sort; apply _.
    - apply Sorted_merge_sort; apply _.
    - by rewrite !merge_sort_Permutation. }
  destruct sel1 as [| a l1], sel2 as [| b l2]; cbn [f_rem].
  - reflexivity.
  - by apply Permutation_nil_cons in Hperm.
  - symmetry in Hperm. by apply Permutation_nil_cons in Hperm.
  - by rewrite Hsort.
Qed.

End DayPicker.

(** X20: a day button flips that day and nothing else.  On a selection
    without repetitions, [t_day] leaves a selection without repetitions in
    which the pressed day is present exactly when it was absent before and
    every other day is present exactly when it was before; pressing the
    same button twice gives back the selection up to order, and the
    weekday text [f_rem] saves for it is the same. *)
Theorem X20_day_button_flips_one_day :
  forall (day : string) (sel : list string),
    NoDup sel ->
    NoDup (t_day day sel)
    /\ (day ∈ t_day day sel <-> day ∉ sel)
    /\ (forall d, d <> day -> (d ∈ t_day day sel <-> d ∈ sel))
    /\ t_day day (t_day day sel) ≡ₚ sel
    /\ f_rem (DaysList (t_day day (t_day day sel))) = f_rem (DaysList sel).
Proof.
  intros day sel Hnd.
  pose proof (t_day_NoDup day sel Hnd) as Hnd1.
  assert (t_day day (t_day day sel) ≡ₚ sel) as Hperm.
  { apply NoDup_Permutation; [by apply t_day_NoDup | exact Hnd |].
    intros d. rewrite (t_day_elem day d _ Hnd1).
    rewrite !(t_day_elem day _ sel Hnd).
    destruct (decide (d = day)) as [-> | Hne]; destruct (decide (day ∈ sel)); tauto. }
  split; [exact Hnd1 |]. split; [| split; [| split]].
  - rewrite (t_day_elem day day sel Hnd). tauto.
  - intros d Hne. rewrite (t_day_elem day d sel Hnd). tauto.
  - exact Hperm.
  - by apply f_rem_Permutation.
Qed.

Lemma X20_witness :
  NoDup (t_day "2" ["0"; "2"; "6"])
  /\ ("2" ∈ t_day "2" ["0"; "2"; "6"] <-> "2" ∉ ["0"; "2"; "6"])
  /\ (forall d, d <> "2" -> (d ∈ t_day "2" ["0"; "2"; "6"] <-> d ∈ ["0"; "2"; "6"]))
  /\ t_day "2" (t_day "2" ["0"; "2"; "6"]) ≡ₚ ["0"; "2"; "6"]
  /\ f_rem (DaysList (t_day "2" (t_day "2" ["0"; "2"; "6"])))
     = f_rem (DaysList ["0"; "2"; "6"]).
Proof.
  apply (X20_day_button_flips_one_day "2" ["0"; "2"; "6"]).
  apply (bool_decide_unpack _). vm_compute. exact I.
Defined.

(** X21: the weekday text that is saved does not depend on the order in
    which the day buttons were pressed: two selections with the same days
    are saved as the same text, which lists the days in ascending order;
    with nothing selected nothing is saved. *)
Theorem X21_saved_weekdays_are_ordered :
  forall sel1 sel2 : list string,
    sel1 ≡ₚ sel2 ->
    f_rem (DaysList sel1) = f_rem (DaysList sel2)
    /\ (sel1 <> [] ->
        exists sorted,
          f_rem (DaysList sel1) = Some (Py.join "," sorted)
          /\ sorted ≡ₚ sel1 /\ Sorted String.le sorted)
    /\ f_rem (DaysList []) = None.
Proof.
  intros sel1 sel2 Hperm. split; [by apply f_rem_Permutation |].
  split; [| reflexivity].
  intros Hne. exists (merge_sort String.le sel1).
  split; [destruct sel1; [congruence | reflexivity] |].
  split; [apply merge_sort_Permutation | apply Sorted_merge_sort; apply _].
Qed.

Lemma X21_witness :
  f_rem (DaysList ["6"; "0"; "2"]) = f_rem (DaysList ["2"; "6"; "0"])
  /\ (["6"; "0"; "2"] <> [] ->
      exists sorted,
        f_rem (DaysList ["6"; "0"; "2"]) = Some (Py.join "," sorted)
        /\ sorted ≡ₚ ["6"; "0"; "2"] /\ Sorted String.le sorted)
  /\ f_rem (DaysList []) = None.
Proof.
  apply (X21_saved_weekdays_are_ordered ["6"; "0"; "2"] ["2"; "6"; "0"]).
  apply (bool_decide_unpack _). vm_compute. exact I.
Defined.

(** ** The welcome switch *)

(** X22: [tog_welcome] writes only the welcome switch: the other settings,
    the reminders, the jobs and the log stay as they are.  After it the
    switch reads on exactly when the stored value was the text 0 or was
    missing, so a stored value other than 0 and 1, which reads off, still
    reads off after the first press; from then on every press flips the
    reading. *)
Theorem X22_welcome_switch :
  forall w : World,
    let w' := exec tog_welcome w in
    welcome_enabled (store w')
      = bool_decide (Db.get_setting "welcome_enabled" (Some "0") (store w) = Some "0")
    /\ welcome_enabled (store (exec tog_welcome w'))
       = negb (welcome_enabled (store w'))
    /\ (forall key, key <> "welcome_enabled" ->
          settings (store w') !! key = settings (store w) !! key)
    /\ reminders (store w') = reminders (store w)
    /\ sched w' = sched w
    /\ log w' = log w.
Proof.
  intros w w'.
  assert (forall v : World,
            store (exec tog_welcome v)
            = set_setting "welcome_enabled"
                (if bool_decide
                      (Db.get_setting "welcome_enabled" (Some "0") (store v) = Some "0")
                 then "1" else "0") (store v)
            /\ sched (exec tog_welcome v) = sched v
            /\ log (exec tog_welcome v) = log v) as Hrun.
  { intros v. unfold exec, tog_welcome, bind, read_store, with_store.
    cbn [fst store sched log]. repeat split. }
  destruct (Hrun w) as (Hst & Hsc & Hlg). fold w' in Hst, Hsc, Hlg.
  destruct (Hrun w') as (Hst2 & _ & _).
  assert (Db.get_setting "welcome_enabled" (Some "0") (store w')
          = Some (if bool_decide
                       (Db.get_setting "welcome_enabled" (Some "0") (store w) = Some "0")
                  then "1" else "0")) as Hread.
  { rewrite Hst. unfold Db.get_setting at 1, set_setting. cbn [settings].
    by rewrite lookup_insert_eq. }
  split; [| split; [| split; [| split; [| split]]]].
  - unfold welcome_enabled. rewrite Hread.
    destruct (bool_decide (Db.get_setting _ _ (store w) = Some "0")); reflexivity.
  - assert (forall x st,
              Db.get_setting "welcome_enabled" (Some "0")
                (set_setting "welcome_enabled" x st) = Some x) as Hget.
    { intros x st. unfold Db.get_setting, set_setting. cbn [settings].
      by rewrite lookup_insert_eq. }
    unfold welcome_enabled. rewrite Hst2, Hget, Hread.
    destruct (bool_decide (Db.get_setting _ _ (store w) = Some "0")); reflexivity.
  - intros key Hne. rewrite Hst. unfold set_setting. cbn [settings].
    by rewrite lookup_insert_ne.
  - rewrite Hst. reflexivity.
  - exact Hsc.
  - exact Hlg.
Qed.
